(** * Vox: recording session and transcription client

    A shallow embedding of [vox.py] (terminal front end) and of the
    transcription and capture callbacks of [vox_gui.py] (graphical front
    end), together with the properties of the recording-session lifecycle
    and of the transcription call.

    Conventions of the embedding:
    - Python [str] values are [string]s; a character is identified with its
      code point, restricted to 0..255.
    - The filesystem is a finite map from path strings to file contents.
    - The module-level globals ([recording_process], [audio_data],
      [stop_event], ...) are the fields of one [world] record, threaded
      through a small program monad [prog].
    - The main thread is interleaved with the capture callback, the input
      monitor, the wait timeout and SIGINT through an explicit schedule. *)

From Stdlib Require Import ZArith Ascii String List Bool Lia.
From stdpp Require Import base option list gmap strings pretty.

Local Open Scope string_scope.
Local Open Scope Z_scope.

(** ** Python string helpers *)

Module PyStr.

(** [str.isspace] on the code points 0..255: TAB..CR, FS..US, space,
    NEL (0x85) and NBSP (0xa0). *)
Definition is_space (c : ascii) : bool :=
  let n := Z.of_N (N_of_ascii c) in
  ((9 <=? n) && (n <=? 13)) || ((28 <=? n) && (n <=? 32))
  || (n =? 133) || (n =? 160).

Definition is_empty (s : string) : bool :=
  match s with EmptyString => true | String _ _ => false end.

(** [s.lstrip()] *)
Fixpoint lstrip (s : string) : string :=
  match s with
  | EmptyString => EmptyString
  | String c r => if is_space c then lstrip r else s
  end.

(** [s.rstrip()] *)
Fixpoint rstrip (s : string) : string :=
  match s with
  | EmptyString => EmptyString
  | String c r =>
      let r' := rstrip r in
      if is_empty r' && is_space c then EmptyString else String c r'
  end.

(** [s.strip()] *)
Definition strip (s : string) : string := lstrip (rstrip s).

(** [str(n)] for an integer. *)
Definition str_of_Z (n : Z) : string := pretty n.

End PyStr.

(** ** JSON values, as [response.json()] returns them *)

#[warnings="-register-all"]
Inductive json : Type :=
| JNull
| JBool (b : bool)
| JInt (n : Z)
| JFloat (repr : string)   (* a float, carried by its Python [repr] *)
| JStr (s : string)
| JArr (items : list json)
| JObj (fields : list (string * json)).  (* a dict, in insertion order *)

(** Exceptions the programs can raise. *)
Inductive exn : Type :=
| KeyError
| IndexError
| TypeError
| AttributeError
| ValueError
| FileNotFoundError
| UnicodeDecodeError
| KeyboardInterrupt
| RequestException (detail : string).

Module Json.

Fixpoint assoc (k : string) (l : list (string * json)) : option json :=
  match l with
  | [] => None
  | (k', v) :: r => if String.eqb k k' then Some v else assoc k r
  end.

(** [v[key]] for a string key. *)
Definition getitem_key (v : json) (key : string) : exn + json :=
  match v with
  | JObj fields =>
      match assoc key fields with
      | Some x => inr x
      | None => inl KeyError
      end
  | _ => inl TypeError
  end.

(** [v[0]]: a dict of a JSON object has only string keys, so the integer
    key is missing; a string yields its first character. *)
Definition getitem_0 (v : json) : exn + json :=
  match v with
  | JArr (x :: _) => inr x
  | JArr [] => inl IndexError
  | JObj _ => inl KeyError
  | JStr (String c _) => inr (JStr (String c EmptyString))
  | JStr EmptyString => inl IndexError
  | _ => inl TypeError
  end.

Definition and_then (r : exn + json) (f : json -> exn + json) : exn + json :=
  match r with
  | inl e => inl e
  | inr v => f v
  end.

(** [body["results"]["channels"][0]["alternatives"][0]["transcript"]] *)
Definition transcript_of (body : json) : exn + json :=
  and_then (getitem_key body "results") (fun r =>
  and_then (getitem_key r "channels") (fun cs =>
  and_then (getitem_0 cs) (fun c =>
  and_then (getitem_key c "alternatives") (fun alts =>
  and_then (getitem_0 alts) (fun a =>
  getitem_key a "transcript"))))).

(** *** [json.dumps] with its default options *)

Definition hex_digit (n : N) : ascii :=
  match n with
  | 0%N => "0" | 1%N => "1" | 2%N => "2" | 3%N => "3" | 4%N => "4"
  | 5%N => "5" | 6%N => "6" | 7%N => "7" | 8%N => "8" | 9%N => "9"
  | 10%N => "a" | 11%N => "b" | 12%N => "c" | 13%N => "d" | 14%N => "e"
  | _ => "f"
  end%char.

Definition escape_char (c : ascii) : string :=
  let n := N_of_ascii c in
  if (n =? 34)%N then "\" ++ String c EmptyString
  else if (n =? 92)%N then "\\"
  else if (n =? 10)%N then "\n"
  else if (n =? 13)%N then "\r"
  else if (n =? 9)%N then "\t"
  else if (n =? 8)%N then "\b"
  else if (n =? 12)%N then "\f"
  else if ((32 <=? n) && (n <=? 126))%N then String c EmptyString
  else "\u00" ++ String (hex_digit (n / 16)) (String (hex_digit (n mod 16)) EmptyString).

Fixpoint escape (s : string) : string :=
  match s with
  | EmptyString => EmptyString
  | String c r => escape_char c ++ escape r
  end.

Definition quote (s : string) : string :=
  String (ascii_of_N 34) (escape s) ++ String (ascii_of_N 34) EmptyString.

Fixpoint join (sep : string) (l : list string) : string :=
  match l with
  | [] => EmptyString
  | [x] => x
  | x :: r => x ++ sep ++ join sep r
  end.

Fixpoint dumps (v : json) : string :=
  match v with
  | JNull => "null"
  | JBool true => "true"
  | JBool false => "false"
  | JInt n => PyStr.str_of_Z n
  | JFloat repr => repr
  | JStr s => quote s
  | JArr items => "[" ++ join ", " (map dumps items) ++ "]"
  | JObj fields =>
      "{" ++ join ", " (map (fun kv => quote (fst kv) ++ ": " ++ dumps (snd kv)) fields) ++ "}"
  end.

(** [json.dumps(v, indent=2)], used by the debug echo. *)
Definition nl : string := String (ascii_of_N 10) EmptyString.

Fixpoint spaces (n : nat) : string :=
  match n with
  | O => EmptyString
  | S m => String (ascii_of_N 32) (spaces m)
  end.

Fixpoint dumps_indent (lvl : nat) (v : json) : string :=
  let pad := spaces (2 * S lvl) in
  match v with
  | JArr [] => "[]"
  | JArr items =>
      "[" ++ nl ++ join ("," ++ nl) (map (fun x => pad ++ dumps_indent (S lvl) x) items)
      ++ nl ++ spaces (2 * lvl) ++ "]"
  | JObj [] => "{}"
  | JObj fields =>
      "{" ++ nl
      ++ join ("," ++ nl)
           (map (fun kv => pad ++ quote (fst kv) ++ ": " ++ dumps_indent (S lvl) (snd kv)) fields)
      ++ nl ++ spaces (2 * lvl) ++ "}"
  | _ => dumps v
  end.

End Json.

(** ** Data of the recording session and of the transcription call *)

(** A float32 sample, identified with its 32-bit pattern. *)
Definition sample : Type := Z.

(** A two-dimensional numpy array of shape [(frames, nd_cols)], stored
    row-major. *)
Record ndarray : Type := { nd_cols : Z; nd_data : list sample }.

(** What [scipy.io.wavfile.write] stores: the rate tag, the channel count
    and the interleaved samples. *)
Record wav : Type := { wav_rate : Z; wav_channels : Z; wav_samples : list sample }.

Inductive fcontent : Type :=
| FText (s : string)
| FWav (w : wav).

(** An [sd.InputStream]. *)
Record stream : Type :=
  { s_samplerate : Z; s_channels : Z; s_active : bool; s_closed : bool }.

Record request : Type :=
  { req_url : string;
    req_authorization : string;
    req_content_type : string;
    req_body : fcontent }.

(** A [requests.Response]: [resp_text] is the body as received;
    [resp_json] is what [response.json()] gives, [inl detail] when the body
    is not JSON (a [JSONDecodeError], which is a [RequestException]). *)
Record response : Type :=
  { resp_status : Z;
    resp_reason : string;
    resp_url : string;
    resp_text : string;
    resp_json : string + json }.

Inductive net_result : Type :=
| NetFail (detail : string)      (* connection error *)
| NetReply (r : response).

(** What the process reads from its surroundings and never changes. *)
Record env : Type :=
  { home : string;                 (* Path.home() *)
    DEEPGRAM_API_KEY : string;
    MAX_DURATION : Z;
    DEEPGRAM_MODEL : string;
    argv : list string;
    pid : Z;                       (* os.getpid() *)
    now : string;                  (* time.strftime('%Y%m%d_%H%M%S') *)
    endpoint : request -> net_result }.

(** The mutable state: the filesystem, the module globals, the output
    streams, the clipboard, the requests sent, and the two attributes of the
    window that the graphical [transcribe] writes. *)
Record world : Type := mkWorld
  { fs : gmap string fcontent;
    recording_process : option stream;
    audio_data : list ndarray;
    stop_event : bool;
    monitor_started : bool;        (* the monitor_input thread runs *)
    sigint_installed : bool;       (* signal.signal(SIGINT, signal_handler) done *)
    DEBUG : bool;
    stdout : list string;
    stderr : list string;
    clipboard : option string;
    net_log : list request;
    status_label : string;
    self_transcript : json }.

Definition set_fs (f : gmap string fcontent -> gmap string fcontent) (w : world) : world :=
  mkWorld (f (fs w)) (recording_process w) (audio_data w) (stop_event w)
    (monitor_started w) (sigint_installed w) (DEBUG w) (stdout w) (stderr w)
    (clipboard w) (net_log w) (status_label w) (self_transcript w).

Definition set_recording_process (r : option stream) (w : world) : world :=
  mkWorld (fs w) r (audio_data w) (stop_event w)
    (monitor_started w) (sigint_installed w) (DEBUG w) (stdout w) (stderr w)
    (clipboard w) (net_log w) (status_label w) (self_transcript w).

Definition set_audio_data (a : list ndarray) (w : world) : world :=
  mkWorld (fs w) (recording_process w) a (stop_event w)
    (monitor_started w) (sigint_installed w) (DEBUG w) (stdout w) (stderr w)
    (clipboard w) (net_log w) (status_label w) (self_transcript w).

Definition set_stop_event (b : bool) (w : world) : world :=
  mkWorld (fs w) (recording_process w) (audio_data w) b
    (monitor_started w) (sigint_installed w) (DEBUG w) (stdout w) (stderr w)
    (clipboard w) (net_log w) (status_label w) (self_transcript w).

Definition set_monitor_started (b : bool) (w : world) : world :=
  mkWorld (fs w) (recording_process w) (audio_data w) (stop_event w)
    b (sigint_installed w) (DEBUG w) (stdout w) (stderr w)
    (clipboard w) (net_log w) (status_label w) (self_transcript w).

Definition set_sigint_installed (b : bool) (w : world) : world :=
  mkWorld (fs w) (recording_process w) (audio_data w) (stop_event w)
    (monitor_started w) b (DEBUG w) (stdout w) (stderr w)
    (clipboard w) (net_log w) (status_label w) (self_transcript w).

Definition set_DEBUG (b : bool) (w : world) : world :=
  mkWorld (fs w) (recording_process w) (audio_data w) (stop_event w)
    (monitor_started w) (sigint_installed w) b (stdout w) (stderr w)
    (clipboard w) (net_log w) (status_label w) (self_transcript w).

(** [print(s)] *)
Definition print_out (s : string) (w : world) : world :=
  mkWorld (fs w) (recording_process w) (audio_data w) (stop_event w)
    (monitor_started w) (sigint_installed w) (DEBUG w) (stdout w ++ [s]) (stderr w)
    (clipboard w) (net_log w) (status_label w) (self_transcript w).

(** [print(s, file=sys.stderr)] *)
Definition print_err (s : string) (w : world) : world :=
  mkWorld (fs w) (recording_process w) (audio_data w) (stop_event w)
    (monitor_started w) (sigint_installed w) (DEBUG w) (stdout w) (stderr w ++ [s])
    (clipboard w) (net_log w) (status_label w) (self_transcript w).

(** [pyperclip.copy(s)] *)
Definition set_clipboard (s : string) (w : world) : world :=
  mkWorld (fs w) (recording_process w) (audio_data w) (stop_event w)
    (monitor_started w) (sigint_installed w) (DEBUG w) (stdout w) (stderr w)
    (Some s) (net_log w) (status_label w) (self_transcript w).

Definition log_request (r : request) (w : world) : world :=
  mkWorld (fs w) (recording_process w) (audio_data w) (stop_event w)
    (monitor_started w) (sigint_installed w) (DEBUG w) (stdout w) (stderr w)
    (clipboard w) (net_log w ++ [r]) (status_label w) (self_transcript w).

(** [self.status_label.setText(s)] *)
Definition set_status_label (s : string) (w : world) : world :=
  mkWorld (fs w) (recording_process w) (audio_data w) (stop_event w)
    (monitor_started w) (sigint_installed w) (DEBUG w) (stdout w) (stderr w)
    (clipboard w) (net_log w) s (self_transcript w).

Definition set_self_transcript (t : json) (w : world) : world :=
  mkWorld (fs w) (recording_process w) (audio_data w) (stop_event w)
    (monitor_started w) (sigint_installed w) (DEBUG w) (stdout w) (stderr w)
    (clipboard w) (net_log w) (status_label w) t.

(** File operations on the file map. Directories are not part of it. *)
Definition write_file (path : string) (c : fcontent) : world -> world :=
  set_fs (fun m => <[path := c]> m).

(** [Path(path).unlink(missing_ok=True)] *)
Definition unlink (path : string) : world -> world :=
  set_fs (fun m => delete path m).

(** [Path(path).exists()] *)
Definition file_exists (path : string) (w : world) : bool :=
  bool_decide (is_Some (fs w !! path)).

(** ** numpy, scipy and requests helpers *)

(** [np.concatenate(arrays)] along axis 0: fails on no array and on arrays
    whose column counts differ. *)
Definition np_concatenate (arrays : list ndarray) : exn + ndarray :=
  match arrays with
  | [] => inl ValueError
  | a :: _ =>
      if forallb (fun b => nd_cols b =? nd_cols a) arrays
      then inr {| nd_cols := nd_cols a; nd_data := concat (map nd_data arrays) |}
      else inl ValueError
  end.

(** [wavfile.write(path, rate, data)] for two-dimensional [data]: the
    channel count is [data.shape[1]]. *)
Definition wavfile_write (path : string) (rate : Z) (data : ndarray) : world -> world :=
  write_file path
    (FWav {| wav_rate := rate; wav_channels := nd_cols data; wav_samples := nd_data data |}).

(** The message of the [HTTPError] that [response.raise_for_status()]
    raises, if it raises. *)
Definition http_error_msg (r : response) : option string :=
  let s := resp_status r in
  if (400 <=? s) && (s <? 500) then
    Some (PyStr.str_of_Z s ++ " Client Error: " ++ resp_reason r ++ " for url: " ++ resp_url r)
  else if (500 <=? s) && (s <? 600) then
    Some (PyStr.str_of_Z s ++ " Server Error: " ++ resp_reason r ++ " for url: " ++ resp_url r)
  else None.

(** ** Programs

    A Python function is a tree of atomic statements over the [world]. A
    [Yield] stands between two statements of the main thread: there the
    other threads and the signal handler may run. [WaitStop] is
    [stop_event.wait(timeout=MAX_DURATION)]. [Exit] is [sys.exit(code)] and
    [Raise] an exception on its way up. *)

Inductive prog (A : Type) : Type :=
| Ret (a : A)
| Exit (code : Z)
| Raise (e : exn)
| Get (k : world -> prog A)
| Put (w : world) (k : prog A)
| Yield (k : prog A)
| WaitStop (k : prog A).

Arguments Ret {A} a.
Arguments Exit {A} code.
Arguments Raise {A} e.
Arguments Get {A} k.
Arguments Put {A} w k.
Arguments Yield {A} k.
Arguments WaitStop {A} k.

Fixpoint bind {A B : Type} (p : prog A) (f : A -> prog B) : prog B :=
  match p with
  | Ret a => f a
  | Exit c => Exit c
  | Raise e => Raise e
  | Get k => Get (fun w => bind (k w) f)
  | Put w k => Put w (bind k f)
  | Yield k => Yield (bind k f)
  | WaitStop k => WaitStop (bind k f)
  end.

#[global] Instance prog_ret : MRet prog := @Ret.
#[global] Instance prog_bind : MBind prog := fun A B f p => bind p f.

(** [try: p except ...: h]: [h e] is the matching handler, if there is
    one. [sys.exit] is not an exception these handlers catch. *)
Fixpoint try_except {A : Type} (p : prog A) (h : exn -> option (prog A)) : prog A :=
  match p with
  | Ret a => Ret a
  | Exit c => Exit c
  | Raise e => match h e with Some q => q | None => Raise e end
  | Get k => Get (fun w => try_except (k w) h)
  | Put w k => Put w (try_except k h)
  | Yield k => Yield (try_except k h)
  | WaitStop k => WaitStop (try_except k h)
  end.

(** One statement that updates the state. *)
Definition stmt (f : world -> world) : prog unit :=
  Yield (Get (fun w => Put (f w) (Ret tt))).

(** One statement that reads the state and goes on with [k]. *)
Definition observe {A : Type} (k : world -> prog A) : prog A :=
  Yield (Get k).

(** An update inside the current statement. *)
Definition modify (f : world -> world) : prog unit :=
  Get (fun w => Put (f w) (Ret tt)).

(** ** Running programs *)

Inductive result (A : Type) : Type :=
| Returned (a : A)
| Exited (code : Z)
| Died (e : exn).      (* uncaught exception *)

Arguments Returned {A} a.
Arguments Exited {A} code.
Arguments Died {A} e.

(** The status the operating system sees: an uncaught exception ends the
    interpreter with status 1, an uncaught [KeyboardInterrupt] with 130. *)
Definition exit_status {A : Type} (r : result A) : Z :=
  match r with
  | Returned _ => 0
  | Exited c => c
  | Died KeyboardInterrupt => 130
  | Died _ => 1
  end.

(** A run that nothing interrupts; a wait ends by its timeout. *)
Fixpoint run_atomic {A : Type} (p : prog A) (w : world) : result A * world :=
  match p with
  | Ret a => (Returned a, w)
  | Exit c => (Exited c, w)
  | Raise e => (Died e, w)
  | Get k => run_atomic (k w) w
  | Put w' k => run_atomic k w'
  | Yield k => run_atomic k w
  | WaitStop k => run_atomic k w
  end.

(** What happens around the main thread.
    - [EvYield]: the main thread runs its next statement.
    - [EvBlock frames status]: the driver delivers a block to the callback.
    - [EvEnter]: [monitor_input] sees the Enter key and sets the event.
    - [EvTimeout]: the timeout of the current wait elapses.
    - [EvSigint]: SIGINT is delivered. *)
Inductive event : Type :=
| EvYield
| EvBlock (frames : list sample) (status : string)
| EvEnter
| EvTimeout
| EvSigint.

(** How a run ends other than by the main thread's own return. *)
Inductive halt : Type :=
| HExit (code : Z)
| HDied (e : exn).

Definition halt_result {A : Type} (h : halt) : result A :=
  match h with
  | HExit c => Exited c
  | HDied e => Died e
  end.

Inductive pumped : Type :=
| Resume (sch : list event) (w : world)
| Stop (h : halt) (w : world).

Section Interleaving.

(** The SIGINT handler and the stream callback of the front end. *)
Variable handler : prog unit.
Variable callback : ndarray -> string -> prog unit.

(** One asynchronous event. The stream calls back only while it is
    active, with blocks of its own channel count; the monitor thread
    exists only once started; before a handler is installed SIGINT raises
    [KeyboardInterrupt] in the main thread. *)
Definition async (ev : event) (w : world) : option halt * world :=
  match ev with
  | EvYield | EvTimeout => (None, w)
  | EvBlock frames status =>
      match recording_process w with
      | Some st =>
          if s_active st
          then (None, snd (run_atomic
                  (callback {| nd_cols := s_channels st; nd_data := frames |} status) w))
          else (None, w)
      | None => (None, w)
      end
  | EvEnter =>
      if monitor_started w then (None, set_stop_event true w) else (None, w)
  | EvSigint =>
      if sigint_installed w then
        match run_atomic handler w with
        | (Returned _, w') => (None, w')
        | (Exited c, w') => (Some (HExit c), w')
        | (Died e, w') => (Some (HDied e), w')
        end
      else (Some (HDied KeyboardInterrupt), w)
  end.

(** Between two statements: the events up to the next [EvYield]. *)
Fixpoint pump (sch : list event) (w : world) : pumped :=
  match sch with
  | [] => Resume [] w
  | EvYield :: r => Resume r w
  | ev :: r =>
      match async ev w with
      | (Some h, w') => Stop h w'
      | (None, w') => pump r w'
      end
  end.

(** [stop_event.wait(timeout)]: returns at once when the event is set,
    else when it becomes set or the timeout elapses. The timeout is
    finite: a schedule that ends lets it elapse. *)
Fixpoint await (sch : list event) (w : world) : pumped :=
  if stop_event w then Resume sch w
  else
    match sch with
    | [] => Resume [] w
    | EvTimeout :: r => Resume r w
    | ev :: r =>
        match async ev w with
        | (Some h, w') => Stop h w'
        | (None, w') => await r w'
        end
    end.

(** The main thread under a schedule. *)
Fixpoint exec {A : Type} (p : prog A) (sch : list event) (w : world) : result A * world :=
  match p with
  | Ret a => (Returned a, w)
  | Exit c => (Exited c, w)
  | Raise e => (Died e, w)
  | Get k => exec (k w) sch w
  | Put w' k => exec k sch w'
  | Yield k =>
      match pump sch w with
      | Resume sch' w' => exec k sch' w'
      | Stop h w' => (halt_result h, w')
      end
  | WaitStop k =>
      match await sch w with
      | Resume sch' w' => exec k sch' w'
      | Stop h w' => (halt_result h, w')
      end
  end.

End Interleaving.

(** ** vox.py *)

Module Vox.

Definition SAMPLE_RATE : Z := 16000.
Definition CHANNELS : Z := 1.
Definition AUDIO_FORMAT : string := "wav".

Section Program.

Variable e : env.

Definition PID_FILE : string := home e ++ "/.recordpid".
Definition AUDIO_FILE_TRACKER : string := home e ++ "/.recordaudio".
Definition BASE_FILE : string := home e ++ "/.vox/recording".

Definition check_environment : prog unit :=
  observe (fun _ =>
    if PyStr.is_empty (DEEPGRAM_API_KEY e) then
      stmt (print_err "Error: DEEPGRAM_API_KEY environment variable is not set.") ;;
      stmt (print_err "Please set it with: export DEEPGRAM_API_KEY='your-api-key'") ;;
      stmt (print_err "Get your API key from https://console.deepgram.com") ;;
      Yield (Exit 1)
    else Ret tt).

Definition callback (indata : ndarray) (status : string) : prog unit :=
  observe (fun _ =>
    if PyStr.is_empty status then Ret tt
    else modify (print_err ("Error: " ++ status))) ;;
  observe (fun w =>
    if negb (stop_event w)
    then Put (set_audio_data (audio_data w ++ [indata]) w) (Ret tt)
    else Ret tt).

(** A method call on the global [recording_process]. *)
Definition on_stream (f : stream -> stream) : prog unit :=
  observe (fun w =>
    match recording_process w with
    | Some st => Put (set_recording_process (Some (f st)) w) (Ret tt)
    | None => Raise AttributeError
    end).

Definition stream_start (st : stream) : stream :=
  {| s_samplerate := s_samplerate st; s_channels := s_channels st;
     s_active := true; s_closed := s_closed st |}.

Definition stream_stop (st : stream) : stream :=
  {| s_samplerate := s_samplerate st; s_channels := s_channels st;
     s_active := false; s_closed := s_closed st |}.

Definition stream_close (st : stream) : stream :=
  {| s_samplerate := s_samplerate st; s_channels := s_channels st;
     s_active := false; s_closed := true |}.

Definition cleanup : prog unit :=
  observe (fun w =>
    match recording_process w with
    | Some _ =>
        on_stream stream_stop ;;
        on_stream stream_close ;;
        stmt (set_recording_process None)
    | None => Ret tt
    end) ;;
  stmt (unlink PID_FILE) ;;
  stmt (unlink AUDIO_FILE_TRACKER).

Definition signal_handler : prog unit :=
  stmt (print_out (Json.nl ++ "> Ctrl+C detected, stopping recording...")) ;;
  stmt (set_stop_event true) ;;
  cleanup ;;
  Yield (Exit 0).

(** [Path(path).read_text()] *)
Definition read_text (path : string) : prog string :=
  Get (fun w =>
    match fs w !! path with
    | Some (FText s) => Ret s
    | Some (FWav _) => Raise UnicodeDecodeError
    | None => Raise FileNotFoundError
    end).

Definition stop_recording : prog string :=
  stmt (print_out "> Stopping recording...") ;;
  observe (fun w =>
    if file_exists PID_FILE w && bool_decide (is_Some (recording_process w)) then
      stmt (set_stop_event true) ;;
      audio_file ← Yield (s ← read_text AUDIO_FILE_TRACKER; Ret (PyStr.strip s)) ;
      observe (fun w =>
        match audio_data w with
        | _ :: _ =>
            observe (fun w =>
              match np_concatenate (audio_data w) with
              | inr data => Put (wavfile_write audio_file SAMPLE_RATE data w) (Ret tt)
              | inl x => Raise x
              end) ;;
            cleanup ;;
            stmt (print_out "Recording stopped.") ;;
            Yield (Ret audio_file)
        | [] =>
            stmt (print_out "No audio data recorded.") ;;
            cleanup ;;
            Yield (Exit 1)
        end)
    else
      stmt (print_out "No recording to stop.") ;;
      cleanup ;;
      Yield (Exit 1)).

Definition audio_file_name : string :=
  BASE_FILE ++ "_" ++ now e ++ "." ++ AUDIO_FORMAT.

Definition start_recording : prog string :=
  cleanup ;;
  stmt (fun w => w) ;;   (* BASE_FILE.parent.mkdir(parents=True, exist_ok=True) *)
  stmt (write_file AUDIO_FILE_TRACKER (FText audio_file_name)) ;;
  stmt (print_out ("> Recording started to " ++ audio_file_name ++ "...")) ;;
  stmt (print_out ("Press Enter to stop early (max "
                   ++ PyStr.str_of_Z (MAX_DURATION e) ++ " seconds).")) ;;
  stmt (set_audio_data []) ;;
  stmt (set_stop_event false) ;;
  stmt (set_recording_process
          (Some {| s_samplerate := SAMPLE_RATE; s_channels := CHANNELS;
                   s_active := false; s_closed := false |})) ;;
  on_stream stream_start ;;
  stmt (write_file PID_FILE (FText (PyStr.str_of_Z (pid e)))) ;;
  stmt (fun w => w) ;;   (* the display_counter thread; its output is not recorded *)
  stmt (set_monitor_started true) ;;
  Yield (WaitStop (Ret tt)) ;;
  observe (fun w =>
    if negb (stop_event w) then Put (set_stop_event true w) (Ret tt) else Ret tt) ;;
  stop_recording.

Definition request_for (content : fcontent) : request :=
  {| req_url := "https://api.deepgram.com/v1/listen?model=" ++ DEEPGRAM_MODEL e
                ++ "&smart_format=true";
     req_authorization := "Token " ++ DEEPGRAM_API_KEY e;
     req_content_type := "audio/" ++ AUDIO_FORMAT;
     req_body := content |}.

(** [response.json()] *)
Definition response_json (r : response) : prog json :=
  match resp_json r with
  | inr j => Ret j
  | inl detail => Raise (RequestException detail)
  end.

Definition transcribe (audio_file : string) : prog unit :=
  observe (fun w =>
    if PyStr.is_empty audio_file || negb (file_exists audio_file w) then
      stmt (print_err "Error: Audio file missing or not set") ;;
      Yield (Exit 1)
    else
      stmt (print_out ("> Transcribing with Deepgram API (model: "
                         ++ DEEPGRAM_MODEL e ++ ")...")) ;;
      let error_file := audio_file ++ ".error" in
      let json_file := audio_file ++ ".json" in
      let txt_file := audio_file ++ ".txt" in
      try_except
        (response ← observe (fun w =>
             match fs w !! audio_file with
             | None => Raise FileNotFoundError
             | Some content =>
                 Put (log_request (request_for content) w)
                   match endpoint e (request_for content) with
                   | NetFail detail => Raise (RequestException detail)
                   | NetReply r => Ret r
                   end
             end) ;
         Yield match http_error_msg response with
               | Some msg => Raise (RequestException msg)
               | None => Ret tt
               end ;;
         (* with open(json_file, "w") as f: json.dump(response.json(), f) *)
         stmt (write_file json_file (FText EmptyString)) ;;
         body ← Yield (response_json response) ;
         modify (write_file json_file (FText (Json.dumps body))) ;;
         observe (fun w =>
           if DEBUG w then
             stmt (print_err ("DEBUG: Full Deepgram API response saved in "
                              ++ json_file ++ ":")) ;;
             body ← Yield (response_json response) ;
             modify (print_err (Json.dumps_indent 0 body))
           else Ret tt) ;;
         transcript ← Yield (body ← response_json response ;
                             match Json.transcript_of body with
                             | inr t => Ret t
                             | inl x => Raise x
                             end) ;
         (* with open(txt_file, "w") as f: f.write(transcript.rstrip()) *)
         stmt (write_file txt_file (FText EmptyString)) ;;
         text ← Yield match transcript with
                      | JStr s => modify (write_file txt_file (FText (PyStr.rstrip s))) ;; Ret s
                      | _ => Raise AttributeError
                      end ;
         stmt (set_clipboard text) ;;
         stmt (print_out ("> Transcript copied to clipboard from " ++ txt_file)) ;;
         stmt (unlink error_file))
        (fun x =>
           match x with
           | RequestException detail => Some (
               stmt (write_file error_file (FText detail)) ;;
               stmt (print_err ("Error: Transcription failed. Deepgram response saved in "
                                ++ error_file)) ;;
               Yield (Exit 1))
           | KeyError | IndexError => Some (
               stmt (print_err ("Error: Failed to extract transcript from JSON, check "
                                ++ json_file)) ;;
               Yield (Exit 1))
           | _ => None
           end)).

Definition main : prog unit :=
  check_environment ;;
  stmt (set_sigint_installed true) ;;
  observe (fun _ =>
    match argv e with
    | _ :: a1 :: _ => if String.eqb a1 "debug" then stmt (set_DEBUG true) else Ret tt
    | _ => Ret tt
    end) ;;
  audio_file ← start_recording ;
  observe (fun _ =>
    if PyStr.is_empty audio_file then Ret tt else transcribe audio_file).

(** The process under a schedule. *)
Definition run {A : Type} (p : prog A) : list event -> world -> result A * world :=
  exec signal_handler callback p.

End Program.

End Vox.

(** ** vox_gui.py: the capture callback and the transcription call *)

Module VoxGui.

Definition AUDIO_FORMAT : string := "wav".

(** The configuration attributes of the window. *)
Record vox_window : Type :=
  { deepgram_api_key : string;
    max_duration : Z;
    deepgram_model : string }.

Section Program.

Variable e : env.
Variable self : vox_window.

Definition callback (indata : ndarray) (status : string) : prog unit :=
  observe (fun _ =>
    if PyStr.is_empty status then Ret tt
    else modify (set_status_label ("Error: " ++ status))) ;;
  observe (fun w =>
    if negb (stop_event w)
    then Put (set_audio_data (audio_data w ++ [indata]) w) (Ret tt)
    else Ret tt).

Definition request_for (content : fcontent) : request :=
  {| req_url := "https://api.deepgram.com/v1/listen?model=" ++ deepgram_model self
                ++ "&smart_format=true";
     req_authorization := "Token " ++ deepgram_api_key self;
     req_content_type := "audio/" ++ AUDIO_FORMAT;
     req_body := content |}.

(** [debug_mode] is the global that [toggle_debug] flips; it is the
    [DEBUG] field of the world. *)
Definition transcribe (audio_file : string) : prog unit :=
  observe (fun w =>
    if PyStr.is_empty audio_file || negb (file_exists audio_file w) then
      stmt (set_status_label "Error: Audio file missing or not set") ;;
      stmt (set_self_transcript (JStr EmptyString)) ;;
      Yield (Ret tt)
    else
      let error_file := audio_file ++ ".error" in
      let json_file := audio_file ++ ".json" in
      let txt_file := audio_file ++ ".txt" in
      try_except
        (response ← observe (fun w =>
             match fs w !! audio_file with
             | None => Raise FileNotFoundError
             | Some content =>
                 Put (log_request (request_for content) w)
                   match endpoint e (request_for content) with
                   | NetFail detail => Raise (RequestException detail)
                   | NetReply r => Ret r
                   end
             end) ;
         Yield match http_error_msg response with
               | Some msg => Raise (RequestException msg)
               | None => Ret tt
               end ;;
         stmt (write_file json_file (FText EmptyString)) ;;
         body ← Yield (Vox.response_json response) ;
         modify (write_file json_file (FText (Json.dumps body))) ;;
         observe (fun w =>
           if DEBUG w then
             stmt (set_status_label ("DEBUG: Response saved in " ++ json_file)) ;;
             stmt (print_err ("DEBUG: Full Deepgram API response saved in "
                              ++ json_file ++ ":")) ;;
             body ← Yield (Vox.response_json response) ;
             modify (print_err (Json.dumps_indent 0 body))
           else Ret tt) ;;
         transcript ← Yield (body ← Vox.response_json response ;
                             match Json.transcript_of body with
                             | inr t => Ret t
                             | inl x => Raise x
                             end) ;
         modify (set_self_transcript transcript) ;;
         stmt (write_file txt_file (FText EmptyString)) ;;
         Yield match transcript with
               | JStr s => modify (write_file txt_file (FText (PyStr.rstrip s)))
               | _ => Raise AttributeError
               end ;;
         stmt (set_status_label ("Transcript saved to " ++ txt_file
                                 ++ ". Click Copy to copy.")) ;;
         stmt (unlink error_file))
        (fun x =>
           match x with
           | RequestException detail => Some (
               stmt (write_file error_file (FText detail)) ;;
               stmt (set_status_label ("Error: Transcription failed. See " ++ error_file)) ;;
               stmt (set_self_transcript (JStr EmptyString)))
           | KeyError | IndexError => Some (
               stmt (set_status_label ("Error: Failed to extract transcript. Check "
                                       ++ json_file)) ;;
               stmt (set_self_transcript (JStr EmptyString)))
           | _ => None
           end)).

End Program.

End VoxGui.

(** ** [int(text)] and truth values *)

Module PyInt.

Definition is_digit (c : ascii) : bool :=
  let n := Z.of_N (N_of_ascii c) in (48 <=? n) && (n <=? 57).

Definition digit_val (c : ascii) : Z := Z.of_N (N_of_ascii c) - 48.

(** The whitespace [int] skips at both ends, on the code points 0..255:
    the ASCII ones, TAB..CR and space, and the two above 127 that are
    whitespace, NEL and NBSP. FS..US are whitespace for [str.strip] but not
    here. *)
Definition is_space (c : ascii) : bool :=
  let n := Z.of_N (N_of_ascii c) in
  ((9 <=? n) && (n <=? 13)) || (n =? 32) || (n =? 133) || (n =? 160).

Fixpoint lstrip (s : string) : string :=
  match s with
  | EmptyString => EmptyString
  | String c r => if is_space c then lstrip r else s
  end.

Fixpoint rstrip (s : string) : string :=
  match s with
  | EmptyString => EmptyString
  | String c r =>
      let r' := rstrip r in
      if PyStr.is_empty r' && is_space c then EmptyString else String c r'
  end.

(** Decimal digits with single underscores between them: the value read
    so far, the number of digits, and whether the last character was a
    digit. *)
Fixpoint digits (acc : Z) (count : nat) (after_digit : bool) (s : string)
    : option (Z * nat) :=
  match s with
  | EmptyString => if after_digit then Some (acc, count) else None
  | String c r =>
      if is_digit c then digits (10 * acc + digit_val c) (S count) true r
      else if Ascii.eqb c "_" && after_digit then digits acc count false r
      else None
  end.

(** [sys.get_int_max_str_digits()], at its default. *)
Definition max_str_digits : nat := 4300.

(** [int(text)] in base ten; [None] is [ValueError]. *)
Definition int_of_str (text : string) : option Z :=
  let t := lstrip (rstrip text) in
  let (neg, body) :=
    match t with
    | String "+" r => (false, r)
    | String "-" r => (true, r)
    | _ => (false, t)
    end in
  match digits 0 0 false body with
  | Some (v, n) =>
      if (n <=? max_str_digits)%nat then Some (if neg then - v else v) else None
  | None => None
  end.

End PyInt.

(** [bool(v)] for a value that [response.json()] can return. *)
Definition truthy (v : json) : bool :=
  match v with
  | JNull => false
  | JBool b => b
  | JInt n => negb (n =? 0)
  | JFloat repr => negb (String.eqb repr "0.0" || String.eqb repr "-0.0")
  | JStr s => negb (PyStr.is_empty s)
  | JArr items => match items with [] => false | _ => true end
  | JObj fields => match fields with [] => false | _ => true end
  end.

(** ** vox_gui.py: the window and its methods *)

Module VoxWindow.

(** The widgets the methods touch: which controls are enabled, the texts
    the program sets, the counter timer, the dialogs shown, the tray icon
    and whether [app.quit()] was called. The status label and
    [self.transcript] are fields of the [world]. *)
Record widgets : Type := mkWidgets
  { start_button : bool;
    stop_button : bool;
    copy_button : bool;
    debug_button : bool;
    api_key_input : bool;
    duration_input : bool;
    model_input : bool;
    central_widget : bool;
    duration_input_text : string;
    debug_button_text : string;
    timer_active : bool;
    message_boxes : list string;
    tray_icon_visible : bool;
    app_quit : bool }.

Definition set_start_button (b : bool) (u : widgets) : widgets :=
  mkWidgets b (stop_button u) (copy_button u) (debug_button u) (api_key_input u)
    (duration_input u) (model_input u) (central_widget u) (duration_input_text u)
    (debug_button_text u) (timer_active u) (message_boxes u) (tray_icon_visible u)
    (app_quit u).

Definition set_stop_button (b : bool) (u : widgets) : widgets :=
  mkWidgets (start_button u) b (copy_button u) (debug_button u) (api_key_input u)
    (duration_input u) (model_input u) (central_widget u) (duration_input_text u)
    (debug_button_text u) (timer_active u) (message_boxes u) (tray_icon_visible u)
    (app_quit u).

Definition set_copy_button (b : bool) (u : widgets) : widgets :=
  mkWidgets (start_button u) (stop_button u) b (debug_button u) (api_key_input u)
    (duration_input u) (model_input u) (central_widget u) (duration_input_text u)
    (debug_button_text u) (timer_active u) (message_boxes u) (tray_icon_visible u)
    (app_quit u).

Definition set_debug_button (b : bool) (u : widgets) : widgets :=
  mkWidgets (start_button u) (stop_button u) (copy_button u) b (api_key_input u)
    (duration_input u) (model_input u) (central_widget u) (duration_input_text u)
    (debug_button_text u) (timer_active u) (message_boxes u) (tray_icon_visible u)
    (app_quit u).

Definition set_api_key_input (b : bool) (u : widgets) : widgets :=
  mkWidgets (start_button u) (stop_button u) (copy_button u) (debug_button u) b
    (duration_input u) (model_input u) (central_widget u) (duration_input_text u)
    (debug_button_text u) (timer_active u) (message_boxes u) (tray_icon_visible u)
    (app_quit u).

Definition set_duration_input (b : bool) (u : widgets) : widgets :=
  mkWidgets (start_button u) (stop_button u) (copy_button u) (debug_button u)
    (api_key_input u) b (model_input u) (central_widget u) (duration_input_text u)
    (debug_button_text u) (timer_active u) (message_boxes u) (tray_icon_visible u)
    (app_quit u).

Definition set_model_input (b : bool) (u : widgets) : widgets :=
  mkWidgets (start_button u) (stop_button u) (copy_button u) (debug_button u)
    (api_key_input u) (duration_input u) b (central_widget u) (duration_input_text u)
    (debug_button_text u) (timer_active u) (message_boxes u) (tray_icon_visible u)
    (app_quit u).

Definition set_central_widget (b : bool) (u : widgets) : widgets :=
  mkWidgets (start_button u) (stop_button u) (copy_button u) (debug_button u)
    (api_key_input u) (duration_input u) (model_input u) b (duration_input_text u)
    (debug_button_text u) (timer_active u) (message_boxes u) (tray_icon_visible u)
    (app_quit u).

Definition set_duration_input_text (t : string) (u : widgets) : widgets :=
  mkWidgets (start_button u) (stop_button u) (copy_button u) (debug_button u)
    (api_key_input u) (duration_input u) (model_input u) (central_widget u) t
    (debug_button_text u) (timer_active u) (message_boxes u) (tray_icon_visible u)
    (app_quit u).

Definition set_debug_button_text (t : string) (u : widgets) : widgets :=
  mkWidgets (start_button u) (stop_button u) (copy_button u) (debug_button u)
    (api_key_input u) (duration_input u) (model_input u) (central_widget u)
    (duration_input_text u) t (timer_active u) (message_boxes u) (tray_icon_visible u)
    (app_quit u).

Definition set_timer_active (b : bool) (u : widgets) : widgets :=
  mkWidgets (start_button u) (stop_button u) (copy_button u) (debug_button u)
    (api_key_input u) (duration_input u) (model_input u) (central_widget u)
    (duration_input_text u) (debug_button_text u) b (message_boxes u)
    (tray_icon_visible u) (app_quit u).

Definition show_message_box (t : string) (u : widgets) : widgets :=
  mkWidgets (start_button u) (stop_button u) (copy_button u) (debug_button u)
    (api_key_input u) (duration_input u) (model_input u) (central_widget u)
    (duration_input_text u) (debug_button_text u) (timer_active u)
    (message_boxes u ++ [t]) (tray_icon_visible u) (app_quit u).

Definition set_tray_icon_visible (b : bool) (u : widgets) : widgets :=
  mkWidgets (start_button u) (stop_button u) (copy_button u) (debug_button u)
    (api_key_input u) (duration_input u) (model_input u) (central_widget u)
    (duration_input_text u) (debug_button_text u) (timer_active u) (message_boxes u) b
    (app_quit u).

Definition set_app_quit (b : bool) (u : widgets) : widgets :=
  mkWidgets (start_button u) (stop_button u) (copy_button u) (debug_button u)
    (api_key_input u) (duration_input u) (model_input u) (central_widget u)
    (duration_input_text u) (debug_button_text u) (timer_active u) (message_boxes u)
    (tray_icon_visible u) b.

(** The window: its configuration attributes and its widgets. *)
Record window : Type := mkWindow { self : VoxGui.vox_window; ui : widgets }.


Definition set_max_duration (d : Z) (s : window) : window :=
  mkWindow {| VoxGui.deepgram_api_key := VoxGui.deepgram_api_key (self s);
              VoxGui.max_duration := d;
              VoxGui.deepgram_model := VoxGui.deepgram_model (self s) |} (ui s).


(** One statement on a widget. *)
Definition on_ui (f : widgets -> widgets) (s : window) : prog window :=
  Yield (Ret (mkWindow (self s) (f (ui s)))).

Definition SAMPLE_RATE : Z := 16000.
Definition CHANNELS : Z := 1.

Section Methods.

Variable e : env.

(** What [pyperclip.copy] does with a value that is not a [str]. *)
Variable copy_value : json -> prog unit.

Definition PID_FILE : string := home e ++ "/.recordpid".
Definition AUDIO_FILE_TRACKER : string := home e ++ "/.recordaudio".
Definition BASE_FILE : string := home e ++ "/.vox/recording".


(** In the handler, [duration_input.setText] changes the text of the
    field, so the field emits [textChanged] and this slot runs again, on
    the text ["120"], which it accepts. *)
Definition update_duration (text : string) (s : window) : prog window :=
  try_except
    (duration ← Yield match PyInt.int_of_str text with
                      | Some d => Ret d
                      | None => Raise ValueError
                      end ;
     observe (fun _ => if duration <=? 0 then Raise ValueError else Ret tt) ;;
     Yield (Ret (set_max_duration duration s)))
    (fun x =>
       match x with
       | ValueError => Some (
           stmt (set_status_label "Error: Max duration must be a positive integer") ;;
           s ← Yield (Ret (set_max_duration 120 s)) ;
           s ← on_ui (set_duration_input_text (PyStr.str_of_Z (VoxGui.max_duration (self s)))) s ;
           Yield (Ret (set_max_duration 120 s)))
       | _ => None
       end).


Definition copy_transcript : prog unit :=
  observe (fun w =>
    if truthy (self_transcript w) then
      Yield match self_transcript w with
            | JStr t => modify (set_clipboard t)
            | v => copy_value v
            end ;;
      stmt (set_status_label "Transcript copied to clipboard")
    else
      stmt (set_status_label "No transcript available to copy")).

Definition cleanup : prog unit :=
  observe (fun w =>
    match recording_process w with
    | Some _ =>
        Vox.on_stream Vox.stream_stop ;;
        Vox.on_stream Vox.stream_close ;;
        stmt (set_recording_process None)
    | None => Ret tt
    end) ;;
  stmt (set_stop_event true) ;;
  stmt (unlink PID_FILE) ;;
  stmt (unlink AUDIO_FILE_TRACKER).

Definition audio_file_name : string :=
  BASE_FILE ++ "_" ++ now e ++ "." ++ VoxGui.AUDIO_FORMAT.

(** The controls as [stop_recording] leaves them. *)
Definition controls_idle (copy : bool) (s : window) : prog window :=
  s ← on_ui (set_start_button true) s ;
  s ← on_ui (set_stop_button false) s ;
  s ← on_ui (set_copy_button copy) s ;
  s ← on_ui (set_debug_button true) s ;
  s ← on_ui (set_api_key_input true) s ;
  s ← on_ui (set_duration_input true) s ;
  on_ui (set_model_input true) s.

Definition stop_recording (s : window) : prog window :=
  stmt (set_status_label "Stopping recording...") ;;
  s ← on_ui (set_timer_active false) s ;
  observe (fun w =>
    if file_exists PID_FILE w && bool_decide (is_Some (recording_process w)) then
      stmt (set_stop_event true) ;;
      audio_file ← Yield (t ← Vox.read_text AUDIO_FILE_TRACKER; Ret (PyStr.strip t)) ;
      observe (fun w =>
        match audio_data w with
        | _ :: _ =>
            observe (fun w =>
              match np_concatenate (audio_data w) with
              | inr data => Put (wavfile_write audio_file SAMPLE_RATE data w) (Ret tt)
              | inl x => Raise x
              end) ;;
            cleanup ;;
            stmt (set_status_label "Transcribing...") ;;
            s ← on_ui (set_central_widget false) s ;
            VoxGui.transcribe e (self s) audio_file ;;
            s ← on_ui (set_central_widget true) s ;
            s ← on_ui (set_start_button true) s ;
            s ← on_ui (set_stop_button false) s ;
            s ← observe (fun w =>
                   Ret (mkWindow (self s)
                          (set_copy_button (truthy (self_transcript w)) (ui s)))) ;
            s ← on_ui (set_debug_button true) s ;
            s ← on_ui (set_api_key_input true) s ;
            s ← on_ui (set_duration_input true) s ;
            on_ui (set_model_input true) s
        | [] =>
            stmt (set_status_label "No audio data recorded.") ;;
            cleanup ;;
            controls_idle false s
        end)
    else
      stmt (set_status_label "No recording to stop.") ;;
      cleanup ;;
      controls_idle false s).

(** The thread [start_recording] starts: it waits for the stop event, at
    most [max_duration] seconds, and stops the session itself on a
    timeout. *)
Definition recording_thread (s : window) : prog window :=
  Yield (WaitStop (Ret tt)) ;;
  observe (fun w =>
    if negb (stop_event w) then
      Put (set_stop_event true w) (Ret tt) ;;
      stop_recording s
    else Ret s).

(** The thread itself is [recording_thread]; starting it is the last
    statement. *)
Definition start_recording (s : window) : prog window :=
  observe (fun _ =>
    if PyStr.is_empty (VoxGui.deepgram_api_key (self s)) then
      on_ui (show_message_box
               ("Deepgram API key is required." ++ Json.nl
                ++ "Enter it in the input field or get one from https://console.deepgram.com"))
        s
    else
      cleanup ;;
      stmt (fun w => w) ;;   (* BASE_FILE.parent.mkdir(parents=True, exist_ok=True) *)
      stmt (write_file AUDIO_FILE_TRACKER (FText audio_file_name)) ;;
      stmt (set_status_label ("Recording to " ++ audio_file_name ++ "...")) ;;
      s ← on_ui (set_start_button false) s ;
      s ← on_ui (set_stop_button true) s ;
      s ← on_ui (set_copy_button false) s ;
      s ← on_ui (set_debug_button false) s ;
      s ← on_ui (set_api_key_input false) s ;
      s ← on_ui (set_duration_input false) s ;
      s ← on_ui (set_model_input false) s ;
      stmt (set_audio_data []) ;;
      stmt (set_stop_event false) ;;
      stmt (set_recording_process
              (Some {| s_samplerate := SAMPLE_RATE; s_channels := CHANNELS;
                       s_active := false; s_closed := false |})) ;;
      Vox.on_stream Vox.stream_start ;;
      stmt (write_file PID_FILE (FText (PyStr.str_of_Z (pid e)))) ;;
      stmt (fun w => w) ;;   (* self.start_time = time.time() *)
      s ← on_ui (set_timer_active true) s ;
      Yield (Ret s)).

Definition toggle_debug (s : window) : prog window :=
  stmt (fun w => set_DEBUG (negb (DEBUG w)) w) ;;
  s ← observe (fun w =>
         Ret (mkWindow (self s)
                (set_debug_button_text
                   (if DEBUG w then "Disable Debug Mode" else "Enable Debug Mode")
                   (ui s)))) ;
  observe (fun w =>
    Put (set_status_label
           ("Debug mode " ++ (if DEBUG w then "enabled" else "disabled")) w)
      (Ret s)).

Definition quit_application (s : window) : prog window :=
  cleanup ;;
  s ← on_ui (set_tray_icon_visible false) s ;
  on_ui (set_app_quit true) s.

Definition signal_handler (s : window) : prog window :=
  stmt (set_status_label "Shutting down...") ;;
  cleanup ;;
  quit_application s.

End Methods.

End VoxWindow.

(** * Specification vocabulary *)

(** ** The recording session *)

(** Neither marker file exists. *)
Definition markers_absent (e : env) (w : world) : Prop :=
  fs w !! Vox.PID_FILE e = None /\ fs w !! Vox.AUDIO_FILE_TRACKER e = None.

(** What the other threads may do to the state between two statements of
    the main thread: the buffer only grows, and only by blocks of the active
    stream, and not at all once the stop event is set; the event is never
    cleared; only the error stream is written besides. *)
Record env_rel (w w' : world) : Prop := mkEnvRel
  { er_fs : fs w' = fs w;
    er_rp : recording_process w' = recording_process w;
    er_ms : monitor_started w' = monitor_started w;
    er_si : sigint_installed w' = sigint_installed w;
    er_dbg : DEBUG w' = DEBUG w;
    er_out : stdout w' = stdout w;
    er_clip : clipboard w' = clipboard w;
    er_net : net_log w' = net_log w;
    er_sl : status_label w' = status_label w;
    er_tr : self_transcript w' = self_transcript w;
    er_stop : stop_event w = true -> stop_event w' = true;
    er_frozen : stop_event w = true -> audio_data w' = audio_data w;
    er_grow : exists extra,
        audio_data w' = (audio_data w ++ extra)%list /\
        Forall (fun b => exists st, recording_process w = Some st /\ s_active st = true
                                    /\ nd_cols b = s_channels st) extra }.

Section Logic.

(** [Jp] holds of the state at every point where the main thread can be
    interrupted. *)
Variable R : world -> world -> Prop.
Variable Jp : world -> Prop.

(** Weakest precondition of a program run among the other threads. *)
Fixpoint wp {A : Type} (p : prog A) (Q : result A -> world -> Prop) (w : world) : Prop :=
  match p with
  | Ret a => Q (Returned a) w
  | Exit c => Q (Exited c) w
  | Raise x => Q (Died x) w
  | Get k => wp (k w) Q w
  | Put w' k => wp k Q w'
  | Yield k => forall w', R w w' -> Jp w' /\ wp k Q w'
  | WaitStop k => forall w', R w w' -> Jp w' /\ wp k Q w'
  end.

End Logic.

(** The outcome of SIGINT delivered in state [w]. *)
Definition interrupted (e : env) (w : world) : halt * world :=
  if sigint_installed w then
    (HExit 0,
     unlink (Vox.AUDIO_FILE_TRACKER e) (unlink (Vox.PID_FILE e)
       (set_recording_process None (set_stop_event true
          (print_out (Json.nl ++ "> Ctrl+C detected, stopping recording...") w)))))
  else (HDied KeyboardInterrupt, w).

Definition post {A : Type} (Q : result A -> world -> Prop) (rw : result A * world) : Prop :=
  Q (fst rw) (snd rw).

Section Posts.

Variable R : world -> world -> Prop.
Variable Jp : world -> Prop.

Definition bind_post {A B : Type} (f : A -> prog B) (Q : result B -> world -> Prop)
    (r : result A) (w : world) : Prop :=
  match r with
  | Returned a => wp R Jp (f a) Q w
  | Exited c => Q (Exited c) w
  | Died x => Q (Died x) w
  end.

End Posts.

(** What [cleanup] leaves, whatever the other threads do meanwhile. *)
Record cleaned (e : env) (w w' : world) : Prop := mkCleaned
  { cl_fs : fs w' = delete (Vox.AUDIO_FILE_TRACKER e) (delete (Vox.PID_FILE e) (fs w));
    cl_rp : recording_process w' = None;
    cl_ms : monitor_started w' = monitor_started w;
    cl_si : sigint_installed w' = sigint_installed w;
    cl_dbg : DEBUG w' = DEBUG w;
    cl_out : stdout w' = stdout w;
    cl_clip : clipboard w' = clipboard w;
    cl_net : net_log w' = net_log w;
    cl_sl : status_label w' = status_label w;
    cl_tr : self_transcript w' = self_transcript w;
    cl_stop : stop_event w = true -> stop_event w' = true /\ audio_data w' = audio_data w }.

(** The state [w] with another error stream. *)
Definition with_stderr (err : list string) (w : world) : world :=
  mkWorld (fs w) (recording_process w) (audio_data w) (stop_event w)
    (monitor_started w) (sigint_installed w) (DEBUG w) (stdout w) err
    (clipboard w) (net_log w) (status_label w) (self_transcript w).

(** The state in which [stop_recording], entered in [w] with the stop
    event set, ends: with an empty buffer, and after saving the buffer to
    [path] as [c] channels. *)
Definition after_stop_empty (e : env) (w : world) (err : list string) : world :=
  mkWorld
    (delete (Vox.AUDIO_FILE_TRACKER e) (delete (Vox.PID_FILE e) (fs w)))
    None (audio_data w) true (monitor_started w) (sigint_installed w) (DEBUG w)
    (stdout w ++ ["> Stopping recording..."; "No audio data recorded."]) err
    (clipboard w) (net_log w) (status_label w) (self_transcript w).

Definition after_stop_saved (e : env) (w : world) (path : string) (c : Z)
    (err : list string) : world :=
  mkWorld
    (delete (Vox.AUDIO_FILE_TRACKER e) (delete (Vox.PID_FILE e)
       (<[path := FWav {| wav_rate := Vox.SAMPLE_RATE; wav_channels := c;
                          wav_samples := concat (map nd_data (audio_data w)) |}]>
          (fs w))))
    None (audio_data w) true (monitor_started w) (sigint_installed w) (DEBUG w)
    (stdout w ++ ["> Stopping recording..."; "Recording stopped."]) err
    (clipboard w) (net_log w) (status_label w) (self_transcript w).




(** The event of the driver delivering block [b] with status [snd b]. *)
Definition block_event (b : list sample * string) : event := EvBlock (fst b) (snd b).

(** What the callback prints for the blocks delivered with a status. *)
Definition status_errors (blocks : list (list sample * string)) : list string :=
  flat_map (fun b => if PyStr.is_empty (snd b) then [] else ["Error: " ++ snd b]) blocks.

(** The array the callback receives for a block of a stream. *)
Definition indata_of (st : stream) (b : list sample * string) : ndarray :=
  {| nd_cols := s_channels st; nd_data := fst b |}.

(** The stream of a session, once started. *)
Definition session_stream : stream :=
  {| s_samplerate := Vox.SAMPLE_RATE; s_channels := Vox.CHANNELS;
     s_active := true; s_closed := false |}.

(** The state when a session started in [w] has captured [blocks] and the
    stop has been observed. *)
Definition captured (e : env) (w : world) (blocks : list (list sample * string)) : world :=
  mkWorld
    (<[Vox.PID_FILE e := FText (PyStr.str_of_Z (pid e))]>
       (<[Vox.AUDIO_FILE_TRACKER e := FText (Vox.audio_file_name e)]>
          (delete (Vox.AUDIO_FILE_TRACKER e) (delete (Vox.PID_FILE e) (fs w)))))
    (Some session_stream)
    (map (indata_of session_stream) blocks)
    true true (sigint_installed w) (DEBUG w)
    (stdout w ++ ["> Recording started to " ++ Vox.audio_file_name e ++ "...";
                  "Press Enter to stop early (max "
                  ++ PyStr.str_of_Z (MAX_DURATION e) ++ " seconds)."])
    (stderr w ++ status_errors blocks)
    (clipboard w) (net_log w) (status_label w) (self_transcript w).

(** ** The states [transcribe] passes through *)

Section TranscribeStates.

Variable e : env.
Variable audio_file : string.

Definition json_file : string := audio_file ++ ".json".

Definition txt_file : string := audio_file ++ ".txt".

Definition error_file : string := audio_file ++ ".error".

(** The state once the request for [content] has been sent. *)
Definition requested (content : fcontent) (w : world) : world :=
  log_request (Vox.request_for e content)
    (print_out ("> Transcribing with Deepgram API (model: " ++ DEEPGRAM_MODEL e ++ ")...") w).

Definition transport_failed (detail : string) (w : world) : world :=
  print_err ("Error: Transcription failed. Deepgram response saved in " ++ error_file)
    (write_file error_file (FText detail) w).

(** The debug echo of the parsed body. *)
Definition debug_echo (body : json) (w : world) : world :=
  if DEBUG w then
    print_err (Json.dumps_indent 0 body)
      (print_err ("DEBUG: Full Deepgram API response saved in " ++ json_file ++ ":") w)
  else w.

(** The state once the parsed body has been stored. *)
Definition stored (content : fcontent) (body : json) (w : world) : world :=
  debug_echo body
    (write_file json_file (FText (Json.dumps body))
       (write_file json_file (FText EmptyString) (requested content w))).

Definition transcribed (content : fcontent) (body : json) (text : string) (w : world) : world :=
  unlink error_file
    (print_out ("> Transcript copied to clipboard from " ++ txt_file)
       (set_clipboard text
          (write_file txt_file (FText (PyStr.rstrip text))
             (write_file txt_file (FText EmptyString) (stored content body w))))).

End TranscribeStates.

(** The same for the graphical front end. *)
Section GuiTranscribeStates.

Variable self : VoxGui.vox_window.
Variable audio_file : string.

Definition gui_requested (content : fcontent) (w : world) : world :=
  log_request (VoxGui.request_for self content) w.

Definition gui_failed (label : string) (w : world) : world :=
  set_self_transcript (JStr EmptyString) (set_status_label label w).

Definition gui_transport_failed (detail : string) (w : world) : world :=
  gui_failed ("Error: Transcription failed. See " ++ error_file audio_file)
    (write_file (error_file audio_file) (FText detail) w).

Definition gui_debug_echo (body : json) (w : world) : world :=
  if DEBUG w then
    print_err (Json.dumps_indent 0 body)
      (print_err ("DEBUG: Full Deepgram API response saved in "
                  ++ json_file audio_file ++ ":")
         (set_status_label ("DEBUG: Response saved in " ++ json_file audio_file) w))
  else w.

Definition gui_stored (content : fcontent) (body : json) (w : world) : world :=
  gui_debug_echo body
    (write_file (json_file audio_file) (FText (Json.dumps body))
       (write_file (json_file audio_file) (FText EmptyString) (gui_requested content w))).

Definition gui_transcribed (content : fcontent) (body : json) (text : string)
    (w : world) : world :=
  unlink (error_file audio_file)
    (set_status_label ("Transcript saved to " ++ txt_file audio_file
                       ++ ". Click Copy to copy.")
       (write_file (txt_file audio_file) (FText (PyStr.rstrip text))
          (write_file (txt_file audio_file) (FText EmptyString)
             (set_self_transcript (JStr text) (gui_stored content body w))))).

End GuiTranscribeStates.


(** An absolute path, as [Path.home()] is. *)
Definition absolute (p : string) : Prop := exists r, p = String "/" r.




Section StoredFiles.

Variables (af : string) (body : json) (w : world).

Definition stored_fs : gmap string fcontent :=
  <[json_file af := FText (Json.dumps body)]> (<[json_file af := FText EmptyString]> (fs w)).

End StoredFiles.

(** ** Sample inputs *)

Module Demo.

Definition dq : string := String (ascii_of_N 34) EmptyString.

Definition transcript : string := "hello world ".

(** The body [{"results":{"channels":[{"alternatives":[{"transcript":"hello world "}]}]}}]. *)
Definition body : json :=
  JObj [("results",
         JObj [("channels",
                JArr [JObj [("alternatives",
                             JArr [JObj [("transcript", JStr transcript)]])]])])].

Definition body_text : string :=
  "{" ++ dq ++ "results" ++ dq ++ ":{" ++ dq ++ "channels" ++ dq ++ ":[{" ++ dq
  ++ "alternatives" ++ dq ++ ":[{" ++ dq ++ "transcript" ++ dq ++ ":" ++ dq
  ++ transcript ++ dq ++ "}]}]}}".

Definition url : string :=
  "https://api.deepgram.com/v1/listen?model=nova-3&smart_format=true".

Definition reply_ok : response :=
  {| resp_status := 200; resp_reason := "OK"; resp_url := url;
     resp_text := body_text; resp_json := inr body |}.

Definition reply_500 : response :=
  {| resp_status := 500; resp_reason := "Internal Server Error"; resp_url := url;
     resp_text := "Internal Server Error";
     resp_json := inl "Expecting value: line 1 column 1 (char 0)" |}.

(** The body [{"results":{}}]. *)
Definition reply_no_channels : response :=
  {| resp_status := 200; resp_reason := "OK"; resp_url := url;
     resp_text := "{" ++ dq ++ "results" ++ dq ++ ":{}}";
     resp_json := inr (JObj [("results", JObj [])]) |}.

(** The body [{"results":[]}]. *)
Definition reply_results_list : response :=
  {| resp_status := 200; resp_reason := "OK"; resp_url := url;
     resp_text := "{" ++ dq ++ "results" ++ dq ++ ":[]}";
     resp_json := inr (JObj [("results", JArr [])]) |}.

Definition env_with (key : string) (r : response) : env :=
  {| home := "/home/u"; DEEPGRAM_API_KEY := key; MAX_DURATION := 120;
     DEEPGRAM_MODEL := "nova-3"; argv := ["vox.py"]; pid := 4242;
     now := "20240101_120000"; endpoint := fun _ => NetReply r |}.

Definition env_ok : env := env_with "secret" reply_ok.
Definition env_500 : env := env_with "secret" reply_500.
Definition env_no_channels : env := env_with "secret" reply_no_channels.
Definition env_results_list : env := env_with "secret" reply_results_list.
Definition env_no_key : env := env_with EmptyString reply_ok.

Definition window : VoxGui.vox_window :=
  {| VoxGui.deepgram_api_key := "secret"; VoxGui.max_duration := 120;
     VoxGui.deepgram_model := "nova-3" |}.

Definition audio : string := "/home/u/.vox/recording_20240101_120000.wav".

Definition clip : fcontent :=
  FWav {| wav_rate := 16000; wav_channels := 1; wav_samples := [1; 2; 3] |}.

(** A process with the handler installed, idle, with one recording on
    disk. *)
Definition world0 : world :=
  mkWorld {[ audio := clip ]} None [] false false true false [] [] None []
    EmptyString (JStr EmptyString).

(** A fresh process: nothing on disk, no handler yet. *)
Definition fresh : world :=
  mkWorld ∅ None [] false false false false [] [] None [] EmptyString (JStr EmptyString).

Definition blocks : list (list sample * string) :=
  [([1; 2], EmptyString); ([3], EmptyString); ([4; 5; 6], EmptyString)].

End Demo.



(** C10 as the claim states it: the two clients leave the same files, send
    the same request and, failure reporting apart, differ in nothing else,
    so the clipboard too is the same. *)
Definition same_effects (w1 w2 : world) : Prop :=
  fs w1 = fs w2 /\ net_log w1 = net_log w2 /\ clipboard w1 = clipboard w2.

(** How the outcome of the terminal client relates to that of the graphical
    one. *)
Definition surfaced (w : world) (rw gw : result unit * world) : Prop :=
  match fst rw with
  | Returned _ =>
      fst gw = Returned tt
      /\ exists text, clipboard (snd rw) = Some text /\ self_transcript (snd gw) = JStr text
  | Exited c =>
      c = 1 /\ fst gw = Returned tt
      /\ self_transcript (snd gw) = JStr EmptyString
      /\ clipboard (snd rw) = clipboard w
  | Died x => fst gw = Died x
  end.

(** The buffer and the event after asynchronous activity that started with
    the event set. *)
Definition frozen (w : world) (p : pumped) : Prop :=
  match p with
  | Resume _ w' | Stop _ w' => audio_data w' = audio_data w /\ stop_event w' = true
  end.




(** The schedule of a session whose blocks arrive during the wait, then the
    stop, then nothing but the main thread running. *)
Definition plain_session (n : nat) (blocks : list (list sample * string)) (stop : event)
    (m : nat) : list event :=
  (repeat EvYield n ++ map block_event blocks ++ stop :: repeat EvYield (S m))%list.

(** ** Closed forms of the two [transcribe] *)

(** The outcome of the terminal [transcribe], by cases on the file, the
    answer of the endpoint and the shape of the body. *)
Definition transcribe_outcome (e : env) (af : string) (w : world) : result unit * world :=
  if PyStr.is_empty af || negb (file_exists af w) then
    (Exited 1, print_err "Error: Audio file missing or not set" w)
  else
    match fs w !! af with
    | None => (Exited 1, print_err "Error: Audio file missing or not set" w)
    | Some content =>
        match endpoint e (Vox.request_for e content) with
        | NetFail detail => (Exited 1, transport_failed af detail (requested e content w))
        | NetReply r =>
            match http_error_msg r with
            | Some msg => (Exited 1, transport_failed af msg (requested e content w))
            | None =>
                match resp_json r with
                | inl detail =>
                    (Exited 1,
                     transport_failed af detail
                       (write_file (json_file af) (FText EmptyString) (requested e content w)))
                | inr body =>
                    match Json.transcript_of body with
                    | inl KeyError | inl IndexError =>
                        (Exited 1,
                         print_err ("Error: Failed to extract transcript from JSON, check "
                                    ++ json_file af)
                           (stored e af content body w))
                    | inl x => (Died x, stored e af content body w)
                    | inr (JStr text) => (Returned tt, transcribed e af content body text w)
                    | inr _ =>
                        (Died AttributeError,
                         write_file (txt_file af) (FText EmptyString)
                           (stored e af content body w))
                    end
                end
            end
        end
    end.

(** The same for the graphical [transcribe]. *)
Definition gui_transcribe_outcome (e : env) (self : VoxGui.vox_window) (af : string)
    (w : world) : result unit * world :=
  if PyStr.is_empty af || negb (file_exists af w) then
    (Returned tt, gui_failed "Error: Audio file missing or not set" w)
  else
    match fs w !! af with
    | None => (Returned tt, gui_failed "Error: Audio file missing or not set" w)
    | Some content =>
        match endpoint e (VoxGui.request_for self content) with
        | NetFail detail =>
            (Returned tt, gui_transport_failed af detail (gui_requested self content w))
        | NetReply r =>
            match http_error_msg r with
            | Some msg =>
                (Returned tt, gui_transport_failed af msg (gui_requested self content w))
            | None =>
                match resp_json r with
                | inl detail =>
                    (Returned tt,
                     gui_transport_failed af detail
                       (write_file (json_file af) (FText EmptyString)
                          (gui_requested self content w)))
                | inr body =>
                    match Json.transcript_of body with
                    | inl KeyError | inl IndexError =>
                        (Returned tt,
                         gui_failed ("Error: Failed to extract transcript. Check "
                                     ++ json_file af)
                           (gui_stored self af content body w))
                    | inl x => (Died x, gui_stored self af content body w)
                    | inr (JStr text) =>
                        (Returned tt, gui_transcribed self af content body text w)
                    | inr t =>
                        (Died AttributeError,
                         write_file (txt_file af) (FText EmptyString)
                           (set_self_transcript t (gui_stored self af content body w)))
                    end
                end
            end
        end
    end.

(** ** Whitespace at the end of a string *)

(** Every character of [s] is whitespace. *)
Fixpoint all_space (s : string) : bool :=
  match s with
  | EmptyString => true
  | String c r => PyStr.is_space c && all_space r
  end.

(** The last character of [s] is whitespace. *)
Fixpoint ends_with_space (s : string) : bool :=
  match s with
  | EmptyString => false
  | String c EmptyString => PyStr.is_space c
  | String _ r => ends_with_space r
  end.

(** ** States that agree on everything a user sees but the error stream *)

Definition same_but_stderr (w1 w2 : world) : Prop :=
  fs w1 = fs w2 /\ clipboard w1 = clipboard w2 /\ net_log w1 = net_log w2
  /\ stdout w1 = stdout w2.

(** ** More sample inputs *)

Module Sample.

(** An endpoint that cannot be reached. *)
Definition env_down : env :=
  {| home := "/home/u"; DEEPGRAM_API_KEY := "secret"; MAX_DURATION := 120;
     DEEPGRAM_MODEL := "nova-3"; argv := ["vox.py"]; pid := 4242;
     now := "20240101_120000";
     endpoint := fun _ => NetFail "Connection refused" |}.

(** A 200 response whose body is an HTML page. *)
Definition reply_html : response :=
  {| resp_status := 200; resp_reason := "OK"; resp_url := Demo.url;
     resp_text := "<html></html>";
     resp_json := inl "Expecting value: line 1 column 1 (char 0)" |}.

Definition env_html : env := Demo.env_with "secret" reply_html.

(** The body [{"results":{"channels":[{"alternatives":[{"transcript":null}]}]}}]. *)
Definition body_null : json :=
  JObj [("results",
         JObj [("channels",
                JArr [JObj [("alternatives",
                             JArr [JObj [("transcript", JNull)]])]])])].

Definition reply_null : response :=
  {| resp_status := 200; resp_reason := "OK"; resp_url := Demo.url;
     resp_text := "{" ++ Demo.dq ++ "results" ++ Demo.dq ++ ":{" ++ Demo.dq ++ "channels"
                  ++ Demo.dq ++ ":[{" ++ Demo.dq ++ "alternatives" ++ Demo.dq ++ ":[{"
                  ++ Demo.dq ++ "transcript" ++ Demo.dq ++ ":null}]}]}}";
     resp_json := inr body_null |}.

Definition env_null : env := Demo.env_with "secret" reply_null.

End Sample.

(** The state in which a session started in [w] ends when SIGINT arrives
    during the wait, after [blocks] were captured. *)
Definition interrupted_session (e : env) (w : world)
    (blocks : list (list sample * string)) : world :=
  mkWorld
    (delete (Vox.AUDIO_FILE_TRACKER e) (delete (Vox.PID_FILE e) (fs w)))
    None
    (map (indata_of session_stream) blocks)
    true true (sigint_installed w) (DEBUG w)
    (stdout w ++ ["> Recording started to " ++ Vox.audio_file_name e ++ "...";
                  "Press Enter to stop early (max "
                  ++ PyStr.str_of_Z (MAX_DURATION e) ++ " seconds).";
                  Json.nl ++ "> Ctrl+C detected, stopping recording..."])
    (stderr w ++ status_errors blocks)
    (clipboard w) (net_log w) (status_label w) (self_transcript w).

(** ** States of a session of the window *)

(** The status label after the callback has seen [blocks]: the last status
    reported, if any. *)
Definition gui_label_after (blocks : list (list sample * string)) (label : string) : string :=
  fold_left (fun l b => if PyStr.is_empty (snd b) then l else "Error: " ++ snd b)
    blocks label.

(** The controls while a recording runs. *)
Definition recording_controls (s : VoxWindow.window) : VoxWindow.window :=
  VoxWindow.mkWindow (VoxWindow.self s)
    (VoxWindow.mkWidgets false true false false false false false
       (VoxWindow.central_widget (VoxWindow.ui s))
       (VoxWindow.duration_input_text (VoxWindow.ui s))
       (VoxWindow.debug_button_text (VoxWindow.ui s))
       true
       (VoxWindow.message_boxes (VoxWindow.ui s))
       (VoxWindow.tray_icon_visible (VoxWindow.ui s))
       (VoxWindow.app_quit (VoxWindow.ui s))).

(** The controls once a recording is stopped; [copy] says whether the
    Copy button is enabled. *)
Definition idle_controls (copy : bool) (s : VoxWindow.window) : VoxWindow.window :=
  VoxWindow.mkWindow (VoxWindow.self s)
    (VoxWindow.mkWidgets true false copy true true true true
       (VoxWindow.central_widget (VoxWindow.ui s))
       (VoxWindow.duration_input_text (VoxWindow.ui s))
       (VoxWindow.debug_button_text (VoxWindow.ui s))
       false
       (VoxWindow.message_boxes (VoxWindow.ui s))
       (VoxWindow.tray_icon_visible (VoxWindow.ui s))
       (VoxWindow.app_quit (VoxWindow.ui s))).

(** The state while the window records, started in [w], once the callback
    has received [blocks]. *)
Definition gui_recording (e : env) (w : world) (blocks : list (list sample * string))
    : world :=
  mkWorld
    (<[VoxWindow.PID_FILE e := FText (PyStr.str_of_Z (pid e))]>
       (<[VoxWindow.AUDIO_FILE_TRACKER e := FText (VoxWindow.audio_file_name e)]>
          (delete (VoxWindow.AUDIO_FILE_TRACKER e)
             (delete (VoxWindow.PID_FILE e) (fs w)))))
    (Some session_stream)
    (map (indata_of session_stream) blocks)
    false (monitor_started w) (sigint_installed w) (DEBUG w)
    (stdout w) (stderr w) (clipboard w) (net_log w)
    (gui_label_after blocks ("Recording to " ++ VoxWindow.audio_file_name e ++ "..."))
    (self_transcript w).

(** The state in which [stop_recording] calls [transcribe], after saving
    the blocks. *)
Definition gui_saved (e : env) (w : world) (blocks : list (list sample * string))
    : world :=
  mkWorld
    (delete (VoxWindow.AUDIO_FILE_TRACKER e) (delete (VoxWindow.PID_FILE e)
       (<[VoxWindow.audio_file_name e :=
            FWav {| wav_rate := 16000; wav_channels := 1;
                    wav_samples := concat (map fst blocks) |}]> (fs w))))
    None
    (map (indata_of session_stream) blocks)
    true (monitor_started w) (sigint_installed w) (DEBUG w)
    (stdout w) (stderr w) (clipboard w) (net_log w)
    "Transcribing..."
    (self_transcript w).

(** The state in which the window ends a session that captured nothing, or
    finds no session to stop. *)
Definition gui_stopped (e : env) (label : string) (w : world) : world :=
  mkWorld
    (delete (VoxWindow.AUDIO_FILE_TRACKER e) (delete (VoxWindow.PID_FILE e) (fs w)))
    None (audio_data w) true (monitor_started w) (sigint_installed w) (DEBUG w)
    (stdout w) (stderr w) (clipboard w) (net_log w) label (self_transcript w).

(** ** Sample windows *)

Module SampleWindow.

(** The widgets as [setup_ui] creates them. *)
Definition fresh_ui : VoxWindow.widgets :=
  {| VoxWindow.start_button := true; VoxWindow.stop_button := false;
     VoxWindow.copy_button := false; VoxWindow.debug_button := true;
     VoxWindow.api_key_input := true; VoxWindow.duration_input := true;
     VoxWindow.model_input := true; VoxWindow.central_widget := true;
     VoxWindow.duration_input_text := "120";
     VoxWindow.debug_button_text := "Enable Debug Mode";
     VoxWindow.timer_active := false; VoxWindow.message_boxes := [];
     VoxWindow.tray_icon_visible := true; VoxWindow.app_quit := false |}.

(** A window whose key has been entered. *)
Definition ready : VoxWindow.window := VoxWindow.mkWindow Demo.window fresh_ui.

(** A window without a key. *)
Definition no_key : VoxWindow.window :=
  VoxWindow.mkWindow
    {| VoxGui.deepgram_api_key := EmptyString; VoxGui.max_duration := 120;
       VoxGui.deepgram_model := "nova-3" |} fresh_ui.

End SampleWindow.

(** ** Decimal strings *)

(** Every character of [s] is a decimal digit. *)
Fixpoint all_digits (s : string) : bool :=
  match s with
  | EmptyString => true
  | String c r => PyInt.is_digit c && all_digits r
  end.

(** The number that the digits [s] continue from [acc]. *)
Fixpoint decimal_from (acc : Z) (s : string) : Z :=
  match s with
  | EmptyString => acc
  | String c r => decimal_from (10 * acc + PyInt.digit_val c) r
  end.

(** What [update_duration] leaves when it rejects its text. *)
Definition duration_rejected (s : VoxWindow.window) (w : world)
    : result VoxWindow.window * world :=
  (Returned
     (VoxWindow.set_max_duration 120
        (VoxWindow.mkWindow (VoxWindow.self (VoxWindow.set_max_duration 120 s))
           (VoxWindow.set_duration_input_text "120" (VoxWindow.ui s)))),
   set_status_label "Error: Max duration must be a positive integer" w).

(** * Properties *)

(** ** The main thread among the other threads *)

Lemma env_rel_refl w : env_rel w w.
Proof.
  split; auto. exists []. rewrite app_nil_r. split; auto.
Qed.

Lemma env_rel_trans w1 w2 w3 : env_rel w1 w2 -> env_rel w2 w3 -> env_rel w1 w3.
Proof.
  intros [] []. split; try congruence; auto.
  - intros H. rewrite er_frozen1 by auto. auto.
  - destruct er_grow0 as (x1 & E1 & F1). destruct er_grow1 as (x2 & E2 & F2).
    exists (x1 ++ x2)%list. split.
    + rewrite E2, E1, app_assoc. reflexivity.
    + apply Forall_app. split; auto.
      eapply Forall_impl; [exact F2|].
      simpl. intros b (st & ? & ?). exists st. split; [congruence|auto].
Qed.

Lemma handler_run e w :
  run_atomic (Vox.signal_handler e) w =
  (Exited 0,
   unlink (Vox.AUDIO_FILE_TRACKER e) (unlink (Vox.PID_FILE e)
     (set_recording_process None (set_stop_event true
        (print_out (Json.nl ++ "> Ctrl+C detected, stopping recording...") w))))).
Proof.
  destruct w as [f rp ad se ms si dbg out err clip net sl tr].
  destruct rp; reflexivity.
Qed.

Lemma callback_run indata status w :
  run_atomic (Vox.callback indata status) w =
  (Returned tt,
   let w1 := if PyStr.is_empty status then w else print_err ("Error: " ++ status) w in
   if stop_event w1 then w1 else set_audio_data (audio_data w1 ++ [indata]) w1).
Proof.
  destruct w as [f rp ad se ms si dbg out err clip net sl tr].
  unfold Vox.callback. destruct (PyStr.is_empty status), se; reflexivity.
Qed.

Lemma async_rel e ev w w' :
  async (Vox.signal_handler e) Vox.callback ev w = (None, w') -> env_rel w w'.
Proof.
  destruct w as [f rp ad se ms si dbg out err clip net sl tr].
  destruct ev; unfold async; cbn [recording_process monitor_started sigint_installed].
  - intros [= <-]. apply env_rel_refl.
  - destruct rp as [st|]; [|intros [= <-]; apply env_rel_refl].
    destruct (s_active st) eqn:Ha; [|intros [= <-]; apply env_rel_refl].
    rewrite callback_run. intros [= <-].
    destruct (PyStr.is_empty status), se; simpl; split; simpl; auto; try discriminate;
      try (exists []; rewrite app_nil_r; split; [reflexivity|constructor]);
      try (eexists; split; [reflexivity|]; repeat constructor; eexists; eauto).
  - destruct ms; intros [= <-]; [|apply env_rel_refl].
    split; simpl; auto. exists []. rewrite app_nil_r. split; auto.
  - intros [= <-]. apply env_rel_refl.
  - destruct si; [|discriminate]. rewrite handler_run. discriminate.
Qed.

Lemma async_halt e ev w h w' :
  async (Vox.signal_handler e) Vox.callback ev w = (Some h, w') ->
  ev = EvSigint /\ (h, w') = interrupted e w.
Proof.
  destruct ev; unfold async.
  - discriminate.
  - destruct (recording_process w) as [st|]; [destruct (s_active st)|]; discriminate.
  - destruct (monitor_started w); discriminate.
  - discriminate.
  - unfold interrupted. destruct (sigint_installed w).
    + rewrite handler_run. intros [= <- <-]. auto.
    + intros [= <- <-]. auto.
Qed.

Section Soundness.

Variable e : env.
Variable R : world -> world -> Prop.
Variable Jp : world -> Prop.
Variable ok : event -> Prop.
Hypothesis R_refl : forall w, R w w.
Hypothesis R_trans : forall w1 w2 w3, R w1 w2 -> R w2 w3 -> R w1 w3.
Hypothesis R_async : forall ev w w',
    ok ev -> async (Vox.signal_handler e) Vox.callback ev w = (None, w') -> R w w'.

Lemma pump_spec sch w :
  Forall ok sch ->
  match pump (Vox.signal_handler e) Vox.callback sch w with
  | Resume sch' w' => R w w' /\ Forall ok sch'
  | Stop h w'' => exists w', R w w' /\ ok EvSigint /\ (h, w'') = interrupted e w'
  end.
Proof.
  intros Hok. revert w. induction Hok as [|ev sch Hev Hok IH]; intros w.
  - simpl. auto.
  - assert (Hgen :
      match
        match async (Vox.signal_handler e) Vox.callback ev w with
        | (Some h, w') => Stop h w'
        | (None, w') => pump (Vox.signal_handler e) Vox.callback sch w'
        end
      with
      | Resume sch' w' => R w w' /\ Forall ok sch'
      | Stop h w'' => exists w', R w w' /\ ok EvSigint /\ (h, w'') = interrupted e w'
      end).
    { destruct (async (Vox.signal_handler e) Vox.callback ev w) as [[hl|] w1] eqn:E.
      - apply async_halt in E as [-> Hi]. exists w. auto.
      - apply R_async in E; [|assumption]. specialize (IH w1).
        destruct (pump (Vox.signal_handler e) Vox.callback sch w1) as [s2 w2|h2 w2].
        + destruct IH. split; [eapply R_trans; eassumption|assumption].
        + destruct IH as (w3 & ? & ? & ?). exists w3. split; [eapply R_trans; eassumption|auto]. }
    destruct ev; try exact Hgen.
    cbn [pump]. auto.
Qed.

Lemma await_spec sch w :
  Forall ok sch ->
  match await (Vox.signal_handler e) Vox.callback sch w with
  | Resume sch' w' => R w w' /\ Forall ok sch'
  | Stop h w'' => exists w', R w w' /\ ok EvSigint /\ (h, w'') = interrupted e w'
  end.
Proof.
  intros Hok. revert w. induction Hok as [|ev sch Hev Hok IH]; intros w.
  - simpl. destruct (stop_event w); auto.
  - cbn [await]. destruct (stop_event w); [split; [apply R_refl|constructor; assumption]|].
    assert (Hgen :
      match
        match async (Vox.signal_handler e) Vox.callback ev w with
        | (Some h, w') => Stop h w'
        | (None, w') => await (Vox.signal_handler e) Vox.callback sch w'
        end
      with
      | Resume sch' w' => R w w' /\ Forall ok sch'
      | Stop h w'' => exists w', R w w' /\ ok EvSigint /\ (h, w'') = interrupted e w'
      end).
    { destruct (async (Vox.signal_handler e) Vox.callback ev w) as [[hl|] w1] eqn:E.
      - apply async_halt in E as [-> Hi]. exists w. auto.
      - apply R_async in E; [|assumption]. specialize (IH w1).
        destruct (await (Vox.signal_handler e) Vox.callback sch w1) as [s2 w2|h2 w2].
        + destruct IH. split; [eapply R_trans; eassumption|assumption].
        + destruct IH as (w3 & ? & ? & ?). exists w3. split; [eapply R_trans; eassumption|auto]. }
    destruct ev; try exact Hgen.
    auto.
Qed.

(** Soundness of [wp]: what it promises holds of the run under every
    schedule of permitted events, provided an interrupt, where one is
    permitted, leaves the process in a state the postcondition accepts. *)
Lemma wp_sound {A : Type} (p : prog A) (Q : result A -> world -> Prop) :
  (ok EvSigint -> forall w, Jp w ->
     Q (halt_result (fst (interrupted e w))) (snd (interrupted e w))) ->
  forall sch w, Forall ok sch -> wp R Jp p Q w -> post Q (Vox.run e p sch w).
Proof.
  intros HI. unfold Vox.run, post.
  induction p as [a|c|x|k IH|w' k IH|k IH|k IH]; intros sch w Hok Hwp; simpl in *; auto.
  - pose proof (pump_spec sch w Hok) as Hp.
    destruct (pump (Vox.signal_handler e) Vox.callback sch w) as [s2 w2|h2 w2].
    + destruct Hp as [Hr Hok2]. apply IH; [assumption|]. apply (Hwp w2 Hr).
    + destruct Hp as (w3 & Hr & Hs & Hi). simpl.
      destruct (Hwp w3 Hr) as [HJ _]. specialize (HI Hs w3 HJ).
      rewrite <- Hi in HI. exact HI.
  - pose proof (await_spec sch w Hok) as Hp.
    destruct (await (Vox.signal_handler e) Vox.callback sch w) as [s2 w2|h2 w2].
    + destruct Hp as [Hr Hok2]. apply IH; [assumption|]. apply (Hwp w2 Hr).
    + destruct Hp as (w3 & Hr & Hs & Hi). simpl.
      destruct (Hwp w3 Hr) as [HJ _]. specialize (HI Hs w3 HJ).
      rewrite <- Hi in HI. exact HI.
Qed.

End Soundness.

Section Rules.

Variable R : world -> world -> Prop.
Variable Jp : world -> Prop.

Lemma wp_mono {A : Type} (p : prog A) (Q Q' : result A -> world -> Prop) w :
  (forall r w', Q r w' -> Q' r w') -> wp R Jp p Q w -> wp R Jp p Q' w.
Proof.
  intros HQ. revert w.
  induction p as [a|c|x|k IH|w1 k IH|k IH|k IH]; intros w0 Hw; simpl in *; auto.
  - intros w' Hr. destruct (Hw w' Hr). split; auto.
  - intros w' Hr. destruct (Hw w' Hr). split; auto.
Qed.

Lemma wp_bind {A B : Type} (p : prog A) (f : A -> prog B) Q w :
  wp R Jp p (bind_post R Jp f Q) w -> wp R Jp (bind p f) Q w.
Proof.
  revert w.
  induction p as [a|c|x|k IH|w1 k IH|k IH|k IH]; intros w0 Hw; simpl in *; auto.
  - intros w' Hr. destruct (Hw w' Hr). split; auto.
  - intros w' Hr. destruct (Hw w' Hr). split; auto.
Qed.

End Rules.

Ltac wsimpl :=
  cbn [wp bind mbind prog_bind mret prog_ret stmt observe modify try_except
       Vox.on_stream Vox.read_text Vox.response_json
       fs recording_process audio_data stop_event monitor_started sigint_installed
       DEBUG stdout stderr clipboard net_log status_label self_transcript
       set_fs set_recording_process set_audio_data set_stop_event set_monitor_started
       set_sigint_installed set_DEBUG print_out print_err set_clipboard log_request
       set_status_label set_self_transcript with_stderr write_file unlink wavfile_write
       negb andb orb] in *.

(** Normal form of a state built by the setters. *)
Ltac wnorm :=
  unfold with_stderr, unlink, write_file, wavfile_write, set_fs, set_recording_process,
    set_audio_data, set_stop_event, set_monitor_started, set_sigint_installed, set_DEBUG,
    print_out, print_err, set_clipboard, log_request, set_status_label,
    set_self_transcript;
  cbn [fs recording_process audio_data stop_event monitor_started sigint_installed
       DEBUG stdout stderr clipboard net_log status_label self_transcript].

(** Once the event is set, the facts of [env_rel] chain. *)
Ltac chain :=
  repeat (match goal with
          | H : true = true -> _ |- _ => specialize (H eq_refl)
          | H : _ = true /\ _ = _ |- _ => destruct H
          end; subst).

Ltac env_step w' :=
  let Hr := fresh "Hr" in
  let f := fresh "f" in let rp := fresh "rp" in let ad := fresh "ad" in
  let se := fresh "se" in let ms := fresh "ms" in let si := fresh "si" in
  let dbg := fresh "dbg" in let out := fresh "out" in let err := fresh "err" in
  let clip := fresh "clip" in let net := fresh "net" in let sl := fresh "sl" in
  let tr := fresh "tr" in
  let Hstop := fresh "Hstop" in let Hfrozen := fresh "Hfrozen" in
  let Hgrow := fresh "Hgrow" in
  intros w' Hr;
  match goal with
  | HR : forall w w', ?R w w' -> env_rel w w' |- _ => pose proof (HR _ _ Hr) as Hrel
  end;
  destruct w' as [f rp ad se ms si dbg out err clip net sl tr];
  match goal with
  | Hrel : env_rel _ _ |- _ =>
      destruct Hrel as [? ? ? ? ? ? ? ? ? ? Hstop Hfrozen Hgrow]
  end;
  wsimpl; subst f rp ms si dbg out clip net sl tr;
  split;
  [first
     [ exact I
     | match goal with
       | HJ : forall w w', sigint_installed w' = sigint_installed w -> ?Jp w -> ?Jp w',
         HJ0 : ?Jp _ |- _ => solve [eapply HJ; [|exact HJ0]; reflexivity]
       end ]|].

Lemma append_inj_l (s a b : string) : s ++ a = s ++ b -> a = b.
Proof. induction s as [|c s IH]; simpl; intros H; [assumption|]. injection H as H. auto. Qed.

Lemma pid_ne_tracker e : Vox.PID_FILE e <> Vox.AUDIO_FILE_TRACKER e.
Proof.
  unfold Vox.PID_FILE, Vox.AUDIO_FILE_TRACKER. intros H. apply append_inj_l in H. discriminate.
Qed.

(** Removing the markers at the end erases what the session stored
    under them. *)
Lemma session_fs_end (P T : string) (vp vt : fcontent) (f : gmap string fcontent) :
  delete T (delete P (<[P := vp]> (<[T := vt]> (delete T (delete P f)))))
  = delete T (delete P f).
Proof.
  apply map_eq. intros k.
  destruct (decide (k = T)) as [->|HT]; [rewrite !lookup_delete_eq; reflexivity|].
  rewrite !(lookup_delete_ne _ T k) by congruence.
  destruct (decide (k = P)) as [->|HP]; [rewrite !lookup_delete_eq; reflexivity|].
  rewrite !(lookup_delete_ne _ P k) by congruence.
  rewrite !lookup_insert_ne by congruence.
  rewrite !lookup_delete_ne by congruence. reflexivity.
Qed.

Lemma session_fs_saved (P T a : string) (vp vt va : fcontent) (f : gmap string fcontent) :
  delete T (delete P (<[a := va]> (<[P := vp]> (<[T := vt]> (delete T (delete P f))))))
  = delete T (delete P (<[a := va]> f)).
Proof.
  apply map_eq. intros k.
  destruct (decide (k = T)) as [->|HT]; [rewrite !lookup_delete_eq; reflexivity|].
  rewrite !(lookup_delete_ne _ T k) by congruence.
  destruct (decide (k = P)) as [->|HP]; [rewrite !lookup_delete_eq; reflexivity|].
  rewrite !(lookup_delete_ne _ P k) by congruence.
  destruct (decide (k = a)) as [->|Ha]; [rewrite !lookup_insert_eq; reflexivity|].
  rewrite !lookup_insert_ne by congruence.
  rewrite !lookup_delete_ne by congruence. reflexivity.
Qed.

Lemma np_concatenate_ok c (l : list ndarray) :
  l <> [] -> Forall (fun b => nd_cols b = c) l ->
  np_concatenate l = inr {| nd_cols := c; nd_data := concat (map nd_data l) |}.
Proof.
  intros Hne HF. destruct l as [|a l]; [congruence|].
  unfold np_concatenate.
  assert (Ha : nd_cols a = c) by (inversion HF; assumption).
  replace (forallb (fun b => nd_cols b =? nd_cols a) (a :: l)) with true.
  - rewrite Ha. reflexivity.
  - symmetry. apply forallb_forall. intros b Hb.
    rewrite Forall_forall in HF.
    rewrite Ha. apply Z.eqb_eq. apply HF. apply list_elem_of_In. exact Hb.
Qed.


(** No block arrives while there is no active stream. *)
Lemma grow_inactive (rp : option stream) (extra : list ndarray) :
  (forall st, rp = Some st -> s_active st = false) ->
  Forall (fun b => exists st, rp = Some st /\ s_active st = true
                            /\ nd_cols b = s_channels st) extra ->
  extra = [].
Proof.
  intros Hi He. destruct extra as [|b r]; [reflexivity|].
  inversion He as [|? ? (st & Hs & Ha & _) _]. rewrite (Hi st Hs) in Ha. discriminate.
Qed.

Section Specs.

Variable e : env.
Variable R : world -> world -> Prop.
Variable Jp : world -> Prop.
Hypothesis HR : forall w w', R w w' -> env_rel w w'.
Hypothesis HJ : forall w w', sigint_installed w' = sigint_installed w -> Jp w -> Jp w'.

Lemma wp_cleanup (Q : result unit -> world -> Prop) w :
  Jp w ->
  (forall w', cleaned e w w' -> Q (Returned tt) w') ->
  wp R Jp (Vox.cleanup e) Q w.
Proof.
  intros HJ0 HQ.
  destruct w as [f0 rp0 ad0 se0 ms0 si0 dbg0 out0 err0 clip0 net0 sl0 tr0].
  unfold Vox.cleanup. wsimpl.
  env_step w1. destruct rp0 as [st|]; wsimpl.
  - env_step w2. env_step w3. env_step w4. env_step w5. env_step w6.
    apply HQ. split; wsimpl; auto.
    intros ->. chain. auto.
  - env_step w2. env_step w3.
    apply HQ. split; wsimpl; auto.
    intros ->. chain. auto.
Qed.

End Specs.

(** [cleanup] as the first statement of what remains. *)
Ltac cleanup_step w' :=
  let Hc := fresh "Hc" in
  let f := fresh "f" in let rp := fresh "rp" in let ad := fresh "ad" in
  let se := fresh "se" in let ms := fresh "ms" in let si := fresh "si" in
  let dbg := fresh "dbg" in let out := fresh "out" in let err := fresh "err" in
  let clip := fresh "clip" in let net := fresh "net" in let sl := fresh "sl" in
  let tr := fresh "tr" in
  let Hstop := fresh "Hstop" in
  unfold mbind, prog_bind; apply wp_bind; eapply wp_cleanup;
  [eassumption|eassumption|
   match goal with
   | HJ : forall w w', sigint_installed w' = sigint_installed w -> ?Jp w -> ?Jp w',
     HJ0 : ?Jp _ |- _ => solve [eapply HJ; [|exact HJ0]; reflexivity]
   end|];
  intros w' Hc;
  destruct w' as [f rp ad se ms si dbg out err clip net sl tr];
  destruct Hc as [? ? ? ? ? ? ? ? ? ? Hstop];
  unfold bind_post; wsimpl; subst f rp ms si dbg out clip net sl tr.



Section Session.

Variable e : env.
Variable R : world -> world -> Prop.
Variable Jp : world -> Prop.
Hypothesis HR : forall w w', R w w' -> env_rel w w'.
Hypothesis HJ : forall w w', sigint_installed w' = sigint_installed w -> Jp w -> Jp w'.

Lemma wp_stop_recording (Q : result string -> world -> Prop) w c st p af :
  Jp w ->
  stop_event w = true ->
  recording_process w = Some st ->
  fs w !! Vox.PID_FILE e = Some p ->
  fs w !! Vox.AUDIO_FILE_TRACKER e = Some (FText af) ->
  Forall (fun b => nd_cols b = c) (audio_data w) ->
  (audio_data w = [] -> forall err, Q (Exited 1) (after_stop_empty e w err)) ->
  (audio_data w <> [] -> forall err,
      Q (Returned (PyStr.strip af)) (after_stop_saved e w (PyStr.strip af) c err)) ->
  wp R Jp (Vox.stop_recording e) Q w.
Proof.
  intros HJ0 Hse Hrp Hpid Htr Hcols HQ1 HQ2.
  destruct w as [f0 rp0 ad0 se0 ms0 si0 dbg0 out0 err0 clip0 net0 sl0 tr0].
  unfold after_stop_empty in HQ1. unfold after_stop_saved in HQ2.
  wsimpl. subst se0 rp0.
  unfold Vox.stop_recording. wsimpl.
  env_step w1. chain. env_step w2. chain.
  unfold file_exists. wsimpl. rewrite Hpid. rewrite !bool_decide_true by eauto. wsimpl.
  env_step w3. chain. env_step w4. chain.
  rewrite Htr. wsimpl.
  env_step w5. chain.
  destruct ad0 as [|b ad0]; wsimpl.
  - env_step w6. chain.
    cleanup_step w7. chain.
    env_step w8. chain.
    rewrite <- app_assoc. apply (HQ1 eq_refl).
  - env_step w6. chain.
    rewrite (np_concatenate_ok c) by (auto; discriminate). wsimpl.
    cleanup_step w7. chain.
    env_step w8. chain. env_step w9. chain.
    rewrite <- app_assoc. apply HQ2. discriminate.
Qed.

(** [Bp] is a property of the buffer that the other threads keep. *)
Variable Bp : list ndarray -> Prop.
Hypothesis HB0 : Bp [].
Hypothesis HB : forall w w', R w w' -> Bp (audio_data w) -> Bp (audio_data w').


End Session.

Section ExecSteps.

Variable handler : prog unit.
Variable callback : ndarray -> string -> prog unit.

Lemma exec_yield {A : Type} (p : prog A) r w :
  exec handler callback (Yield p) (EvYield :: r) w = exec handler callback p r w.
Proof. reflexivity. Qed.

Lemma exec_yield_nil {A : Type} (p : prog A) w :
  exec handler callback (Yield p) [] w = exec handler callback p [] w.
Proof. reflexivity. Qed.

Lemma exec_get {A : Type} (g : world -> prog A) sch w :
  exec handler callback (Get g) sch w = exec handler callback (g w) sch w.
Proof. reflexivity. Qed.

Lemma exec_put {A : Type} (p : prog A) sch w w' :
  exec handler callback (Put w' p) sch w = exec handler callback p sch w'.
Proof. reflexivity. Qed.

Lemma exec_wait {A : Type} (p : prog A) sch w :
  exec handler callback (WaitStop p) sch w =
  match await handler callback sch w with
  | Resume sch' w' => exec handler callback p sch' w'
  | Stop h w' => (halt_result h, w')
  end.
Proof. reflexivity. Qed.

(** A run that meets no event is the uninterrupted run. *)
Lemma exec_nil {A : Type} (p : prog A) w :
  exec handler callback p [] w = run_atomic p w.
Proof.
  revert w. induction p as [a|c|x|k IH|w1 k IH|k IH|k IH]; intros w; cbn [exec run_atomic pump];
    auto.
  cbn [await]. destruct (stop_event w); auto.
Qed.

End ExecSteps.

(** One step of the main thread under a schedule that lets it run. *)
Ltac xstep :=
  lazymatch goal with
  | |- exec _ _ (Yield _) (EvYield :: _) _ = _ => rewrite exec_yield
  | |- exec _ _ (Yield _) [] _ = _ => rewrite exec_yield_nil
  | |- exec _ _ (Get _) _ _ = _ =>
      rewrite exec_get; cbv beta;
      cbn [bind negb andb orb
           fs recording_process audio_data stop_event monitor_started sigint_installed
           DEBUG stdout stderr clipboard net_log status_label self_transcript]
  | |- exec _ _ (Put _ _) _ _ = _ => rewrite exec_put; wnorm
  end.

(** Programs as trees of constructors. *)
Ltac unfold_prog :=
  unfold Vox.on_stream, Vox.read_text, Vox.response_json, stmt, observe, modify,
    mbind, prog_bind, mret, prog_ret;
  cbn [bind].

Section Schedules.

Variable e : env.

Abbreviation hnd := (Vox.signal_handler e).

Abbreviation cb := Vox.callback.

Lemma await_yields n rest w :
  stop_event w = false ->
  await hnd cb (repeat EvYield n ++ rest)%list w = await hnd cb rest w.
Proof.
  intros Hs. induction n as [|n IH]; [reflexivity|].
  cbn [repeat app await]. rewrite Hs. cbn [async]. exact IH.
Qed.

Lemma await_blocks blocks rest f st ad ms si dbg out err clip net sl tr :
  s_active st = true ->
  await hnd cb (map block_event blocks ++ rest)%list
    (mkWorld f (Some st) ad false ms si dbg out err clip net sl tr)
  = await hnd cb rest
      (mkWorld f (Some st) (ad ++ map (indata_of st) blocks) false ms si dbg out
         (err ++ status_errors blocks) clip net sl tr).
Proof.
  intros Ha. revert ad err. induction blocks as [|[fr s] blocks IH]; intros ad err.
  - cbn [map app status_errors flat_map]. rewrite !app_nil_r. reflexivity.
  - cbn [map app]. unfold block_event at 1.
    cbn [fst snd await stop_event async recording_process].
    rewrite Ha, callback_run. cbn [snd].
    destruct (PyStr.is_empty s) eqn:Es; wnorm.
    + rewrite IH. unfold status_errors. cbn [flat_map snd fst]. rewrite Es.
      cbn [app indata_of fst]. rewrite <- app_assoc. reflexivity.
    + rewrite IH. unfold status_errors. cbn [flat_map snd fst]. rewrite Es.
      cbn [app indata_of fst]. rewrite <- !app_assoc. reflexivity.
Qed.

(** A session whose blocks all arrive during the wait, followed by the
    stop: the run reaches [stop_recording] in the state [captured]. *)
Lemma exec_start_recording {A : Type} (f : string -> prog A) n blocks stop rest w :
  (18 <= n)%nat ->
  stop = EvEnter \/ stop = EvTimeout ->
  exec hnd cb (bind (Vox.start_recording e) f)
    (repeat EvYield n ++ map block_event blocks ++ stop :: EvYield :: rest)%list w
  = exec hnd cb (bind (Vox.stop_recording e) f) rest (captured e w blocks).
Proof.
  intros Hn Hstop.
  replace n with (18 + (n - 18))%nat by lia. generalize (n - 18)%nat as m. intros m.
  destruct w as [f0 rp0 ad0 se0 ms0 si0 dbg0 out0 err0 clip0 net0 sl0 tr0].
  unfold Vox.start_recording, Vox.cleanup, captured. unfold_prog.
  cbn [repeat Nat.add app].
  cbn [fs recording_process audio_data stop_event monitor_started sigint_installed
       DEBUG stdout stderr clipboard net_log status_label self_transcript].
  destruct rp0 as [st0|];
    cbn [bind]; repeat xstep; rewrite exec_wait;
    cbn [app await async stop_event];
    rewrite await_yields by reflexivity;
    rewrite await_blocks by reflexivity;
    (destruct Hstop as [-> | ->];
     cbn [await async stop_event monitor_started]; wnorm; cbn [await stop_event];
     repeat xstep; rewrite <- app_assoc; reflexivity).
Qed.

End Schedules.

(** ** Normal form of states

    Each setter applied to an explicit state is that state with one field
    changed; rewriting with these equations normalises a state written as a
    chain of setters. *)

Section WorldNorm.

Variables (f : gmap string fcontent) (rp : option stream) (ad : list ndarray)
          (se ms si dbg : bool) (out err : list string) (clip : option string)
          (net : list request) (sl : string) (tr : json).

Lemma set_fs_mk g :
  set_fs g (mkWorld f rp ad se ms si dbg out err clip net sl tr)
  = (mkWorld (g f) rp ad se ms si dbg out err clip net sl tr).
Proof. reflexivity. Qed.

Lemma set_recording_process_mk x :
  set_recording_process x (mkWorld f rp ad se ms si dbg out err clip net sl tr)
  = (mkWorld f x ad se ms si dbg out err clip net sl tr).
Proof. reflexivity. Qed.

Lemma set_audio_data_mk x :
  set_audio_data x (mkWorld f rp ad se ms si dbg out err clip net sl tr)
  = (mkWorld f rp x se ms si dbg out err clip net sl tr).
Proof. reflexivity. Qed.

Lemma set_stop_event_mk x :
  set_stop_event x (mkWorld f rp ad se ms si dbg out err clip net sl tr)
  = (mkWorld f rp ad x ms si dbg out err clip net sl tr).
Proof. reflexivity. Qed.

Lemma set_monitor_started_mk x :
  set_monitor_started x (mkWorld f rp ad se ms si dbg out err clip net sl tr)
  = (mkWorld f rp ad se x si dbg out err clip net sl tr).
Proof. reflexivity. Qed.

Lemma set_sigint_installed_mk x :
  set_sigint_installed x (mkWorld f rp ad se ms si dbg out err clip net sl tr)
  = (mkWorld f rp ad se ms x dbg out err clip net sl tr).
Proof. reflexivity. Qed.

Lemma set_DEBUG_mk x :
  set_DEBUG x (mkWorld f rp ad se ms si dbg out err clip net sl tr)
  = (mkWorld f rp ad se ms si x out err clip net sl tr).
Proof. reflexivity. Qed.

Lemma print_out_mk x :
  print_out x (mkWorld f rp ad se ms si dbg out err clip net sl tr)
  = (mkWorld f rp ad se ms si dbg (out ++ [x]) err clip net sl tr).
Proof. reflexivity. Qed.

Lemma print_err_mk x :
  print_err x (mkWorld f rp ad se ms si dbg out err clip net sl tr)
  = (mkWorld f rp ad se ms si dbg out (err ++ [x]) clip net sl tr).
Proof. reflexivity. Qed.

Lemma set_clipboard_mk x :
  set_clipboard x (mkWorld f rp ad se ms si dbg out err clip net sl tr)
  = (mkWorld f rp ad se ms si dbg out err (Some x) net sl tr).
Proof. reflexivity. Qed.

Lemma log_request_mk x :
  log_request x (mkWorld f rp ad se ms si dbg out err clip net sl tr)
  = (mkWorld f rp ad se ms si dbg out err clip (net ++ [x]) sl tr).
Proof. reflexivity. Qed.

Lemma set_status_label_mk x :
  set_status_label x (mkWorld f rp ad se ms si dbg out err clip net sl tr)
  = (mkWorld f rp ad se ms si dbg out err clip net x tr).
Proof. reflexivity. Qed.

Lemma set_self_transcript_mk x :
  set_self_transcript x (mkWorld f rp ad se ms si dbg out err clip net sl tr)
  = (mkWorld f rp ad se ms si dbg out err clip net sl x).
Proof. reflexivity. Qed.

Lemma with_stderr_mk x :
  with_stderr x (mkWorld f rp ad se ms si dbg out err clip net sl tr)
  = (mkWorld f rp ad se ms si dbg out x clip net sl tr).
Proof. reflexivity. Qed.

Lemma write_file_mk p c :
  write_file p c (mkWorld f rp ad se ms si dbg out err clip net sl tr)
  = (mkWorld (<[p := c]> f) rp ad se ms si dbg out err clip net sl tr).
Proof. reflexivity. Qed.

Lemma unlink_mk p :
  unlink p (mkWorld f rp ad se ms si dbg out err clip net sl tr)
  = (mkWorld (delete p f) rp ad se ms si dbg out err clip net sl tr).
Proof. reflexivity. Qed.

Lemma wavfile_write_mk p rate data :
  wavfile_write p rate data (mkWorld f rp ad se ms si dbg out err clip net sl tr)
  = (mkWorld (<[p := FWav {| wav_rate := rate; wav_channels := nd_cols data;
                         wav_samples := nd_data data |}]>
       f) rp ad se ms si dbg out err clip net sl tr).
Proof. reflexivity. Qed.

End WorldNorm.

Create Rewrite HintDb world.

#[global] Hint Rewrite set_recording_process_mk set_audio_data_mk set_stop_event_mk
  set_monitor_started_mk set_sigint_installed_mk set_DEBUG_mk print_out_mk print_err_mk
  set_clipboard_mk log_request_mk set_status_label_mk set_self_transcript_mk with_stderr_mk
  write_file_mk unlink_mk wavfile_write_mk : world.

Ltac wrew := autorewrite with world.

(** Programs with handlers as trees of constructors. *)
Ltac unfold_tree :=
  unfold Vox.on_stream, Vox.read_text, Vox.response_json, stmt, observe, modify,
    mbind, prog_bind, mret, prog_ret;
  cbn [bind try_except].

Ltac xrun :=
  lazymatch goal with
  | |- exec _ _ (Yield _) [] _ = _ => rewrite exec_yield_nil
  | |- exec _ _ (Get _) _ _ = _ =>
      rewrite exec_get; cbv beta;
      cbn [bind try_except negb andb orb
           fs recording_process audio_data stop_event monitor_started sigint_installed
           DEBUG stdout stderr clipboard net_log status_label self_transcript]
  | |- exec _ _ (Put _ _) _ _ = _ => rewrite exec_put; wnorm
  | |- exec _ _ (Ret _) _ _ = _ => cbn [exec]
  | |- exec _ _ (Exit _) _ _ = _ => cbn [exec]
  | |- exec _ _ (Raise _) _ _ = _ => cbn [exec]
  | |- exec _ _ _ _ _ = _ => progress cbn [bind try_except negb andb orb]
  end.

Lemma world_eta (w : world) :
  w = mkWorld (fs w) (recording_process w) (audio_data w) (stop_event w)
        (monitor_started w) (sigint_installed w) (DEBUG w) (stdout w) (stderr w)
        (clipboard w) (net_log w) (status_label w) (self_transcript w).
Proof. destruct w; reflexivity. Qed.

Ltac wproj :=
  cbn [fs recording_process audio_data stop_event monitor_started sigint_installed
       DEBUG stdout stderr clipboard net_log status_label self_transcript].

(** Reduce a statement about an uninterrupted run in [w] to stepping the
    program from the explicit state, and then comparing the states. *)
Ltac start_run h c w :=
  rewrite <- (exec_nil h c); rewrite (world_eta w); wproj;
  eapply eq_trans; [unfold_tree|].

(** ** The outcomes of [transcribe] *)

Section Transcribe.

Variable e : env.
Variable audio_file : string.

Ltac finish_run :=
  unfold transcribed, stored, debug_echo, transport_failed, requested;
  wrew; wproj; wrew; reflexivity.

Lemma transcribe_missing w :
  PyStr.is_empty audio_file || negb (file_exists audio_file w) = true ->
  run_atomic (Vox.transcribe e audio_file) w
  = (Exited 1, print_err "Error: Audio file missing or not set" w).
Proof.
  intros H. unfold file_exists in H.
  start_run (Vox.signal_handler e) Vox.callback w.
  - unfold Vox.transcribe, file_exists. unfold_tree. repeat xrun.
    rewrite H. unfold_tree. repeat xrun. reflexivity.
  - finish_run.
Qed.

Section Present.

Variables (w : world) (content : fcontent).
Hypothesis Hname : PyStr.is_empty audio_file = false.
Hypothesis Hfile : fs w !! audio_file = Some content.

Ltac to_request :=
  unfold Vox.transcribe, file_exists; unfold_tree; repeat xrun;
  rewrite Hname, Hfile; rewrite bool_decide_true by eauto;
  unfold_tree; repeat xrun;
  rewrite Hfile; unfold_tree; repeat xrun.

Lemma transcribe_netfail detail :
  endpoint e (Vox.request_for e content) = NetFail detail ->
  run_atomic (Vox.transcribe e audio_file) w
  = (Exited 1, transport_failed audio_file detail (requested e content w)).
Proof.
  intros Hnet. start_run (Vox.signal_handler e) Vox.callback w.
  - to_request. rewrite Hnet. unfold_tree. repeat xrun. reflexivity.
  - finish_run.
Qed.

Variable r : response.
Hypothesis Hnet : endpoint e (Vox.request_for e content) = NetReply r.

Ltac to_reply := to_request; rewrite Hnet; unfold_tree; repeat xrun.

Lemma transcribe_http_error msg :
  http_error_msg r = Some msg ->
  run_atomic (Vox.transcribe e audio_file) w
  = (Exited 1, transport_failed audio_file msg (requested e content w)).
Proof.
  intros Hmsg. start_run (Vox.signal_handler e) Vox.callback w.
  - to_reply. rewrite Hmsg. unfold_tree. repeat xrun. reflexivity.
  - finish_run.
Qed.

Hypothesis Hok : http_error_msg r = None.

Lemma transcribe_bad_json detail :
  resp_json r = inl detail ->
  run_atomic (Vox.transcribe e audio_file) w
  = (Exited 1,
     transport_failed audio_file detail
       (write_file (json_file audio_file) (FText EmptyString) (requested e content w))).
Proof.
  intros Hj. start_run (Vox.signal_handler e) Vox.callback w.
  - to_reply. rewrite Hok. unfold_tree. repeat xrun. rewrite Hj. unfold_tree.
    repeat xrun. reflexivity.
  - finish_run.
Qed.

Variable body : json.
Hypothesis Hjson : resp_json r = inr body.

Ltac to_lookup :=
  to_reply; rewrite Hok; unfold_tree; repeat xrun;
  rewrite Hjson; unfold_tree; repeat xrun.

Lemma transcribe_malformed x :
  Json.transcript_of body = inl x ->
  x = KeyError \/ x = IndexError ->
  run_atomic (Vox.transcribe e audio_file) w
  = (Exited 1,
     print_err ("Error: Failed to extract transcript from JSON, check " ++ (json_file audio_file))
       (stored e audio_file content body w)).
Proof.
  intros Ht Hx. destruct (DEBUG w) eqn:Hd;
    (start_run (Vox.signal_handler e) Vox.callback w;
     [rewrite ?Hd; to_lookup; rewrite Ht; unfold_tree;
      destruct Hx as [-> | ->]; repeat xrun; reflexivity
     |rewrite ?Hd; finish_run]).
Qed.

Lemma transcribe_type_error :
  Json.transcript_of body = inl TypeError ->
  run_atomic (Vox.transcribe e audio_file) w = (Died TypeError, stored e audio_file content body w).
Proof.
  intros Ht. destruct (DEBUG w) eqn:Hd;
    (start_run (Vox.signal_handler e) Vox.callback w;
     [rewrite ?Hd; to_lookup; rewrite Ht; unfold_tree; repeat xrun; reflexivity
     |rewrite ?Hd; finish_run]).
Qed.

Lemma transcribe_success text :
  Json.transcript_of body = inr (JStr text) ->
  run_atomic (Vox.transcribe e audio_file) w
  = (Returned tt, transcribed e audio_file content body text w).
Proof.
  intros Ht. destruct (DEBUG w) eqn:Hd;
    (start_run (Vox.signal_handler e) Vox.callback w;
     [rewrite ?Hd; to_lookup; rewrite Ht; unfold_tree; repeat xrun; reflexivity
     |rewrite ?Hd; finish_run]).
Qed.

Lemma transcribe_not_str t :
  Json.transcript_of body = inr t ->
  (forall text, t <> JStr text) ->
  run_atomic (Vox.transcribe e audio_file) w
  = (Died AttributeError,
     write_file (txt_file audio_file) (FText EmptyString) (stored e audio_file content body w)).
Proof.
  intros Ht Hn.
  assert (Hm : forall A (a : string -> A) (b : A),
             match t with JStr s => a s | _ => b end = b).
  { intros A a b. destruct t; try reflexivity. exfalso. eapply Hn. reflexivity. }
  destruct (DEBUG w) eqn:Hd;
    (start_run (Vox.signal_handler e) Vox.callback w;
     [rewrite ?Hd; to_lookup; rewrite Ht; unfold_tree; repeat xrun;
      rewrite Hm; repeat xrun; reflexivity
     |rewrite ?Hd; finish_run]).
Qed.

End Present.

End Transcribe.

(** ** The outcomes of the graphical [transcribe] *)

Section GuiTranscribe.

Variable e : env.
Variable self : VoxGui.vox_window.
Variable audio_file : string.

Ltac finish_run :=
  unfold gui_transcribed, gui_stored, gui_debug_echo, gui_transport_failed, gui_failed,
    gui_requested, json_file, txt_file, error_file;
  wrew; wproj; wrew; reflexivity.

Lemma gui_transcribe_missing w :
  PyStr.is_empty audio_file || negb (file_exists audio_file w) = true ->
  run_atomic (VoxGui.transcribe e self audio_file) w
  = (Returned tt, gui_failed "Error: Audio file missing or not set" w).
Proof.
  intros H. unfold file_exists in H.
  start_run (Vox.signal_handler e) VoxGui.callback w.
  - unfold VoxGui.transcribe, file_exists. unfold_tree. repeat xrun.
    rewrite H. unfold_tree. repeat xrun. reflexivity.
  - finish_run.
Qed.

Section Present.

Variables (w : world) (content : fcontent).
Hypothesis Hname : PyStr.is_empty audio_file = false.
Hypothesis Hfile : fs w !! audio_file = Some content.

Ltac to_request :=
  unfold VoxGui.transcribe, file_exists; unfold_tree; repeat xrun;
  rewrite Hname, Hfile; rewrite bool_decide_true by eauto;
  unfold_tree; repeat xrun;
  rewrite Hfile; unfold_tree; repeat xrun.

Lemma gui_transcribe_netfail detail :
  endpoint e (VoxGui.request_for self content) = NetFail detail ->
  run_atomic (VoxGui.transcribe e self audio_file) w
  = (Returned tt, gui_transport_failed audio_file detail (gui_requested self content w)).
Proof.
  intros Hnet. start_run (Vox.signal_handler e) VoxGui.callback w.
  - to_request. rewrite Hnet. unfold_tree. repeat xrun. reflexivity.
  - finish_run.
Qed.

Variable r : response.
Hypothesis Hnet : endpoint e (VoxGui.request_for self content) = NetReply r.

Ltac to_reply := to_request; rewrite Hnet; unfold_tree; repeat xrun.

Lemma gui_transcribe_http_error msg :
  http_error_msg r = Some msg ->
  run_atomic (VoxGui.transcribe e self audio_file) w
  = (Returned tt, gui_transport_failed audio_file msg (gui_requested self content w)).
Proof.
  intros Hmsg. start_run (Vox.signal_handler e) VoxGui.callback w.
  - to_reply. rewrite Hmsg. unfold_tree. repeat xrun. reflexivity.
  - finish_run.
Qed.

Hypothesis Hok : http_error_msg r = None.

Lemma gui_transcribe_bad_json detail :
  resp_json r = inl detail ->
  run_atomic (VoxGui.transcribe e self audio_file) w
  = (Returned tt,
     gui_transport_failed audio_file detail
       (write_file (json_file audio_file) (FText EmptyString) (gui_requested self content w))).
Proof.
  intros Hj. start_run (Vox.signal_handler e) VoxGui.callback w.
  - to_reply. rewrite Hok. unfold_tree. repeat xrun. rewrite Hj. unfold_tree.
    repeat xrun. reflexivity.
  - finish_run.
Qed.

Variable body : json.
Hypothesis Hjson : resp_json r = inr body.

Ltac to_lookup :=
  to_reply; rewrite Hok; unfold_tree; repeat xrun;
  rewrite Hjson; unfold_tree; repeat xrun.

Lemma gui_transcribe_malformed x :
  Json.transcript_of body = inl x ->
  x = KeyError \/ x = IndexError ->
  run_atomic (VoxGui.transcribe e self audio_file) w
  = (Returned tt,
     gui_failed ("Error: Failed to extract transcript. Check " ++ json_file audio_file)
       (gui_stored self audio_file content body w)).
Proof.
  intros Ht Hx. destruct (DEBUG w) eqn:Hd;
    (start_run (Vox.signal_handler e) VoxGui.callback w;
     [rewrite ?Hd; to_lookup; rewrite Ht; unfold_tree;
      destruct Hx as [-> | ->]; repeat xrun; reflexivity
     |rewrite ?Hd; finish_run]).
Qed.

Lemma gui_transcribe_type_error :
  Json.transcript_of body = inl TypeError ->
  run_atomic (VoxGui.transcribe e self audio_file) w
  = (Died TypeError, gui_stored self audio_file content body w).
Proof.
  intros Ht. destruct (DEBUG w) eqn:Hd;
    (start_run (Vox.signal_handler e) VoxGui.callback w;
     [rewrite ?Hd; to_lookup; rewrite Ht; unfold_tree; repeat xrun; reflexivity
     |rewrite ?Hd; finish_run]).
Qed.

Lemma gui_transcribe_success text :
  Json.transcript_of body = inr (JStr text) ->
  run_atomic (VoxGui.transcribe e self audio_file) w
  = (Returned tt, gui_transcribed self audio_file content body text w).
Proof.
  intros Ht. destruct (DEBUG w) eqn:Hd;
    (start_run (Vox.signal_handler e) VoxGui.callback w;
     [rewrite ?Hd; to_lookup; rewrite Ht; unfold_tree; repeat xrun; reflexivity
     |rewrite ?Hd; finish_run]).
Qed.

Lemma gui_transcribe_not_str t :
  Json.transcript_of body = inr t ->
  (forall text, t <> JStr text) ->
  run_atomic (VoxGui.transcribe e self audio_file) w
  = (Died AttributeError,
     write_file (txt_file audio_file) (FText EmptyString)
       (set_self_transcript t (gui_stored self audio_file content body w))).
Proof.
  intros Ht Hn.
  assert (Hm : forall A (a : string -> A) (b : A),
             match t with JStr s => a s | _ => b end = b).
  { intros A a b. destruct t; try reflexivity. exfalso. eapply Hn. reflexivity. }
  destruct (DEBUG w) eqn:Hd;
    (start_run (Vox.signal_handler e) VoxGui.callback w;
     [rewrite ?Hd; to_lookup; rewrite Ht; unfold_tree; repeat xrun;
      rewrite Hm; repeat xrun; reflexivity
     |rewrite ?Hd; finish_run]).
Qed.

End Present.

End GuiTranscribe.

(** Rewrite a state variable as an explicit state and normalise. *)
Ltac wexpand w := rewrite (world_eta w); wrew; wproj.

Lemma markers_absent_deleted e (f : gmap string fcontent) :
  delete (Vox.AUDIO_FILE_TRACKER e) (delete (Vox.PID_FILE e) f) !! Vox.PID_FILE e = None
  /\ delete (Vox.AUDIO_FILE_TRACKER e) (delete (Vox.PID_FILE e) f)
       !! Vox.AUDIO_FILE_TRACKER e = None.
Proof.
  split.
  - rewrite lookup_delete_ne by (intros H; symmetry in H; revert H; apply pid_ne_tracker).
    apply lookup_delete_eq.
  - apply lookup_delete_eq.
Qed.




(** ** Paths *)

Lemma str_app_assoc (a b c : string) : (a ++ b) ++ c = a ++ (b ++ c).
Proof.
  induction a as [|x a IH]; [reflexivity|].
  change (String x ((a ++ b) ++ c) = String x (a ++ b ++ c)). f_equal. exact IH.
Qed.

Lemma rstrip_app_keep (s t : string) :
  PyStr.rstrip t = t -> t <> EmptyString -> PyStr.rstrip (s ++ t) = s ++ t.
Proof.
  intros Ht Hne. induction s as [|c s IH]; [exact Ht|].
  change (PyStr.rstrip (String c (s ++ t)) = String c (s ++ t)).
  cbn [PyStr.rstrip]. rewrite IH. destruct (s ++ t) eqn:E; [|reflexivity].
  destruct s; [change (t = EmptyString) in E; congruence|discriminate E].
Qed.

Lemma strip_audio_file_name e :
  absolute (home e) -> PyStr.strip (Vox.audio_file_name e) = Vox.audio_file_name e.
Proof.
  intros [r Hr]. unfold PyStr.strip, Vox.audio_file_name, Vox.BASE_FILE, Vox.AUDIO_FORMAT.
  replace ((home e ++ "/.vox/recording") ++ "_" ++ now e ++ "." ++ "wav")
    with (((home e ++ "/.vox/recording") ++ "_" ++ now e ++ ".") ++ "wav")
    by (rewrite !str_app_assoc; reflexivity).
  rewrite rstrip_app_keep by (reflexivity || discriminate).
  rewrite Hr. reflexivity.
Qed.

Lemma audio_ne_pid e : Vox.audio_file_name e <> Vox.PID_FILE e.
Proof.
  unfold Vox.audio_file_name, Vox.BASE_FILE, Vox.PID_FILE. rewrite str_app_assoc.
  intros H. apply append_inj_l in H. discriminate.
Qed.

Lemma audio_ne_tracker e : Vox.audio_file_name e <> Vox.AUDIO_FILE_TRACKER e.
Proof.
  unfold Vox.audio_file_name, Vox.BASE_FILE, Vox.AUDIO_FILE_TRACKER. rewrite str_app_assoc.
  intros H. apply append_inj_l in H. discriminate.
Qed.


Lemma concat_indata st (blocks : list (list sample * string)) :
  concat (map nd_data (map (indata_of st) blocks)) = concat (map fst blocks).
Proof. rewrite map_map. reflexivity. Qed.

Lemma cols_indata st (blocks : list (list sample * string)) :
  Forall (fun b => nd_cols b = s_channels st) (map (indata_of st) blocks).
Proof.
  apply Forall_forall. intros b Hb. apply list_elem_of_In, in_map_iff in Hb as (x & <- & _).
  reflexivity.
Qed.

Lemma async_rel_quiet e ev w w' :
  ev <> EvSigint -> async (Vox.signal_handler e) Vox.callback ev w = (None, w') -> env_rel w w'.
Proof. intros _. apply async_rel. Qed.

(** A session stopped after [blocks] were captured, under any later events
    but an interrupt. *)
Lemma stop_after_capture e w blocks tail :
  blocks <> [] ->
  Forall (fun ev => ev <> EvSigint) tail ->
  exists err,
    Vox.run e (Vox.stop_recording e) tail (captured e w blocks)
    = (Returned (PyStr.strip (Vox.audio_file_name e)),
       after_stop_saved e (captured e w blocks) (PyStr.strip (Vox.audio_file_name e))
         Vox.CHANNELS err).
Proof.
  intros Hne Htail.
  pose (Q := fun (r : result string) (w' : world) =>
    exists err,
      (r, w') = (Returned (PyStr.strip (Vox.audio_file_name e)),
                 after_stop_saved e (captured e w blocks)
                   (PyStr.strip (Vox.audio_file_name e)) Vox.CHANNELS err)).
  assert (H : post Q (Vox.run e (Vox.stop_recording e) tail (captured e w blocks))).
  { apply (wp_sound e env_rel (fun _ => True) (fun ev => ev <> EvSigint)).
    - apply env_rel_refl.
    - apply env_rel_trans.
    - apply async_rel_quiet.
    - intros Hc. congruence.
    - exact Htail.
    - eapply (wp_stop_recording e env_rel (fun _ => True) (fun _ _ H => H) (fun _ _ _ _ => I)
                Q _ Vox.CHANNELS session_stream).
      + exact I.
      + reflexivity.
      + reflexivity.
      + unfold captured. cbn [fs]. apply lookup_insert_eq.
      + unfold captured. cbn [fs].
        rewrite lookup_insert_ne by apply pid_ne_tracker. apply lookup_insert_eq.
      + unfold captured. cbn [audio_data]. apply (cols_indata session_stream).
      + unfold captured. cbn [audio_data]. intros Hnil.
        apply map_eq_nil in Hnil. contradiction.
      + intros _ err. exists err. reflexivity. }
  unfold post, Q in H. destruct H as [err H]. exists err.
  rewrite <- H. apply surjective_pairing.
Qed.



(** ** Sessions in which no block arrives *)








(** ** What the transcription states hold *)

Section Effects.

Variable e : env.
Variable self : VoxGui.vox_window.
Variable af : string.
Variables (content : fcontent) (body : json) (w : world).

Ltac solve_proj :=
  unfold transcribed, stored, debug_echo, transport_failed, requested,
    gui_transcribed, gui_stored, gui_debug_echo, gui_transport_failed, gui_failed,
    gui_requested;
  wexpand w; destruct (DEBUG w); wrew; reflexivity.

Lemma fs_requested : fs (requested e content w) = fs w.
Proof. solve_proj. Qed.

Lemma fs_stored : fs (stored e af content body w) = (stored_fs af body w).
Proof. solve_proj. Qed.

Lemma fs_gui_stored : fs (gui_stored self af content body w) = (stored_fs af body w).
Proof. solve_proj. Qed.

Lemma net_log_stored :
  net_log (stored e af content body w) = (net_log w ++ [Vox.request_for e content])%list.
Proof. solve_proj. Qed.

Lemma net_log_gui_stored :
  net_log (gui_stored self af content body w)
  = (net_log w ++ [VoxGui.request_for self content])%list.
Proof. solve_proj. Qed.

Lemma clipboard_stored : clipboard (stored e af content body w) = clipboard w.
Proof. solve_proj. Qed.

Lemma clipboard_gui_stored : clipboard (gui_stored self af content body w) = clipboard w.
Proof. solve_proj. Qed.

End Effects.

Lemma fs_print_err s w : fs (print_err s w) = fs w.
Proof. destruct w; reflexivity. Qed.

Lemma fs_print_out s w : fs (print_out s w) = fs w.
Proof. destruct w; reflexivity. Qed.

Lemma fs_write_file p c w : fs (write_file p c w) = <[p := c]> (fs w).
Proof. destruct w; reflexivity. Qed.

Lemma fs_unlink p w : fs (unlink p w) = delete p (fs w).
Proof. destruct w; reflexivity. Qed.

Lemma fs_set_clipboard s w : fs (set_clipboard s w) = fs w.
Proof. destruct w; reflexivity. Qed.

Lemma fs_set_status_label s w : fs (set_status_label s w) = fs w.
Proof. destruct w; reflexivity. Qed.

Lemma fs_set_self_transcript t w : fs (set_self_transcript t w) = fs w.
Proof. destruct w; reflexivity. Qed.

Lemma fs_log_request r w : fs (log_request r w) = fs w.
Proof. destruct w; reflexivity. Qed.

Lemma net_log_print_err s w : net_log (print_err s w) = net_log w.
Proof. destruct w; reflexivity. Qed.

Lemma net_log_print_out s w : net_log (print_out s w) = net_log w.
Proof. destruct w; reflexivity. Qed.

Lemma net_log_write_file p c w : net_log (write_file p c w) = net_log w.
Proof. destruct w; reflexivity. Qed.

Lemma net_log_unlink p w : net_log (unlink p w) = net_log w.
Proof. destruct w; reflexivity. Qed.

Lemma net_log_set_clipboard s w : net_log (set_clipboard s w) = net_log w.
Proof. destruct w; reflexivity. Qed.

Lemma net_log_set_status_label s w : net_log (set_status_label s w) = net_log w.
Proof. destruct w; reflexivity. Qed.

Lemma net_log_set_self_transcript t w : net_log (set_self_transcript t w) = net_log w.
Proof. destruct w; reflexivity. Qed.

Lemma net_log_log_request r w : net_log (log_request r w) = (net_log w ++ [r])%list.
Proof. destruct w; reflexivity. Qed.

Lemma clipboard_print_err s w : clipboard (print_err s w) = clipboard w.
Proof. destruct w; reflexivity. Qed.

Lemma clipboard_print_out s w : clipboard (print_out s w) = clipboard w.
Proof. destruct w; reflexivity. Qed.

Lemma clipboard_write_file p c w : clipboard (write_file p c w) = clipboard w.
Proof. destruct w; reflexivity. Qed.

Lemma clipboard_unlink p w : clipboard (unlink p w) = clipboard w.
Proof. destruct w; reflexivity. Qed.

Lemma clipboard_set_clipboard s w : clipboard (set_clipboard s w) = Some s.
Proof. destruct w; reflexivity. Qed.

Lemma clipboard_set_status_label s w : clipboard (set_status_label s w) = clipboard w.
Proof. destruct w; reflexivity. Qed.

Lemma clipboard_set_self_transcript t w : clipboard (set_self_transcript t w) = clipboard w.
Proof. destruct w; reflexivity. Qed.

Lemma clipboard_log_request r w : clipboard (log_request r w) = clipboard w.
Proof. destruct w; reflexivity. Qed.

Lemma self_transcript_set t w : self_transcript (set_self_transcript t w) = t.
Proof. destruct w; reflexivity. Qed.

Lemma self_transcript_unlink p w : self_transcript (unlink p w) = self_transcript w.
Proof. destruct w; reflexivity. Qed.

Lemma self_transcript_write_file p c w : self_transcript (write_file p c w) = self_transcript w.
Proof. destruct w; reflexivity. Qed.

Lemma self_transcript_set_status_label s w :
  self_transcript (set_status_label s w) = self_transcript w.
Proof. destruct w; reflexivity. Qed.

Create Rewrite HintDb effects.

#[global] Hint Rewrite
  fs_requested fs_stored fs_gui_stored net_log_stored net_log_gui_stored
  clipboard_stored clipboard_gui_stored
  fs_print_err fs_print_out fs_write_file fs_unlink fs_set_clipboard fs_set_status_label
  fs_set_self_transcript fs_log_request
  net_log_print_err net_log_print_out net_log_write_file net_log_unlink
  net_log_set_clipboard net_log_set_status_label net_log_set_self_transcript
  net_log_log_request
  clipboard_print_err clipboard_print_out clipboard_write_file clipboard_unlink
  clipboard_set_clipboard clipboard_set_status_label clipboard_set_self_transcript
  clipboard_log_request
  self_transcript_set self_transcript_unlink self_transcript_write_file
  self_transcript_set_status_label : effects.

(** Read a field of an outcome state. *)
Ltac effects :=
  unfold transcribed, transport_failed, gui_transcribed, gui_transport_failed, gui_failed,
    requested, gui_requested;
  autorewrite with effects.

(** ** Sidecar paths *)

Lemma json_ne_txt af : json_file af <> txt_file af.
Proof. unfold json_file, txt_file. intros H. apply append_inj_l in H. discriminate. Qed.

Lemma json_ne_error af : json_file af <> error_file af.
Proof. unfold json_file, error_file. intros H. apply append_inj_l in H. discriminate. Qed.

Lemma txt_ne_error af : txt_file af <> error_file af.
Proof. unfold txt_file, error_file. intros H. apply append_inj_l in H. discriminate. Qed.

(** Distinct sidecar paths, in either order. *)
Ltac ne_paths :=
  solve [ apply json_ne_txt | apply json_ne_error | apply txt_ne_error
        | apply not_eq_sym; apply json_ne_txt
        | apply not_eq_sym; apply json_ne_error
        | apply not_eq_sym; apply txt_ne_error ].

(** ** Status classes *)

Lemma http_ok (r : response) :
  resp_status r < 400 \/ 600 <= resp_status r -> http_error_msg r = None.
Proof.
  intros H. unfold http_error_msg.
  destruct (400 <=? resp_status r) eqn:E1, (resp_status r <? 500) eqn:E2,
    (500 <=? resp_status r) eqn:E3, (resp_status r <? 600) eqn:E4; cbn [andb]; try reflexivity;
    exfalso; lia.
Qed.


(** The lookup of the transcript fails in three ways only. *)
Lemma transcript_of_errors (body : json) x :
  Json.transcript_of body = inl x -> x = KeyError \/ x = IndexError \/ x = TypeError.
Proof.
  unfold Json.transcript_of, Json.and_then, Json.getitem_key, Json.getitem_0.
  repeat match goal with
         | |- context [match ?v with _ => _ end] =>
             first [is_var v | lazymatch v with Json.assoc _ _ => idtac end];
             destruct v
         end;
    intros [= <-]; auto.
Qed.


(** ** Properties of [transcribe] *)

Section Sidecars.

Variables (e : env) (af : string) (w : world) (content : fcontent) (r : response).
Hypothesis Hname : PyStr.is_empty af = false.
Hypothesis Hfile : fs w !! af = Some content.
Hypothesis Hnet : endpoint e (Vox.request_for e content) = NetReply r.



End Sidecars.


(** On a 2xx response the sidecar is the re-serialisation of the parsed
    body, which differs from the body as received. *)
Example json_sidecar_reserialised :
  fs (snd (run_atomic (Vox.transcribe Demo.env_no_channels Demo.audio) Demo.world0))
    !! json_file Demo.audio
  = Some (FText ("{" ++ Demo.dq ++ "results" ++ Demo.dq ++ ": {}}"))
  /\ resp_text Demo.reply_no_channels = "{" ++ Demo.dq ++ "results" ++ Demo.dq ++ ":{}}".
Proof. split; vm_compute; reflexivity. Qed.






(** A 2xx response whose lookup fails by a missing key or an empty list is
    reported as malformed: exit 1 with the message, the JSON sidecar
    written, the text sidecar untouched. *)
Lemma malformed_response_handled (e : env) (af : string) (w : world) (content : fcontent)
    (r : response) (body : json) (x : exn) :
  PyStr.is_empty af = false ->
  fs w !! af = Some content ->
  endpoint e (Vox.request_for e content) = NetReply r ->
  200 <= resp_status r < 300 ->
  resp_json r = inr body ->
  Json.transcript_of body = inl x ->
  x = KeyError \/ x = IndexError ->
  let rw := run_atomic (Vox.transcribe e af) w in
  fst rw = Exited 1
  /\ last (stderr (snd rw))
     = Some ("Error: Failed to extract transcript from JSON, check " ++ json_file af)
  /\ fs (snd rw) !! json_file af = Some (FText (Json.dumps body))
  /\ fs (snd rw) !! txt_file af = fs w !! txt_file af.
Proof.
  intros Hname Hfile Hnet Hs Hj Ht Hx rw. subst rw.
  assert (Hok : http_error_msg r = None) by (apply http_ok; lia).
  rewrite (transcribe_malformed e af w content Hname Hfile r Hnet Hok body Hj x Ht Hx).
  cbn [fst snd]. effects. repeat split.
  - rewrite (world_eta (stored e af content body w)). wrew. wproj. apply last_snoc.
  - apply lookup_insert_eq.
  - unfold stored_fs.
    rewrite !lookup_insert_ne by ne_paths. reflexivity.
Qed.

(** C6, at the failing input: a 2xx response with the body [{"results":[]}]
    lacks the transcript field, yet [transcribe] does not fail with the
    malformed-response error: the subscript raises [TypeError], which no
    handler catches. The JSON sidecar is written and no text sidecar. *)
Theorem malformed_response_type_error :
  let rw := run_atomic (Vox.transcribe Demo.env_results_list Demo.audio) Demo.world0 in
  Json.transcript_of (JObj [("results", JArr [])]) = inl TypeError
  /\ fst rw = Died TypeError
  /\ stderr (snd rw) = []
  /\ fs (snd rw) !! json_file Demo.audio
     = Some (FText ("{" ++ Demo.dq ++ "results" ++ Demo.dq ++ ": []}"))
  /\ fs (snd rw) !! txt_file Demo.audio = None.
Proof. vm_compute. repeat split; reflexivity. Qed.

(** The spec's own example, [{"results":{}}], is handled. *)
Example malformed_response_no_channels :
  let rw := run_atomic (Vox.transcribe Demo.env_no_channels Demo.audio) Demo.world0 in
  fst rw = Exited 1
  /\ fs (snd rw) !! txt_file Demo.audio = None.
Proof. vm_compute. split; reflexivity. Qed.

Lemma missing_bool af w :
  af = EmptyString \/ fs w !! af = None ->
  PyStr.is_empty af || negb (file_exists af w) = true.
Proof.
  intros [->|H]; [reflexivity|]. unfold file_exists. rewrite H.
  rewrite bool_decide_false by (intros [x Hx]; discriminate).
  apply orb_true_r.
Qed.

(** C7. When the audio path is empty or names no file, both front ends'
    [transcribe] fail at once: the terminal one prints the error and exits
    with status 1, the graphical one shows it and clears its transcript; no
    request is sent and the filesystem is unchanged, so no sidecar is
    written. *)
Theorem missing_audio (e : env) (self : VoxGui.vox_window) (af : string) (w : world) :
  af = EmptyString \/ fs w !! af = None ->
  let rw := run_atomic (Vox.transcribe e af) w in
  let gw := run_atomic (VoxGui.transcribe e self af) w in
  (fst rw = Exited 1
   /\ last (stderr (snd rw)) = Some "Error: Audio file missing or not set"
   /\ net_log (snd rw) = net_log w
   /\ fs (snd rw) = fs w)
  /\ (fst gw = Returned tt
      /\ status_label (snd gw) = "Error: Audio file missing or not set"
      /\ self_transcript (snd gw) = JStr EmptyString
      /\ net_log (snd gw) = net_log w
      /\ fs (snd gw) = fs w).
Proof.
  intros H rw gw. subst rw gw. apply missing_bool in H.
  rewrite (transcribe_missing e af w H), (gui_transcribe_missing e self af w H).
  cbn [fst snd]. unfold gui_failed. wexpand w. split; repeat split.
  apply last_snoc.
Qed.

Lemma missing_audio_witness :
  let rw := run_atomic (Vox.transcribe Demo.env_ok "/home/u/none.wav") Demo.world0 in
  let gw := run_atomic (VoxGui.transcribe Demo.env_ok Demo.window "/home/u/none.wav")
              Demo.world0 in
  (fst rw = Exited 1
   /\ last (stderr (snd rw)) = Some "Error: Audio file missing or not set"
   /\ net_log (snd rw) = net_log Demo.world0
   /\ fs (snd rw) = fs Demo.world0)
  /\ (fst gw = Returned tt
      /\ status_label (snd gw) = "Error: Audio file missing or not set"
      /\ self_transcript (snd gw) = JStr EmptyString
      /\ net_log (snd gw) = net_log Demo.world0
      /\ fs (snd gw) = fs Demo.world0).
Proof.
  refine (missing_audio Demo.env_ok Demo.window "/home/u/none.wav" Demo.world0 _).
  right. vm_compute. reflexivity.
Defined.

(** ** The two transcription clients *)

(** C10, counterexample: on a successful transcription the terminal client
    has copied the transcript to the clipboard and the graphical client has
    not touched the clipboard. *)
Lemma transcribe_equivalence_counterexample :
  ~ same_effects
      (snd (run_atomic (Vox.transcribe Demo.env_ok Demo.audio) Demo.world0))
      (snd (run_atomic (VoxGui.transcribe Demo.env_ok Demo.window Demo.audio) Demo.world0)).
Proof. unfold same_effects. intros (_ & _ & H). vm_compute in H. discriminate H. Qed.

Lemma request_for_same e self content :
  VoxGui.deepgram_api_key self = DEEPGRAM_API_KEY e ->
  VoxGui.deepgram_model self = DEEPGRAM_MODEL e ->
  VoxGui.request_for self content = Vox.request_for e content.
Proof. intros Hk Hm. unfold VoxGui.request_for, Vox.request_for. rewrite Hk, Hm. reflexivity. Qed.

(** C10, amended. With the same credential and model, the two clients send
    the same request and leave the same files (so the same [.json], [.txt]
    and [.error] sidecars), and extract the same transcript. They differ in
    how the outcome is surfaced: the terminal client exits with status 1 on
    a failure where the graphical one returns with an empty transcript, and
    on success the terminal client copies the transcript to the clipboard
    where the graphical one keeps it in [self.transcript] and leaves the
    clipboard alone. An exception neither handles escapes from both. *)
Theorem transcribe_equivalence (e : env) (self : VoxGui.vox_window) (af : string)
    (w : world) :
  VoxGui.deepgram_api_key self = DEEPGRAM_API_KEY e ->
  VoxGui.deepgram_model self = DEEPGRAM_MODEL e ->
  let rw := run_atomic (Vox.transcribe e af) w in
  let gw := run_atomic (VoxGui.transcribe e self af) w in
  fs (snd rw) = fs (snd gw)
  /\ net_log (snd rw) = net_log (snd gw)
  /\ clipboard (snd gw) = clipboard w
  /\ surfaced w rw gw.
Proof.
  intros Hk Hm rw gw. subst rw gw. unfold surfaced.
  pose proof (request_for_same e self) as Hreq.
  destruct (PyStr.is_empty af || negb (file_exists af w)) eqn:Hmiss.
  { rewrite (transcribe_missing e af w Hmiss), (gui_transcribe_missing e self af w Hmiss).
    cbn [fst snd]. effects. repeat split. }
  apply orb_false_elim in Hmiss as [Hname Hex].
  apply negb_false_iff in Hex. unfold file_exists in Hex.
  apply bool_decide_eq_true in Hex as [content Hfile].
  specialize (Hreq content Hk Hm).
  destruct (endpoint e (Vox.request_for e content)) as [detail|r] eqn:Hnet.
  { rewrite (transcribe_netfail e af w content Hname Hfile detail Hnet).
    rewrite (gui_transcribe_netfail e self af w content Hname Hfile detail)
      by (rewrite Hreq; exact Hnet).
    cbn [fst snd]. effects. rewrite Hreq. repeat split. }
  assert (Hgnet : endpoint e (VoxGui.request_for self content) = NetReply r)
    by (rewrite Hreq; exact Hnet).
  destruct (http_error_msg r) as [msg|] eqn:Hmsg.
  { rewrite (transcribe_http_error e af w content Hname Hfile r Hnet msg Hmsg).
    rewrite (gui_transcribe_http_error e self af w content Hname Hfile r Hgnet msg Hmsg).
    cbn [fst snd]. effects. rewrite Hreq. repeat split. }
  destruct (resp_json r) as [detail|body] eqn:Hj.
  { rewrite (transcribe_bad_json e af w content Hname Hfile r Hnet Hmsg detail Hj).
    rewrite (gui_transcribe_bad_json e self af w content Hname Hfile r Hgnet Hmsg detail Hj).
    cbn [fst snd]. effects. rewrite Hreq. repeat split. }
  destruct (Json.transcript_of body) as [x|t] eqn:Ht.
  { destruct (transcript_of_errors body x Ht) as [Hx|[Hx|Hx]].
    - rewrite (transcribe_malformed e af w content Hname Hfile r Hnet Hmsg body Hj x Ht)
        by auto.
      rewrite (gui_transcribe_malformed e self af w content Hname Hfile r Hgnet Hmsg
                 body Hj x Ht) by auto.
      cbn [fst snd]. effects. rewrite Hreq. repeat split.
    - rewrite (transcribe_malformed e af w content Hname Hfile r Hnet Hmsg body Hj x Ht)
        by auto.
      rewrite (gui_transcribe_malformed e self af w content Hname Hfile r Hgnet Hmsg
                 body Hj x Ht) by auto.
      cbn [fst snd]. effects. rewrite Hreq. repeat split.
    - subst x.
      rewrite (transcribe_type_error e af w content Hname Hfile r Hnet Hmsg body Hj Ht).
      rewrite (gui_transcribe_type_error e self af w content Hname Hfile r Hgnet Hmsg
                 body Hj Ht).
      cbn [fst snd]. effects. rewrite Hreq. repeat split. }
  assert (Hcase : (exists text, t = JStr text) \/ (forall text, t <> JStr text)).
  { destruct t; try (right; discriminate). left. eexists. reflexivity. }
  destruct Hcase as [[text ->]|Hn].
  - rewrite (transcribe_success e af w content Hname Hfile r Hnet Hmsg body Hj text Ht).
    rewrite (gui_transcribe_success e self af w content Hname Hfile r Hgnet Hmsg
               body Hj text Ht).
    cbn [fst snd]. effects. rewrite Hreq. repeat split. exists text. split; reflexivity.
  - rewrite (transcribe_not_str e af w content Hname Hfile r Hnet Hmsg body Hj t Ht Hn).
    rewrite (gui_transcribe_not_str e self af w content Hname Hfile r Hgnet Hmsg
               body Hj t Ht Hn).
    cbn [fst snd]. effects. rewrite Hreq. repeat split.
Qed.

Lemma transcribe_equivalence_witness :
  let rw := run_atomic (Vox.transcribe Demo.env_ok Demo.audio) Demo.world0 in
  let gw := run_atomic (VoxGui.transcribe Demo.env_ok Demo.window Demo.audio) Demo.world0 in
  fs (snd rw) = fs (snd gw)
  /\ net_log (snd rw) = net_log (snd gw)
  /\ clipboard (snd gw) = clipboard Demo.world0
  /\ surfaced Demo.world0 rw gw.
Proof.
  refine (transcribe_equivalence Demo.env_ok Demo.window Demo.audio Demo.world0 _ _);
    reflexivity.
Defined.

(** ** The buffer *)

Lemma gui_callback_run indata status w :
  run_atomic (VoxGui.callback indata status) w =
  (Returned tt,
   let w1 := if PyStr.is_empty status then w
             else set_status_label ("Error: " ++ status) w in
   if stop_event w1 then w1 else set_audio_data (audio_data w1 ++ [indata]) w1).
Proof.
  destruct w as [f rp ad se ms si dbg out err clip net sl tr].
  unfold VoxGui.callback. destruct (PyStr.is_empty status), se; reflexivity.
Qed.

Lemma interrupted_buffer e w :
  audio_data (snd (interrupted e w)) = audio_data w
  /\ (stop_event w = true -> stop_event (snd (interrupted e w)) = true).
Proof.
  unfold interrupted. destruct (sigint_installed w); cbn [snd]; [|auto].
  destruct w; split; reflexivity.
Qed.

Lemma frozen_result e w (p : pumped) :
  match p with
  | Resume _ w' => env_rel (set_stop_event true w) w'
  | Stop h w'' => exists w', env_rel (set_stop_event true w) w' /\ True
                             /\ (h, w'') = interrupted e w'
  end ->
  frozen w p.
Proof.
  assert (Hs : stop_event (set_stop_event true w) = true) by (destruct w; reflexivity).
  assert (Ha : audio_data (set_stop_event true w) = audio_data w) by (destruct w; reflexivity).
  destruct p as [sch' w'|h w'']; cbn [frozen].
  - intros Hr. split; [rewrite <- Ha; apply (er_frozen _ _ Hr Hs)|apply (er_stop _ _ Hr Hs)].
  - intros (w' & Hr & _ & Hi).
    assert (Hw : w'' = snd (interrupted e w')) by (rewrite <- Hi; reflexivity).
    destruct (interrupted_buffer e w') as [H1 H2]. subst w''. split.
    + rewrite H1, <- Ha. apply (er_frozen _ _ Hr Hs).
    + apply H2. apply (er_stop _ _ Hr Hs).
Qed.

Lemma all_events (sch : list event) : Forall (fun _ : event => True) sch.
Proof. apply Forall_forall. auto. Qed.

Lemma async_appends e ev w :
  exists extra,
    audio_data (snd (async (Vox.signal_handler e) Vox.callback ev w))
    = (audio_data w ++ extra)%list
    /\ (extra <> [] ->
        stop_event w = false
        /\ exists st, recording_process w = Some st /\ s_active st = true).
Proof.
  destruct (async (Vox.signal_handler e) Vox.callback ev w) as [[h|] w'] eqn:E; cbn [snd].
  - apply async_halt in E as [_ Hi].
    assert (Hw : w' = snd (interrupted e w)) by (rewrite <- Hi; reflexivity).
    exists []. rewrite app_nil_r. split; [|congruence].
    rewrite Hw. apply interrupted_buffer.
  - apply async_rel in E. destruct (er_grow _ _ E) as (extra & Hx & HF).
    exists extra. split; [exact Hx|]. intros Hne. split.
    + destruct (stop_event w) eqn:Hs; [|reflexivity].
      rewrite (er_frozen _ _ E Hs) in Hx.
      rewrite <- (app_nil_r (audio_data w)) in Hx at 1.
      apply app_inv_head in Hx. congruence.
    + destruct extra as [|b extra]; [congruence|].
      inversion HF as [|? ? (st & Hst & Hact & _) _]. eauto.
Qed.

(** C9. Buffer discipline. The capture callback of either front end appends
    its block exactly when the stop event is not set, and never touches the
    event; every asynchronous event leaves the buffer as it was or appends
    to it, and appends only while a stream is active and the event is not
    set; and once the event is set, no sequence of asynchronous events,
    between two statements or during the wait, changes the buffer or clears
    the event. *)
Theorem buffer_append_only (e : env) (indata : ndarray) (status : string) (ev : event)
    (sch : list event) (w : world) :
  (audio_data (snd (run_atomic (Vox.callback indata status) w))
   = if stop_event w then audio_data w else (audio_data w ++ [indata])%list)
  /\ stop_event (snd (run_atomic (Vox.callback indata status) w)) = stop_event w
  /\ (audio_data (snd (run_atomic (VoxGui.callback indata status) w))
      = if stop_event w then audio_data w else (audio_data w ++ [indata])%list)
  /\ stop_event (snd (run_atomic (VoxGui.callback indata status) w)) = stop_event w
  /\ (exists extra,
        audio_data (snd (async (Vox.signal_handler e) Vox.callback ev w))
        = (audio_data w ++ extra)%list
        /\ (extra <> [] ->
            stop_event w = false
            /\ exists st, recording_process w = Some st /\ s_active st = true))
  /\ frozen w (pump (Vox.signal_handler e) Vox.callback sch (set_stop_event true w))
  /\ frozen w (await (Vox.signal_handler e) Vox.callback sch (set_stop_event true w)).
Proof.
  rewrite callback_run, gui_callback_run. cbn [snd].
  repeat split.
  - destruct w as [f rp ad se ms si dbg out err clip net sl tr].
    destruct (PyStr.is_empty status), se; reflexivity.
  - destruct w as [f rp ad se ms si dbg out err clip net sl tr].
    destruct (PyStr.is_empty status), se; reflexivity.
  - destruct w as [f rp ad se ms si dbg out err clip net sl tr].
    destruct (PyStr.is_empty status), se; reflexivity.
  - destruct w as [f rp ad se ms si dbg out err clip net sl tr].
    destruct (PyStr.is_empty status), se; reflexivity.
  - apply async_appends.
  - apply (frozen_result e).
    pose proof (pump_spec e env_rel (fun _ => True) env_rel_refl env_rel_trans
                  (fun ev w w' _ => async_rel e ev w w') sch (set_stop_event true w)
                  (all_events sch)) as H.
    destruct (pump (Vox.signal_handler e) Vox.callback sch (set_stop_event true w)).
    + apply H.
    + exact H.
  - apply (frozen_result e).
    pose proof (await_spec e env_rel (fun _ => True) env_rel_refl env_rel_trans
                  (fun ev w w' _ => async_rel e ev w w') sch (set_stop_event true w)
                  (all_events sch)) as H.
    destruct (await (Vox.signal_handler e) Vox.callback sch (set_stop_event true w)).
    + apply H.
    + exact H.
Qed.

(** ** Exit codes *)

Section Runs.

Variable handler : prog unit.
Variable callback : ndarray -> string -> prog unit.

Lemma await_only_yields m w :
  exists k, await handler callback (repeat EvYield m) w = Resume (repeat EvYield k) w.
Proof.
  induction m as [|m [k IH]].
  - exists O. cbn [repeat await]. destruct (stop_event w); reflexivity.
  - cbn [repeat await]. destruct (stop_event w) eqn:Hs.
    + exists (S m). reflexivity.
    + cbn [async]. destruct m; cbn [repeat await] in *; rewrite ?Hs in *; eauto.
Qed.

(** Under a schedule that only lets the main thread run, the run is the
    uninterrupted run. *)
Lemma exec_yields {A : Type} (p : prog A) m w :
  exec handler callback p (repeat EvYield m) w = run_atomic p w.
Proof.
  revert m w. induction p as [a|c|x|k IH|w1 k IH|k IH|k IH]; intros m w;
    cbn [exec run_atomic]; auto.
  - destruct m; cbn [repeat pump]; [apply (IH O)|apply IH].
  - destruct (await_only_yields m w) as [k' ->]. apply IH.
Qed.

End Runs.

Lemma run_atomic_bind {A B : Type} (p : prog A) (f : A -> prog B) w :
  run_atomic (bind p f) w =
  match run_atomic p w with
  | (Returned a, w') => run_atomic (f a) w'
  | (Exited c, w') => (Exited c, w')
  | (Died x, w') => (Died x, w')
  end.
Proof.
  revert w. induction p as [a|c|x|k IH|w1 k IH|k IH|k IH]; intros w;
    cbn [bind run_atomic]; auto.
Qed.

Lemma saved_lookup e w blocks err :
  fs (after_stop_saved e (captured e w blocks) (Vox.audio_file_name e) Vox.CHANNELS err)
    !! Vox.audio_file_name e
  = Some (FWav {| wav_rate := 16000; wav_channels := 1;
                  wav_samples := concat (map fst blocks) |}).
Proof.
  unfold after_stop_saved, captured. wproj.
  rewrite lookup_delete_ne by (apply not_eq_sym; apply audio_ne_tracker).
  rewrite lookup_delete_ne by (apply not_eq_sym; apply audio_ne_pid).
  rewrite lookup_insert_eq. rewrite concat_indata. reflexivity.
Qed.

Lemma audio_file_name_not_empty e :
  absolute (home e) -> PyStr.is_empty (Vox.audio_file_name e) = false.
Proof.
  intros [r Hr]. unfold Vox.audio_file_name, Vox.BASE_FILE. rewrite Hr. reflexivity.
Qed.









(** The exit codes on sample runs. *)
Example sample_exit_codes :
  exit_status (fst (Vox.run Demo.env_ok (Vox.main Demo.env_ok)
                      (plain_session 22 Demo.blocks EvEnter 0) Demo.fresh)) = 0
  /\ exit_status (fst (Vox.run Demo.env_no_key (Vox.main Demo.env_no_key) [] Demo.fresh)) = 1
  /\ exit_status (fst (Vox.run Demo.env_ok (Vox.main Demo.env_ok)
                         (repeat EvYield 30 ++ [EvEnter]) Demo.fresh)) = 1
  /\ exit_status (fst (Vox.run Demo.env_500 (Vox.main Demo.env_500)
                         (plain_session 22 Demo.blocks EvTimeout 0) Demo.fresh)) = 1
  /\ exit_status (fst (Vox.run Demo.env_no_channels (Vox.main Demo.env_no_channels)
                         (plain_session 22 Demo.blocks EvEnter 0) Demo.fresh)) = 1
  /\ exit_status (fst (Vox.run Demo.env_ok (Vox.main Demo.env_ok)
                         (repeat EvYield 25 ++ [EvBlock [1] EmptyString; EvSigint])
                         Demo.fresh)) = 0.
Proof. vm_compute. repeat split; reflexivity. Qed.


(** * Further properties of the code *)

(** ** The closed forms *)

Lemma not_str_cases (t : json) :
  (exists text, t = JStr text) \/ (forall text, t <> JStr text).
Proof. destruct t; try (right; discriminate). left. eexists. reflexivity. Qed.

Lemma transcribe_closed e af w :
  run_atomic (Vox.transcribe e af) w = transcribe_outcome e af w.
Proof.
  unfold transcribe_outcome.
  destruct (PyStr.is_empty af || negb (file_exists af w)) eqn:Hmiss.
  { apply transcribe_missing. exact Hmiss. }
  apply orb_false_elim in Hmiss as [Hname Hex].
  apply negb_false_iff in Hex. unfold file_exists in Hex.
  apply bool_decide_eq_true in Hex as [content Hfile]. rewrite Hfile.
  destruct (endpoint e (Vox.request_for e content)) as [detail|r] eqn:Hnet.
  { apply (transcribe_netfail e af w content Hname Hfile detail Hnet). }
  destruct (http_error_msg r) as [msg|] eqn:Hmsg.
  { apply (transcribe_http_error e af w content Hname Hfile r Hnet msg Hmsg). }
  destruct (resp_json r) as [detail|body] eqn:Hj.
  { apply (transcribe_bad_json e af w content Hname Hfile r Hnet Hmsg detail Hj). }
  destruct (Json.transcript_of body) as [x|t] eqn:Ht.
  { destruct (transcript_of_errors body x Ht) as [->|[->| ->]].
    - apply (transcribe_malformed e af w content Hname Hfile r Hnet Hmsg body Hj _ Ht).
      auto.
    - apply (transcribe_malformed e af w content Hname Hfile r Hnet Hmsg body Hj _ Ht).
      auto.
    - apply (transcribe_type_error e af w content Hname Hfile r Hnet Hmsg body Hj Ht). }
  destruct (not_str_cases t) as [[text ->]|Hn].
  - apply (transcribe_success e af w content Hname Hfile r Hnet Hmsg body Hj text Ht).
  - rewrite (transcribe_not_str e af w content Hname Hfile r Hnet Hmsg body Hj t Ht Hn).
    destruct t; try reflexivity. exfalso. eapply Hn. reflexivity.
Qed.

Lemma gui_transcribe_closed e self af w :
  run_atomic (VoxGui.transcribe e self af) w = gui_transcribe_outcome e self af w.
Proof.
  unfold gui_transcribe_outcome.
  destruct (PyStr.is_empty af || negb (file_exists af w)) eqn:Hmiss.
  { apply gui_transcribe_missing. exact Hmiss. }
  apply orb_false_elim in Hmiss as [Hname Hex].
  apply negb_false_iff in Hex. unfold file_exists in Hex.
  apply bool_decide_eq_true in Hex as [content Hfile]. rewrite Hfile.
  destruct (endpoint e (VoxGui.request_for self content)) as [detail|r] eqn:Hnet.
  { apply (gui_transcribe_netfail e self af w content Hname Hfile detail Hnet). }
  destruct (http_error_msg r) as [msg|] eqn:Hmsg.
  { apply (gui_transcribe_http_error e self af w content Hname Hfile r Hnet msg Hmsg). }
  destruct (resp_json r) as [detail|body] eqn:Hj.
  { apply (gui_transcribe_bad_json e self af w content Hname Hfile r Hnet Hmsg detail Hj). }
  destruct (Json.transcript_of body) as [x|t] eqn:Ht.
  { destruct (transcript_of_errors body x Ht) as [->|[->| ->]].
    - apply (gui_transcribe_malformed e self af w content Hname Hfile r Hnet Hmsg body Hj
               _ Ht). auto.
    - apply (gui_transcribe_malformed e self af w content Hname Hfile r Hnet Hmsg body Hj
               _ Ht). auto.
    - apply (gui_transcribe_type_error e self af w content Hname Hfile r Hnet Hmsg body Hj
               Ht). }
  destruct (not_str_cases t) as [[text ->]|Hn].
  - apply (gui_transcribe_success e self af w content Hname Hfile r Hnet Hmsg body Hj text
             Ht).
  - rewrite (gui_transcribe_not_str e self af w content Hname Hfile r Hnet Hmsg body Hj t
               Ht Hn).
    destruct t; try reflexivity. exfalso. eapply Hn. reflexivity.
Qed.

(** Split a closed form into its cases. *)
Ltac outcome_cases :=
  repeat match goal with
         | |- context [match ?x with _ => _ end] => destruct x eqn:?
         end.



Lemma append_ne_self (s t : string) : t <> EmptyString -> s <> s ++ t.
Proof.
  intros Ht. induction s as [|c s IH]; cbn.
  - intros H. apply Ht. symmetry. exact H.
  - intros H. injection H as H. exact (IH H).
Qed.

Lemma fs_set_DEBUG b w : fs (set_DEBUG b w) = fs w.
Proof. reflexivity. Qed.

(** X2. Only the sidecars: whatever happens, either [transcribe] leaves
    every path other than [<path>.json], [<path>.txt] and [<path>.error] as
    it was, the audio file itself included. *)
Theorem transcribe_touches_sidecars_only (e : env) (self : VoxGui.vox_window)
    (af : string) (w : world) :
  let rw := run_atomic (Vox.transcribe e af) w in
  let gw := run_atomic (VoxGui.transcribe e self af) w in
  (forall p, p <> json_file af -> p <> txt_file af -> p <> error_file af ->
             fs (snd rw) !! p = fs w !! p /\ fs (snd gw) !! p = fs w !! p)
  /\ fs (snd rw) !! af = fs w !! af
  /\ fs (snd gw) !! af = fs w !! af.
Proof.
  intros rw gw.
  assert (H : forall p, p <> json_file af -> p <> txt_file af -> p <> error_file af ->
                        fs (snd rw) !! p = fs w !! p /\ fs (snd gw) !! p = fs w !! p).
  { intros p Hj Ht He. subst rw gw.
    rewrite transcribe_closed, gui_transcribe_closed.
    unfold transcribe_outcome, gui_transcribe_outcome.
    split; outcome_cases; cbn [snd]; effects; unfold stored_fs;
      rewrite ?lookup_delete_ne, ?lookup_insert_ne by (apply not_eq_sym; assumption);
      reflexivity. }
  split; [exact H|].
  assert (Hp : fs (snd rw) !! af = fs w !! af /\ fs (snd gw) !! af = fs w !! af).
  { apply H; unfold json_file, txt_file, error_file; apply append_ne_self; discriminate. }
  exact Hp.
Qed.

Section SameButStderr.

Variables (w1 w2 : world).
Hypothesis H : same_but_stderr w1 w2.

Ltac sbs := destruct H as (? & ? & ? & ?); destruct w1, w2; cbn in *; subst;
            repeat split; reflexivity.

Lemma sbs_write_file p c : same_but_stderr (write_file p c w1) (write_file p c w2).
Proof. sbs. Qed.

Lemma sbs_unlink p : same_but_stderr (unlink p w1) (unlink p w2).
Proof. sbs. Qed.

Lemma sbs_set_clipboard s : same_but_stderr (set_clipboard s w1) (set_clipboard s w2).
Proof. sbs. Qed.

Lemma sbs_print_out s : same_but_stderr (print_out s w1) (print_out s w2).
Proof. sbs. Qed.

Lemma sbs_log_request r : same_but_stderr (log_request r w1) (log_request r w2).
Proof. sbs. Qed.

Lemma sbs_print_err s s' : same_but_stderr (print_err s w1) (print_err s' w2).
Proof. sbs. Qed.

Lemma sbs_print_err_l s : same_but_stderr (print_err s w1) w2.
Proof. sbs. Qed.

Lemma sbs_print_err_r s : same_but_stderr w1 (print_err s w2).
Proof. sbs. Qed.

End SameButStderr.

Lemma sbs_set_DEBUG b w : same_but_stderr (set_DEBUG b w) w.
Proof. destruct w. repeat split; reflexivity. Qed.

Lemma sbs_debug_echo af body w1 w2 :
  same_but_stderr w1 w2 -> same_but_stderr (debug_echo af body w1) (debug_echo af body w2).
Proof.
  intros H. unfold debug_echo. destruct (DEBUG w1), (DEBUG w2).
  - apply sbs_print_err, sbs_print_err, H.
  - apply sbs_print_err_l, sbs_print_err_l, H.
  - apply sbs_print_err_r, sbs_print_err_r, H.
  - exact H.
Qed.

Ltac sbs_steps :=
  repeat lazymatch goal with
         | |- same_but_stderr (write_file _ _ _) (write_file _ _ _) => apply sbs_write_file
         | |- same_but_stderr (unlink _ _) (unlink _ _) => apply sbs_unlink
         | |- same_but_stderr (set_clipboard _ _) (set_clipboard _ _) =>
             apply sbs_set_clipboard
         | |- same_but_stderr (print_out _ _) (print_out _ _) => apply sbs_print_out
         | |- same_but_stderr (log_request _ _) (log_request _ _) => apply sbs_log_request
         | |- same_but_stderr (print_err _ _) (print_err _ _) => apply sbs_print_err
         | |- same_but_stderr (debug_echo _ _ _) (debug_echo _ _ _) => apply sbs_debug_echo
         | |- same_but_stderr (set_DEBUG _ ?w) ?w => apply sbs_set_DEBUG
         end.

(** X3. Debug mode changes nothing but the error stream: with the flag at
    any value, the terminal [transcribe] ends the same way and leaves the
    same files, clipboard, requests and standard output. *)
Theorem debug_changes_stderr_only (e : env) (af : string) (w : world) (b : bool) :
  fst (run_atomic (Vox.transcribe e af) (set_DEBUG b w))
  = fst (run_atomic (Vox.transcribe e af) w)
  /\ same_but_stderr (snd (run_atomic (Vox.transcribe e af) (set_DEBUG b w)))
                     (snd (run_atomic (Vox.transcribe e af) w)).
Proof.
  rewrite !transcribe_closed. unfold transcribe_outcome.
  unfold file_exists. rewrite !fs_set_DEBUG.
  outcome_cases; cbn [fst snd]; (split; [reflexivity|]);
    unfold transcribed, stored, transport_failed, requested; sbs_steps.
Qed.



(** X5. Connection failure: when the request itself fails, both front ends
    store the text of the exception in [<path>.error] and leave
    [<path>.json] as it was; the terminal one prints the error and exits
    with status 1, the graphical one shows it and clears its transcript. *)
Theorem connection_failure (e : env) (self : VoxGui.vox_window) (af : string) (w : world)
    (content : fcontent) (detail gdetail : string) :
  PyStr.is_empty af = false ->
  fs w !! af = Some content ->
  endpoint e (Vox.request_for e content) = NetFail detail ->
  endpoint e (VoxGui.request_for self content) = NetFail gdetail ->
  let rw := run_atomic (Vox.transcribe e af) w in
  let gw := run_atomic (VoxGui.transcribe e self af) w in
  (fst rw = Exited 1
   /\ fs (snd rw) !! error_file af = Some (FText detail)
   /\ fs (snd rw) !! json_file af = fs w !! json_file af
   /\ last (stderr (snd rw))
      = Some ("Error: Transcription failed. Deepgram response saved in " ++ error_file af))
  /\ (fst gw = Returned tt
      /\ fs (snd gw) !! error_file af = Some (FText gdetail)
      /\ fs (snd gw) !! json_file af = fs w !! json_file af
      /\ status_label (snd gw) = "Error: Transcription failed. See " ++ error_file af
      /\ self_transcript (snd gw) = JStr EmptyString).
Proof.
  intros Hname Hfile Hnet Hgnet rw gw. subst rw gw.
  rewrite (transcribe_netfail e af w content Hname Hfile detail Hnet).
  rewrite (gui_transcribe_netfail e self af w content Hname Hfile gdetail Hgnet).
  cbn [fst snd]. split.
  - split; [reflexivity|]. split; [|split].
    + effects. apply lookup_insert_eq.
    + effects. rewrite lookup_insert_ne by ne_paths. reflexivity.
    + unfold transport_failed, requested. wexpand w. apply last_snoc.
  - split; [reflexivity|]. split; [|split; [|split]].
    + effects. apply lookup_insert_eq.
    + effects. rewrite lookup_insert_ne by ne_paths. reflexivity.
    + unfold gui_transport_failed, gui_failed, gui_requested. wexpand w. reflexivity.
    + unfold gui_transport_failed, gui_failed, gui_requested. wexpand w. reflexivity.
Qed.

Lemma connection_failure_witness :
  let rw := run_atomic (Vox.transcribe Sample.env_down Demo.audio) Demo.world0 in
  let gw := run_atomic (VoxGui.transcribe Sample.env_down Demo.window Demo.audio)
              Demo.world0 in
  (fst rw = Exited 1
   /\ fs (snd rw) !! error_file Demo.audio = Some (FText "Connection refused")
   /\ fs (snd rw) !! json_file Demo.audio = fs Demo.world0 !! json_file Demo.audio
   /\ last (stderr (snd rw))
      = Some ("Error: Transcription failed. Deepgram response saved in "
              ++ error_file Demo.audio))
  /\ (fst gw = Returned tt
      /\ fs (snd gw) !! error_file Demo.audio = Some (FText "Connection refused")
      /\ fs (snd gw) !! json_file Demo.audio = fs Demo.world0 !! json_file Demo.audio
      /\ status_label (snd gw)
         = "Error: Transcription failed. See " ++ error_file Demo.audio
      /\ self_transcript (snd gw) = JStr EmptyString).
Proof.
  apply (connection_failure Sample.env_down Demo.window Demo.audio Demo.world0 Demo.clip
           "Connection refused" "Connection refused"); reflexivity.
Defined.

(** X6. A body that is not JSON: when a response passes
    [raise_for_status] but its body does not parse, [<path>.json] has
    already been opened for writing and is left empty; the decoding error
    goes to [<path>.error] and the text sidecar is not touched. The terminal
    front end exits with status 1, the graphical one returns. *)
Theorem unparsable_body (e : env) (self : VoxGui.vox_window) (af : string) (w : world)
    (content : fcontent) (r : response) (detail : string) :
  PyStr.is_empty af = false ->
  fs w !! af = Some content ->
  endpoint e (Vox.request_for e content) = NetReply r ->
  endpoint e (VoxGui.request_for self content) = NetReply r ->
  http_error_msg r = None ->
  resp_json r = inl detail ->
  let rw := run_atomic (Vox.transcribe e af) w in
  let gw := run_atomic (VoxGui.transcribe e self af) w in
  (fst rw = Exited 1
   /\ fs (snd rw) !! json_file af = Some (FText EmptyString)
   /\ fs (snd rw) !! error_file af = Some (FText detail)
   /\ fs (snd rw) !! txt_file af = fs w !! txt_file af)
  /\ (fst gw = Returned tt
      /\ fs (snd gw) !! json_file af = Some (FText EmptyString)
      /\ fs (snd gw) !! error_file af = Some (FText detail)
      /\ fs (snd gw) !! txt_file af = fs w !! txt_file af).
Proof.
  intros Hname Hfile Hnet Hgnet Hok Hj rw gw. subst rw gw.
  rewrite (transcribe_bad_json e af w content Hname Hfile r Hnet Hok detail Hj).
  rewrite (gui_transcribe_bad_json e self af w content Hname Hfile r Hgnet Hok detail Hj).
  cbn [fst snd].
  split; (split; [reflexivity|]); effects; (split; [|split]).
  - rewrite lookup_insert_ne by ne_paths. apply lookup_insert_eq.
  - apply lookup_insert_eq.
  - rewrite !lookup_insert_ne by ne_paths. reflexivity.
  - rewrite lookup_insert_ne by ne_paths. apply lookup_insert_eq.
  - apply lookup_insert_eq.
  - rewrite !lookup_insert_ne by ne_paths. reflexivity.
Qed.

Lemma unparsable_body_witness :
  let rw := run_atomic (Vox.transcribe Sample.env_html Demo.audio) Demo.world0 in
  let gw := run_atomic (VoxGui.transcribe Sample.env_html Demo.window Demo.audio)
              Demo.world0 in
  (fst rw = Exited 1
   /\ fs (snd rw) !! json_file Demo.audio = Some (FText EmptyString)
   /\ fs (snd rw) !! error_file Demo.audio
      = Some (FText "Expecting value: line 1 column 1 (char 0)")
   /\ fs (snd rw) !! txt_file Demo.audio = fs Demo.world0 !! txt_file Demo.audio)
  /\ (fst gw = Returned tt
      /\ fs (snd gw) !! json_file Demo.audio = Some (FText EmptyString)
      /\ fs (snd gw) !! error_file Demo.audio
         = Some (FText "Expecting value: line 1 column 1 (char 0)")
      /\ fs (snd gw) !! txt_file Demo.audio = fs Demo.world0 !! txt_file Demo.audio).
Proof.
  apply (unparsable_body Sample.env_html Demo.window Demo.audio Demo.world0 Demo.clip
           Sample.reply_html "Expecting value: line 1 column 1 (char 0)"); reflexivity.
Defined.

(** X7. A transcript that is not a string (a JSON null, number, list or
    object at the transcript path): [transcript.rstrip()] raises
    [AttributeError], which neither front end catches. By then the JSON
    sidecar is written and [<path>.txt] has been opened for writing, so it
    is left empty; the clipboard is not touched, and the graphical front
    end keeps the value in [self.transcript]. *)
Theorem transcript_not_a_string (e : env) (self : VoxGui.vox_window) (af : string)
    (w : world) (content : fcontent) (r : response) (body t : json) :
  PyStr.is_empty af = false ->
  fs w !! af = Some content ->
  endpoint e (Vox.request_for e content) = NetReply r ->
  endpoint e (VoxGui.request_for self content) = NetReply r ->
  http_error_msg r = None ->
  resp_json r = inr body ->
  Json.transcript_of body = inr t ->
  (forall text, t <> JStr text) ->
  let rw := run_atomic (Vox.transcribe e af) w in
  let gw := run_atomic (VoxGui.transcribe e self af) w in
  (fst rw = Died AttributeError
   /\ fs (snd rw) !! txt_file af = Some (FText EmptyString)
   /\ fs (snd rw) !! json_file af = Some (FText (Json.dumps body))
   /\ clipboard (snd rw) = clipboard w)
  /\ (fst gw = Died AttributeError
      /\ fs (snd gw) !! txt_file af = Some (FText EmptyString)
      /\ fs (snd gw) !! json_file af = Some (FText (Json.dumps body))
      /\ self_transcript (snd gw) = t).
Proof.
  intros Hname Hfile Hnet Hgnet Hok Hj Ht Hn rw gw. subst rw gw.
  rewrite (transcribe_not_str e af w content Hname Hfile r Hnet Hok body Hj t Ht Hn).
  rewrite (gui_transcribe_not_str e self af w content Hname Hfile r Hgnet Hok body Hj t
             Ht Hn).
  cbn [fst snd].
  split; (split; [reflexivity|]); effects; unfold stored_fs; (split; [|split]).
  - apply lookup_insert_eq.
  - rewrite lookup_insert_ne by ne_paths. apply lookup_insert_eq.
  - reflexivity.
  - apply lookup_insert_eq.
  - rewrite lookup_insert_ne by ne_paths. apply lookup_insert_eq.
  - reflexivity.
Qed.

Lemma transcript_not_a_string_witness :
  let rw := run_atomic (Vox.transcribe Sample.env_null Demo.audio) Demo.world0 in
  let gw := run_atomic (VoxGui.transcribe Sample.env_null Demo.window Demo.audio)
              Demo.world0 in
  (fst rw = Died AttributeError
   /\ fs (snd rw) !! txt_file Demo.audio = Some (FText EmptyString)
   /\ fs (snd rw) !! json_file Demo.audio = Some (FText (Json.dumps Sample.body_null))
   /\ clipboard (snd rw) = clipboard Demo.world0)
  /\ (fst gw = Died AttributeError
      /\ fs (snd gw) !! txt_file Demo.audio = Some (FText EmptyString)
      /\ fs (snd gw) !! json_file Demo.audio = Some (FText (Json.dumps Sample.body_null))
      /\ self_transcript (snd gw) = JNull).
Proof.
  apply (transcript_not_a_string Sample.env_null Demo.window Demo.audio Demo.world0
           Demo.clip Sample.reply_null Sample.body_null JNull);
    try reflexivity. discriminate.
Defined.

(** ** Trailing whitespace *)

Lemma rstrip_split (s : string) :
  exists ws, s = PyStr.rstrip s ++ ws /\ all_space ws = true.
Proof.
  induction s as [|c r (ws & Hr & Hws)].
  - exists EmptyString. split; reflexivity.
  - cbn [PyStr.rstrip].
    destruct (PyStr.is_empty (PyStr.rstrip r) && PyStr.is_space c) eqn:Hc.
    + apply andb_true_iff in Hc as [He Hs].
      destruct (PyStr.rstrip r) eqn:Hrr; [|discriminate].
      exists (String c r). split; [reflexivity|].
      cbn [all_space]. rewrite Hs. cbn [andb]. rewrite Hr. exact Hws.
    + exists ws. split; [|exact Hws].
      change (String c r = String c (PyStr.rstrip r ++ ws)). rewrite <- Hr. reflexivity.
Qed.

Lemma rstrip_ends (s : string) : ends_with_space (PyStr.rstrip s) = false.
Proof.
  induction s as [|c r IH]; [reflexivity|].
  cbn [PyStr.rstrip].
  destruct (PyStr.is_empty (PyStr.rstrip r) && PyStr.is_space c) eqn:Hc; [reflexivity|].
  destruct (PyStr.rstrip r) as [|c' r'] eqn:Hrr.
  - cbn in Hc. cbn [ends_with_space]. exact Hc.
  - cbn [ends_with_space] in *. exact IH.
Qed.

(** X8. The text sidecar of a successful transcription, in both front ends,
    is the transcript without its trailing whitespace and nothing else
    removed: the transcript is the sidecar followed by whitespace only, and
    the sidecar does not end in whitespace. *)
Theorem text_sidecar_trimmed (e : env) (self : VoxGui.vox_window) (af : string)
    (w : world) (content : fcontent) (r : response) (body : json) (text : string) :
  PyStr.is_empty af = false ->
  fs w !! af = Some content ->
  endpoint e (Vox.request_for e content) = NetReply r ->
  endpoint e (VoxGui.request_for self content) = NetReply r ->
  http_error_msg r = None ->
  resp_json r = inr body ->
  Json.transcript_of body = inr (JStr text) ->
  exists t ws,
    fs (snd (run_atomic (Vox.transcribe e af) w)) !! txt_file af = Some (FText t)
    /\ fs (snd (run_atomic (VoxGui.transcribe e self af) w)) !! txt_file af
       = Some (FText t)
    /\ text = t ++ ws
    /\ all_space ws = true
    /\ ends_with_space t = false.
Proof.
  intros Hname Hfile Hnet Hgnet Hok Hj Ht.
  destruct (rstrip_split text) as (ws & Hsplit & Hws).
  exists (PyStr.rstrip text), ws.
  rewrite (transcribe_success e af w content Hname Hfile r Hnet Hok body Hj text Ht).
  rewrite (gui_transcribe_success e self af w content Hname Hfile r Hgnet Hok body Hj text
             Ht).
  cbn [snd]. effects.
  repeat split.
  - rewrite lookup_delete_ne by ne_paths. apply lookup_insert_eq.
  - rewrite lookup_delete_ne by ne_paths. apply lookup_insert_eq.
  - exact Hsplit.
  - exact Hws.
  - apply rstrip_ends.
Qed.

Lemma text_sidecar_trimmed_witness :
  exists t ws,
    fs (snd (run_atomic (Vox.transcribe Demo.env_ok Demo.audio) Demo.world0))
      !! txt_file Demo.audio = Some (FText t)
    /\ fs (snd (run_atomic (VoxGui.transcribe Demo.env_ok Demo.window Demo.audio)
                  Demo.world0)) !! txt_file Demo.audio = Some (FText t)
    /\ Demo.transcript = t ++ ws
    /\ all_space ws = true
    /\ ends_with_space t = false.
Proof.
  apply (text_sidecar_trimmed Demo.env_ok Demo.window Demo.audio Demo.world0 Demo.clip
           Demo.reply_ok Demo.body Demo.transcript); reflexivity.
Defined.

(** ** [cleanup] and [stop_recording] on their own *)

Lemma cleanup_run e w :
  run_atomic (Vox.cleanup e) w
  = (Returned tt,
     unlink (Vox.AUDIO_FILE_TRACKER e) (unlink (Vox.PID_FILE e)
       (set_recording_process None w))).
Proof.
  destruct w as [f rp ad se ms si dbg out err clip net sl tr].
  destruct rp; reflexivity.
Qed.

Lemma delete_markers_twice (P T : string) (f : gmap string fcontent) :
  delete T (delete P (delete T (delete P f))) = delete T (delete P f).
Proof.
  apply map_eq. intros k.
  destruct (decide (k = T)) as [->|HT]; [rewrite !lookup_delete_eq; reflexivity|].
  rewrite !(lookup_delete_ne _ T k) by congruence.
  destruct (decide (k = P)) as [->|HP]; [rewrite !lookup_delete_eq; reflexivity|].
  rewrite !(lookup_delete_ne _ P k) by congruence.
  rewrite !lookup_delete_ne by congruence. reflexivity.
Qed.

(** X9. [cleanup] returns normally, drops the stream, removes both markers
    and no other file, leaves the buffer and the stop event as they are, and
    is idempotent: a second [cleanup] changes nothing. *)
Theorem cleanup_idempotent (e : env) (w : world) :
  let w1 := snd (run_atomic (Vox.cleanup e) w) in
  fst (run_atomic (Vox.cleanup e) w) = Returned tt
  /\ recording_process w1 = None
  /\ markers_absent e w1
  /\ (forall p, p <> Vox.PID_FILE e -> p <> Vox.AUDIO_FILE_TRACKER e ->
                fs w1 !! p = fs w !! p)
  /\ audio_data w1 = audio_data w
  /\ stop_event w1 = stop_event w
  /\ run_atomic (Vox.cleanup e) w1 = (Returned tt, w1).
Proof.
  intros w1. subst w1. rewrite !cleanup_run. cbn [fst snd].
  rewrite (world_eta w). wrew. wproj.
  split; [reflexivity|]. split; [reflexivity|]. split.
  { unfold markers_absent. wproj. apply markers_absent_deleted. }
  split.
  { intros p HP HT. rewrite !lookup_delete_ne by (apply not_eq_sym; assumption).
    reflexivity. }
  split; [reflexivity|]. split; [reflexivity|].
  rewrite delete_markers_twice. reflexivity.
Qed.

Lemma stop_without_session_run e w :
  file_exists (Vox.PID_FILE e) w && bool_decide (is_Some (recording_process w)) = false ->
  run_atomic (Vox.stop_recording e) w
  = (Exited 1,
     unlink (Vox.AUDIO_FILE_TRACKER e) (unlink (Vox.PID_FILE e)
       (set_recording_process None
          (print_out "No recording to stop." (print_out "> Stopping recording..." w))))).
Proof.
  intros H. unfold file_exists in H.
  start_run (Vox.signal_handler e) Vox.callback w.
  - unfold Vox.stop_recording, Vox.cleanup, file_exists. unfold_tree. repeat xrun.
    rewrite H. unfold_tree. repeat xrun.
    destruct (recording_process w); unfold_tree; repeat xrun; reflexivity.
  - wrew. wproj. reflexivity.
Qed.

(** X10. [stop_recording] without a session: when the PID marker is missing
    or there is no stream, it prints "No recording to stop.", removes the
    markers and exits with status 1; nothing is saved, whatever the buffer
    holds. *)
Theorem stop_without_session (e : env) (w : world) :
  fs w !! Vox.PID_FILE e = None \/ recording_process w = None ->
  let rw := run_atomic (Vox.stop_recording e) w in
  fst rw = Exited 1
  /\ fs (snd rw) = delete (Vox.AUDIO_FILE_TRACKER e) (delete (Vox.PID_FILE e) (fs w))
  /\ recording_process (snd rw) = None
  /\ audio_data (snd rw) = audio_data w
  /\ stdout (snd rw) = (stdout w ++ ["> Stopping recording..."; "No recording to stop."])%list.
Proof.
  intros H rw. subst rw. rewrite stop_without_session_run.
  - cbn [fst snd]. rewrite (world_eta w). wrew. wproj.
    rewrite <- app_assoc. repeat split.
  - unfold file_exists. destruct H as [H|H]; rewrite H.
    + rewrite bool_decide_false by (intros [x Hx]; discriminate). reflexivity.
    + rewrite (bool_decide_false (is_Some None)) by (intros [x Hx]; discriminate).
      apply andb_false_r.
Qed.

Lemma stop_without_session_witness :
  let rw := run_atomic (Vox.stop_recording Demo.env_ok) Demo.world0 in
  fst rw = Exited 1
  /\ fs (snd rw) = delete (Vox.AUDIO_FILE_TRACKER Demo.env_ok)
                     (delete (Vox.PID_FILE Demo.env_ok) (fs Demo.world0))
  /\ recording_process (snd rw) = None
  /\ audio_data (snd rw) = audio_data Demo.world0
  /\ stdout (snd rw)
     = (stdout Demo.world0 ++ ["> Stopping recording..."; "No recording to stop."])%list.
Proof.
  apply (stop_without_session Demo.env_ok Demo.world0). right. reflexivity.
Defined.

(** ** An interrupt during the recording *)

Lemma interrupted_session_run e w blocks n rest :
  (18 <= n)%nat ->
  sigint_installed w = true ->
  exec (Vox.signal_handler e) Vox.callback (Vox.start_recording e)
    (repeat EvYield n ++ map block_event blocks ++ EvSigint :: rest)%list w
  = (Exited 0, interrupted_session e w blocks).
Proof.
  intros Hn Hsi.
  replace n with (18 + (n - 18))%nat by lia. generalize (n - 18)%nat as m. intros m.
  destruct w as [f0 rp0 ad0 se0 ms0 si0 dbg0 out0 err0 clip0 net0 sl0 tr0].
  cbn [sigint_installed] in Hsi. subst si0.
  unfold Vox.start_recording, Vox.cleanup, Vox.stop_recording, interrupted_session.
  unfold_prog.
  cbn [repeat Nat.add app].
  cbn [fs recording_process audio_data stop_event monitor_started sigint_installed
       DEBUG stdout stderr clipboard net_log status_label self_transcript].
  destruct rp0 as [st0|];
    cbn [bind]; repeat xstep; rewrite exec_wait;
    cbn [app await async stop_event];
    rewrite await_yields by reflexivity;
    rewrite await_blocks by reflexivity;
    cbn [await async stop_event sigint_installed]; rewrite handler_run;
    cbn [halt_result]; wrew; wproj;
    rewrite session_fs_end; rewrite <- !app_assoc; reflexivity.
Qed.

(** X11. Ctrl+C during the wait discards the recording: the process exits
    with status 0, the stream is dropped, and the filesystem is the initial
    one without the markers, so the blocks captured so far, still in the
    buffer, are saved nowhere. *)
Theorem interrupt_discards_recording (e : env) (w : world)
    (blocks : list (list sample * string)) (n : nat) (rest : list event) :
  (18 <= n)%nat ->
  sigint_installed w = true ->
  let rw := Vox.run e (Vox.start_recording e)
              (repeat EvYield n ++ map block_event blocks ++ EvSigint :: rest)%list w in
  fst rw = Exited 0
  /\ fs (snd rw) = delete (Vox.AUDIO_FILE_TRACKER e) (delete (Vox.PID_FILE e) (fs w))
  /\ recording_process (snd rw) = None
  /\ stop_event (snd rw) = true
  /\ audio_data (snd rw) = map (indata_of session_stream) blocks.
Proof.
  intros Hn Hsi rw. subst rw. unfold Vox.run.
  rewrite (interrupted_session_run e w blocks n rest Hn Hsi).
  repeat split.
Qed.

Lemma interrupt_discards_recording_witness :
  let rw := Vox.run Demo.env_ok (Vox.start_recording Demo.env_ok)
              (repeat EvYield 18 ++ map block_event Demo.blocks ++ EvSigint :: [EvEnter])%list
              Demo.world0 in
  fst rw = Exited 0
  /\ fs (snd rw) = delete (Vox.AUDIO_FILE_TRACKER Demo.env_ok)
                     (delete (Vox.PID_FILE Demo.env_ok) (fs Demo.world0))
  /\ recording_process (snd rw) = None
  /\ stop_event (snd rw) = true
  /\ audio_data (snd rw) = map (indata_of session_stream) Demo.blocks.
Proof.
  apply (interrupt_discards_recording Demo.env_ok Demo.world0 Demo.blocks 18 [EvEnter]).
  - lia.
  - reflexivity.
Defined.

(** ** The process as a whole *)

Lemma wp_main_no_key_state e w :
  PyStr.is_empty (DEEPGRAM_API_KEY e) = true ->
  wp env_rel (fun _ => True) (Vox.main e)
    (fun r w' => r = Exited 1 /\ fs w' = fs w /\ net_log w' = net_log w
                 /\ clipboard w' = clipboard w /\ stdout w' = stdout w
                 /\ recording_process w' = recording_process w
                 /\ sigint_installed w' = sigint_installed w) w.
Proof.
  intros Hkey.
  assert (HR : forall w w', env_rel w w' -> env_rel w w') by auto.
  destruct w as [f0 rp0 ad0 se0 ms0 si0 dbg0 out0 err0 clip0 net0 sl0 tr0].
  unfold Vox.main, Vox.check_environment. rewrite Hkey. wsimpl.
  env_step w1. env_step w2. env_step w3. env_step w4. env_step w5.
  repeat split.
Qed.

(** X12. Without a credential nothing is recorded: under every schedule of
    blocks, key presses and timeouts, [main] exits with status 1 before it
    installs the handler or opens a stream; files, requests, clipboard and
    standard output are as they were. *)
Theorem no_credential_no_recording (e : env) (sch : list event) (w : world) :
  PyStr.is_empty (DEEPGRAM_API_KEY e) = true ->
  Forall (fun ev => ev <> EvSigint) sch ->
  let rw := Vox.run e (Vox.main e) sch w in
  fst rw = Exited 1
  /\ fs (snd rw) = fs w
  /\ net_log (snd rw) = net_log w
  /\ clipboard (snd rw) = clipboard w
  /\ stdout (snd rw) = stdout w
  /\ recording_process (snd rw) = recording_process w
  /\ sigint_installed (snd rw) = sigint_installed w.
Proof.
  intros Hkey Hs rw. subst rw.
  apply (wp_sound e env_rel (fun _ => True) (fun ev => ev <> EvSigint)
           env_rel_refl env_rel_trans (async_rel_quiet e) (Vox.main e)
           (fun r w' => r = Exited 1 /\ fs w' = fs w /\ net_log w' = net_log w
                        /\ clipboard w' = clipboard w /\ stdout w' = stdout w
                        /\ recording_process w' = recording_process w
                        /\ sigint_installed w' = sigint_installed w)).
  - intros H. congruence.
  - exact Hs.
  - apply wp_main_no_key_state. exact Hkey.
Qed.

Lemma no_credential_no_recording_witness :
  let rw := Vox.run Demo.env_no_key (Vox.main Demo.env_no_key)
              [EvYield; EvBlock [1] EmptyString; EvEnter; EvYield; EvTimeout] Demo.fresh in
  fst rw = Exited 1
  /\ fs (snd rw) = fs Demo.fresh
  /\ net_log (snd rw) = net_log Demo.fresh
  /\ clipboard (snd rw) = clipboard Demo.fresh
  /\ stdout (snd rw) = stdout Demo.fresh
  /\ recording_process (snd rw) = recording_process Demo.fresh
  /\ sigint_installed (snd rw) = sigint_installed Demo.fresh.
Proof.
  apply (no_credential_no_recording Demo.env_no_key
           [EvYield; EvBlock [1] EmptyString; EvEnter; EvYield; EvTimeout] Demo.fresh).
  - reflexivity.
  - repeat constructor; discriminate.
Defined.

Lemma sidecar_ne_pid e (s : string) : Vox.audio_file_name e ++ s <> Vox.PID_FILE e.
Proof.
  unfold Vox.audio_file_name, Vox.BASE_FILE, Vox.PID_FILE. rewrite !str_app_assoc.
  intros H. apply append_inj_l in H. discriminate.
Qed.

Lemma sidecar_ne_tracker e (s : string) :
  Vox.audio_file_name e ++ s <> Vox.AUDIO_FILE_TRACKER e.
Proof.
  unfold Vox.audio_file_name, Vox.BASE_FILE, Vox.AUDIO_FILE_TRACKER.
  rewrite !str_app_assoc. intros H. apply append_inj_l in H. discriminate.
Qed.

(** What a session followed by a successful transcription leaves. *)
Lemma full_run_state e w1 blocks err content body text :
  let name := Vox.audio_file_name e in
  let W := transcribed e name content body text
             (after_stop_saved e (captured e w1 blocks) name Vox.CHANNELS err) in
  fs W !! name = Some (FWav {| wav_rate := 16000; wav_channels := 1;
                               wav_samples := concat (map fst blocks) |})
  /\ fs W !! json_file name = Some (FText (Json.dumps body))
  /\ fs W !! txt_file name = Some (FText (PyStr.rstrip text))
  /\ fs W !! error_file name = None
  /\ clipboard W = Some text
  /\ markers_absent e W
  /\ net_log W = (net_log w1 ++ [Vox.request_for e content])%list.
Proof.
  intros name W. subst W. effects. unfold stored_fs.
  assert (Hj : name <> json_file name) by (apply append_ne_self; discriminate).
  assert (Ht : name <> txt_file name) by (apply append_ne_self; discriminate).
  assert (He : name <> error_file name) by (apply append_ne_self; discriminate).
  split; [|split; [|split; [|split; [|split; [|split]]]]].
  - rewrite lookup_delete_ne by (apply not_eq_sym; exact He).
    rewrite !lookup_insert_ne by (apply not_eq_sym; assumption).
    apply saved_lookup.
  - rewrite lookup_delete_ne by ne_paths. rewrite !lookup_insert_ne by ne_paths.
    apply lookup_insert_eq.
  - rewrite lookup_delete_ne by ne_paths. apply lookup_insert_eq.
  - apply lookup_delete_eq.
  - reflexivity.
  - unfold markers_absent. effects. unfold stored_fs, json_file, txt_file, error_file.
    split.
    + rewrite lookup_delete_ne by apply sidecar_ne_pid.
      rewrite !lookup_insert_ne by apply sidecar_ne_pid.
      unfold after_stop_saved. wproj. apply markers_absent_deleted.
    + rewrite lookup_delete_ne by apply sidecar_ne_tracker.
      rewrite !lookup_insert_ne by apply sidecar_ne_tracker.
      unfold after_stop_saved. wproj. apply markers_absent_deleted.
  - reflexivity.
Qed.

Lemma session_then_transcribe e w1 blocks stop n m r body text :
  absolute (home e) ->
  blocks <> [] ->
  stop = EvEnter \/ stop = EvTimeout ->
  (18 <= n)%nat ->
  endpoint e (Vox.request_for e
                (FWav {| wav_rate := 16000; wav_channels := 1;
                         wav_samples := concat (map fst blocks) |})) = NetReply r ->
  http_error_msg r = None ->
  resp_json r = inr body ->
  Json.transcript_of body = inr (JStr text) ->
  exists err,
    exec (Vox.signal_handler e) Vox.callback
      (bind (Vox.start_recording e)
         (fun audio_file => Yield (Get (fun _ =>
            if PyStr.is_empty audio_file then Ret tt else Vox.transcribe e audio_file))))
      (repeat EvYield n ++ map block_event blocks ++ stop :: EvYield :: repeat EvYield m)%list
      w1
    = (Returned tt,
       transcribed e (Vox.audio_file_name e)
         (FWav {| wav_rate := 16000; wav_channels := 1;
                  wav_samples := concat (map fst blocks) |}) body text
         (after_stop_saved e (captured e w1 blocks) (Vox.audio_file_name e)
            Vox.CHANNELS err)).
Proof.
  intros Habs Hne Hstop Hn Hnet Hok Hj Ht.
  rewrite (exec_start_recording e _ n blocks stop (repeat EvYield m) w1 Hn Hstop).
  rewrite exec_yields, run_atomic_bind.
  destruct (stop_after_capture e w1 blocks [] Hne (List.Forall_nil _)) as [err Hrun].
  unfold Vox.run in Hrun. rewrite exec_nil in Hrun. rewrite Hrun.
  rewrite (strip_audio_file_name e Habs). cbn [run_atomic].
  rewrite (audio_file_name_not_empty e Habs).
  exists err.
  apply (transcribe_success e (Vox.audio_file_name e) _ _
           (audio_file_name_not_empty e Habs) (saved_lookup e w1 blocks err)
           r Hnet Hok body Hj text Ht).
Qed.

(** X13. From the microphone to the clipboard: when the blocks arrive during
    the wait, the stop is observed and the endpoint answers with a
    transcript, [main] returns; the recording, its JSON and text sidecars are
    on disk, no error sidecar and no marker is left, the clipboard holds the
    transcript, and exactly one request, carrying the recording, was
    sent. *)
Theorem full_run (e : env) (w : world) (blocks : list (list sample * string))
    (stop : event) (n m : nat) (r : response) (body : json) (text : string) :
  absolute (home e) ->
  PyStr.is_empty (DEEPGRAM_API_KEY e) = false ->
  blocks <> [] ->
  stop = EvEnter \/ stop = EvTimeout ->
  (22 <= n)%nat ->
  endpoint e (Vox.request_for e
                (FWav {| wav_rate := 16000; wav_channels := 1;
                         wav_samples := concat (map fst blocks) |})) = NetReply r ->
  200 <= resp_status r < 300 ->
  resp_json r = inr body ->
  Json.transcript_of body = inr (JStr text) ->
  let name := Vox.audio_file_name e in
  let recording := FWav {| wav_rate := 16000; wav_channels := 1;
                           wav_samples := concat (map fst blocks) |} in
  let rw := Vox.run e (Vox.main e) (plain_session n blocks stop m) w in
  fst rw = Returned tt
  /\ fs (snd rw) !! name = Some recording
  /\ fs (snd rw) !! json_file name = Some (FText (Json.dumps body))
  /\ fs (snd rw) !! txt_file name = Some (FText (PyStr.rstrip text))
  /\ fs (snd rw) !! error_file name = None
  /\ clipboard (snd rw) = Some text
  /\ markers_absent e (snd rw)
  /\ net_log (snd rw) = (net_log w ++ [Vox.request_for e recording])%list.
Proof.
  intros Habs Hkey Hne Hstop Hn Hnet Hs Hj Ht name recording rw.
  assert (Hok : http_error_msg r = None) by (apply http_ok; lia).
  assert (Hrun : exists w1 err,
    net_log w1 = net_log w
    /\ Vox.run e (Vox.main e) (plain_session n blocks stop m) w
       = (Returned tt,
          transcribed e name recording body text
            (after_stop_saved e (captured e w1 blocks) name Vox.CHANNELS err))).
  { subst name recording. unfold Vox.run, plain_session.
    replace n with (4 + (n - 4))%nat by lia.
    assert (Hn4 : (18 <= n - 4)%nat) by lia. revert Hn4. generalize (n - 4)%nat as k.
    intros k Hk. clear Hn.
    pose proof (fun n' w1 Hn' =>
                  session_then_transcribe e w1 blocks stop n' m r body text
                    Habs Hne Hstop Hn' Hnet Hok Hj Ht) as Hrest.
    destruct w as [f0 rp0 ad0 se0 ms0 si0 dbg0 out0 err0 clip0 net0 sl0 tr0].
    unfold Vox.main, Vox.check_environment. rewrite Hkey. unfold_prog.
    cbn [repeat Nat.add app].
    destruct (argv e) as [|a0 [|a1 rest]].
    - destruct (Hrest (S k)
                  (mkWorld f0 rp0 ad0 se0 ms0 true dbg0 out0 err0 clip0 net0 sl0 tr0)
                  ltac:(lia)) as [err Herr].
      eexists _, err. split; [|rewrite <- Herr; repeat xstep; reflexivity]. reflexivity.
    - destruct (Hrest (S k)
                  (mkWorld f0 rp0 ad0 se0 ms0 true dbg0 out0 err0 clip0 net0 sl0 tr0)
                  ltac:(lia)) as [err Herr].
      eexists _, err. split; [|rewrite <- Herr; repeat xstep; reflexivity]. reflexivity.
    - destruct (String.eqb a1 "debug").
      + destruct (Hrest k
                    (mkWorld f0 rp0 ad0 se0 ms0 true true out0 err0 clip0 net0 sl0 tr0)
                    Hk) as [err Herr].
        eexists _, err. split; [|rewrite <- Herr; repeat xstep; reflexivity]. reflexivity.
      + destruct (Hrest (S k)
                    (mkWorld f0 rp0 ad0 se0 ms0 true dbg0 out0 err0 clip0 net0 sl0 tr0)
                    ltac:(lia)) as [err Herr].
        eexists _, err. split; [|rewrite <- Herr; repeat xstep; reflexivity]. reflexivity. }
  destruct Hrun as (w1 & err & Hnl & Hrun). subst rw. rewrite Hrun. cbn [fst snd].
  split; [reflexivity|].
  rewrite <- Hnl. apply (full_run_state e w1 blocks err recording body text).
Qed.

Lemma full_run_witness :
  let name := Vox.audio_file_name Demo.env_ok in
  let recording := FWav {| wav_rate := 16000; wav_channels := 1;
                           wav_samples := concat (map fst Demo.blocks) |} in
  let rw := Vox.run Demo.env_ok (Vox.main Demo.env_ok)
              (plain_session 22 Demo.blocks EvTimeout 0) Demo.fresh in
  fst rw = Returned tt
  /\ fs (snd rw) !! name = Some recording
  /\ fs (snd rw) !! json_file name = Some (FText (Json.dumps Demo.body))
  /\ fs (snd rw) !! txt_file name = Some (FText (PyStr.rstrip Demo.transcript))
  /\ fs (snd rw) !! error_file name = None
  /\ clipboard (snd rw) = Some Demo.transcript
  /\ markers_absent Demo.env_ok (snd rw)
  /\ net_log (snd rw) = (net_log Demo.fresh ++ [Vox.request_for Demo.env_ok recording])%list.
Proof.
  apply (full_run Demo.env_ok Demo.fresh Demo.blocks EvTimeout 22 0 Demo.reply_ok
           Demo.body Demo.transcript).
  - exists "home/u". reflexivity.
  - reflexivity.
  - discriminate.
  - right. reflexivity.
  - lia.
  - reflexivity.
  - simpl. lia.
  - reflexivity.
  - reflexivity.
Defined.

(** ** The window *)

(** The methods of the window as trees of constructors. *)
Ltac unfold_window :=
  unfold VoxWindow.controls_idle, VoxWindow.on_ui, VoxWindow.cleanup;
  unfold_tree.

Lemma gui_cleanup_run e w :
  run_atomic (VoxWindow.cleanup e) w
  = (Returned tt,
     unlink (VoxWindow.AUDIO_FILE_TRACKER e) (unlink (VoxWindow.PID_FILE e)
       (set_stop_event true (set_recording_process None w)))).
Proof.
  destruct w as [f rp ad se ms si dbg out err clip net sl tr].
  destruct rp; reflexivity.
Qed.

Lemma start_without_key_run e s w :
  PyStr.is_empty (VoxGui.deepgram_api_key (VoxWindow.self s)) = true ->
  run_atomic (VoxWindow.start_recording e s) w
  = (Returned
       (VoxWindow.mkWindow (VoxWindow.self s)
          (VoxWindow.show_message_box
             ("Deepgram API key is required." ++ Json.nl
              ++ "Enter it in the input field or get one from https://console.deepgram.com")
             (VoxWindow.ui s))), w).
Proof.
  intros Hkey. unfold VoxWindow.start_recording. cbn [observe run_atomic].
  rewrite Hkey. reflexivity.
Qed.

Lemma start_recording_run e s w :
  PyStr.is_empty (VoxGui.deepgram_api_key (VoxWindow.self s)) = false ->
  run_atomic (VoxWindow.start_recording e s) w
  = (Returned (recording_controls s), gui_recording e w []).
Proof.
  intros Hkey.
  start_run (Ret tt : prog unit) VoxGui.callback w.
  - unfold VoxWindow.start_recording. unfold_window. repeat xrun.
    rewrite Hkey. unfold_window.
    destruct (recording_process w); unfold_window; repeat xrun; reflexivity.
  - unfold gui_recording, recording_controls. wproj.
    destruct s as [sf u]. destruct u. reflexivity.
Qed.

(** Blocks that arrive while the window records, up to the next statement
    of the main thread. *)
Lemma pump_blocks_gui (h : prog unit) e w bs blocks rest :
  pump h VoxGui.callback (map block_event blocks ++ EvYield :: rest)%list
    (gui_recording e w bs)
  = Resume rest (gui_recording e w (bs ++ blocks)).
Proof.
  revert bs. induction blocks as [|[fr st] blocks IH]; intros bs.
  - rewrite app_nil_r. reflexivity.
  - cbn [map app]. unfold block_event at 1. cbn [fst snd pump].
    unfold async. unfold gui_recording at 1. cbn [recording_process session_stream s_active].
    rewrite gui_callback_run. cbn [snd].
    replace (bs ++ (fr, st) :: blocks)%list with ((bs ++ [(fr, st)]) ++ blocks)%list
      by (rewrite <- app_assoc; reflexivity).
    rewrite <- IH. f_equal.
    unfold gui_recording, gui_label_after.
    rewrite map_app, fold_left_app. cbn [map fold_left snd fst indata_of].
    destruct (PyStr.is_empty st); wrew; wproj; wrew; reflexivity.
Qed.

Lemma gui_strip_audio_file_name e :
  absolute (home e) -> PyStr.strip (VoxWindow.audio_file_name e) = VoxWindow.audio_file_name e.
Proof. exact (strip_audio_file_name e). Qed.

Lemma session_markers_present e w bs :
  file_exists (VoxWindow.PID_FILE e) (gui_recording e w bs)
  && bool_decide (is_Some (recording_process (gui_recording e w bs))) = true.
Proof.
  unfold file_exists, gui_recording. cbn [fs recording_process].
  rewrite lookup_insert_eq. rewrite !bool_decide_true by eauto. reflexivity.
Qed.

Lemma session_tracker e w bs :
  fs (gui_recording e w bs) !! VoxWindow.AUDIO_FILE_TRACKER e
  = Some (FText (VoxWindow.audio_file_name e)).
Proof.
  unfold gui_recording. cbn [fs].
  rewrite lookup_insert_ne by apply pid_ne_tracker. apply lookup_insert_eq.
Qed.

Lemma file_exists_mk p f rp ad se ms si dbg out err clip net sl tr :
  file_exists p (mkWorld f rp ad se ms si dbg out err clip net sl tr)
  = bool_decide (is_Some (f !! p)).
Proof. reflexivity. Qed.

(** The checks at the head of [stop_recording] in a running session. *)
Ltac session_found :=
  rewrite file_exists_mk, lookup_insert_eq, !bool_decide_true by eauto;
  cbn [andb]; repeat xrun;
  rewrite lookup_insert_ne by apply pid_ne_tracker; rewrite lookup_insert_eq;
  repeat xrun.

Lemma stop_recording_empty_at (b : bool) e s w :
  run_atomic (VoxWindow.stop_recording e s) (set_stop_event b (gui_recording e w []))
  = (Returned (idle_controls false s),
     gui_stopped e "No audio data recorded." (gui_recording e w [])).
Proof.
  rewrite <- (exec_nil (Ret tt : prog unit) VoxGui.callback).
  unfold gui_recording. wrew.
  eapply eq_trans.
  - unfold VoxWindow.stop_recording. unfold_window. repeat xrun.
    session_found. reflexivity.
  - unfold gui_stopped, idle_controls. wproj. destruct s as [sf u]. destruct u.
    reflexivity.
Qed.

Lemma stop_recording_empty_run e s w :
  run_atomic (VoxWindow.stop_recording e s) (gui_recording e w [])
  = (Returned (idle_controls false s),
     gui_stopped e "No audio data recorded." (gui_recording e w [])).
Proof. exact (stop_recording_empty_at false e s w). Qed.

Lemma stop_recording_saved_at (b0 : bool) e s w blocks :
  absolute (home e) ->
  blocks <> [] ->
  run_atomic (VoxWindow.stop_recording e s) (set_stop_event b0 (gui_recording e w blocks))
  = match run_atomic (VoxGui.transcribe e (VoxWindow.self s) (VoxWindow.audio_file_name e))
            (gui_saved e w blocks) with
    | (Returned _, w') =>
        (Returned (idle_controls (truthy (self_transcript w'))
                     (VoxWindow.mkWindow (VoxWindow.self s)
                        (VoxWindow.set_central_widget true (VoxWindow.ui s)))), w')
    | (Exited c, w') => (Exited c, w')
    | (Died x, w') => (Died x, w')
    end.
Proof.
  intros Habs Hne.
  destruct blocks as [|b blocks]; [congruence|].
  rewrite <- (exec_nil (Ret tt : prog unit) VoxGui.callback).
  pose proof (np_concatenate_ok (s_channels session_stream)
                (map (indata_of session_stream) (b :: blocks))) as Hcat.
  unfold gui_recording. wrew.
  eapply eq_trans.
  - unfold VoxWindow.stop_recording. unfold_window. repeat xrun.
    session_found. rewrite (gui_strip_audio_file_name e Habs).
    cbn [map] in *. repeat xrun.
    rewrite Hcat by (try discriminate; apply (cols_indata session_stream (b :: blocks))).
    repeat xrun. cbn [VoxWindow.self VoxWindow.ui].
    rewrite exec_nil, run_atomic_bind. reflexivity.
  - cbn beta. cbn [nd_cols nd_data].
    rewrite session_fs_saved.
    change (concat (nd_data (indata_of session_stream b)
                    :: map nd_data (map (indata_of session_stream) blocks)))
      with (concat (map nd_data (map (indata_of session_stream) (b :: blocks)))).
    rewrite concat_indata.
    match goal with
    | |- (let (_, _) := run_atomic _ ?d in _) = _ =>
        change d with (gui_saved e w (b :: blocks))
    end.
    destruct (run_atomic (VoxGui.transcribe e (VoxWindow.self s)
                            (VoxWindow.audio_file_name e)) (gui_saved e w (b :: blocks)))
      as [[u|c0|x] w']; [|reflexivity|reflexivity].
    unfold idle_controls. destruct s as [sf ui]. destruct ui. reflexivity.
Qed.

Lemma stop_recording_saved_run e s w blocks :
  absolute (home e) ->
  blocks <> [] ->
  run_atomic (VoxWindow.stop_recording e s) (gui_recording e w blocks)
  = match run_atomic (VoxGui.transcribe e (VoxWindow.self s) (VoxWindow.audio_file_name e))
            (gui_saved e w blocks) with
    | (Returned _, w') =>
        (Returned (idle_controls (truthy (self_transcript w'))
                     (VoxWindow.mkWindow (VoxWindow.self s)
                        (VoxWindow.set_central_widget true (VoxWindow.ui s)))), w')
    | (Exited c, w') => (Exited c, w')
    | (Died x, w') => (Died x, w')
    end.
Proof. exact (stop_recording_saved_at false e s w blocks). Qed.

Lemma exec_blocks_then_yields (h : prog unit) e w blocks m {A : Type} (k : prog A) :
  exec h VoxGui.callback (Yield k) (map block_event blocks ++ repeat EvYield (S m))%list
    (gui_recording e w [])
  = run_atomic (Yield k) (gui_recording e w blocks).
Proof.
  cbn [exec repeat]. rewrite pump_blocks_gui. cbn [app run_atomic]. apply exec_yields.
Qed.

Lemma stop_after_blocks (h : prog unit) e s w blocks m :
  exec h VoxGui.callback (VoxWindow.stop_recording e s)
    (map block_event blocks ++ repeat EvYield (S m))%list (gui_recording e w [])
  = run_atomic (VoxWindow.stop_recording e s) (gui_recording e w blocks).
Proof.
  assert (Hy : exists k, VoxWindow.stop_recording e s = Yield k)
    by (eexists; reflexivity).
  destruct Hy as [k Hk]. rewrite Hk. apply exec_blocks_then_yields.
Qed.

Lemma stop_recording_idle_run e s w :
  file_exists (VoxWindow.PID_FILE e) w && bool_decide (is_Some (recording_process w)) = false ->
  run_atomic (VoxWindow.stop_recording e s) w
  = (Returned (idle_controls false s), gui_stopped e "No recording to stop." w).
Proof.
  intros H. unfold file_exists in H.
  start_run (Ret tt : prog unit) VoxGui.callback w.
  - unfold VoxWindow.stop_recording, file_exists. unfold_window. repeat xrun.
    rewrite H. unfold_window. repeat xrun.
    destruct (recording_process w); unfold_window; repeat xrun; reflexivity.
  - unfold gui_stopped, idle_controls. wproj. destruct s as [sf u]. destruct u.
    reflexivity.
Qed.

Lemma gui_saved_lookup e w blocks :
  fs (gui_saved e w blocks) !! VoxWindow.audio_file_name e
  = Some (FWav {| wav_rate := 16000; wav_channels := 1;
                  wav_samples := concat (map fst blocks) |}).
Proof.
  unfold gui_saved. wproj.
  rewrite lookup_delete_ne by (apply not_eq_sym; apply audio_ne_tracker).
  rewrite lookup_delete_ne by (apply not_eq_sym; apply audio_ne_pid).
  apply lookup_insert_eq.
Qed.

(** ** A session of the window *)

(** What a session of the window that ends in a successful transcription
    leaves. *)
Lemma window_session_state e sf w blocks content body text :
  let name := VoxWindow.audio_file_name e in
  let W := gui_transcribed sf name content body text (gui_saved e w blocks) in
  fs W !! name = Some (FWav {| wav_rate := 16000; wav_channels := 1;
                               wav_samples := concat (map fst blocks) |})
  /\ fs W !! json_file name = Some (FText (Json.dumps body))
  /\ fs W !! txt_file name = Some (FText (PyStr.rstrip text))
  /\ fs W !! error_file name = None
  /\ markers_absent e W
  /\ self_transcript W = JStr text
  /\ clipboard W = clipboard w
  /\ net_log W = (net_log w ++ [VoxGui.request_for sf content])%list.
Proof.
  intros name W. subst W. effects. unfold stored_fs.
  assert (Hj : name <> json_file name) by (apply append_ne_self; discriminate).
  assert (Ht : name <> txt_file name) by (apply append_ne_self; discriminate).
  assert (He : name <> error_file name) by (apply append_ne_self; discriminate).
  split; [|split; [|split; [|split; [|split; [|split; [|split]]]]]].
  - rewrite lookup_delete_ne by (apply not_eq_sym; exact He).
    rewrite !lookup_insert_ne by (apply not_eq_sym; assumption).
    apply gui_saved_lookup.
  - rewrite lookup_delete_ne by ne_paths. rewrite !lookup_insert_ne by ne_paths.
    apply lookup_insert_eq.
  - rewrite lookup_delete_ne by ne_paths. apply lookup_insert_eq.
  - apply lookup_delete_eq.
  - unfold markers_absent. effects. unfold stored_fs, json_file, txt_file, error_file.
    split.
    + rewrite lookup_delete_ne by apply sidecar_ne_pid.
      rewrite !lookup_insert_ne by apply sidecar_ne_pid.
      unfold gui_saved. wproj. apply markers_absent_deleted.
    + rewrite lookup_delete_ne by apply sidecar_ne_tracker.
      rewrite !lookup_insert_ne by apply sidecar_ne_tracker.
      unfold gui_saved. wproj. apply markers_absent_deleted.
  - reflexivity.
  - reflexivity.
  - reflexivity.
Qed.

(** X14. A session of the window: Start with a key set writes both markers
    and leaves only Stop enabled; when blocks then arrive and Stop is
    pressed, the recording holds the blocks in order, it is transcribed, the
    sidecars are written, the markers are gone, the transcript is kept in
    [self.transcript] while the clipboard is not touched, and the controls
    are back, Copy being enabled exactly when the transcript is not
    empty. *)
Theorem window_session (h : prog unit) (e : env) (s : VoxWindow.window) (w : world)
    (blocks : list (list sample * string)) (m : nat) (r : response) (body : json)
    (text : string) :
  absolute (home e) ->
  PyStr.is_empty (VoxGui.deepgram_api_key (VoxWindow.self s)) = false ->
  blocks <> [] ->
  endpoint e (VoxGui.request_for (VoxWindow.self s)
                (FWav {| wav_rate := 16000; wav_channels := 1;
                         wav_samples := concat (map fst blocks) |})) = NetReply r ->
  200 <= resp_status r < 300 ->
  resp_json r = inr body ->
  Json.transcript_of body = inr (JStr text) ->
  let name := VoxWindow.audio_file_name e in
  let started := run_atomic (VoxWindow.start_recording e s) w in
  let stopped := exec h VoxGui.callback
                   (VoxWindow.stop_recording e (recording_controls s))
                   (map block_event blocks ++ repeat EvYield (S m))%list (snd started) in
  (fst started = Returned (recording_controls s)
   /\ fs (snd started) !! VoxWindow.PID_FILE e = Some (FText (PyStr.str_of_Z (pid e)))
   /\ fs (snd started) !! VoxWindow.AUDIO_FILE_TRACKER e = Some (FText name))
  /\ (exists s',
        fst stopped = Returned s'
        /\ VoxWindow.start_button (VoxWindow.ui s') = true
        /\ VoxWindow.stop_button (VoxWindow.ui s') = false
        /\ VoxWindow.copy_button (VoxWindow.ui s') = negb (PyStr.is_empty text))
  /\ fs (snd stopped) !! name
     = Some (FWav {| wav_rate := 16000; wav_channels := 1;
                     wav_samples := concat (map fst blocks) |})
  /\ fs (snd stopped) !! json_file name = Some (FText (Json.dumps body))
  /\ fs (snd stopped) !! txt_file name = Some (FText (PyStr.rstrip text))
  /\ fs (snd stopped) !! error_file name = None
  /\ markers_absent e (snd stopped)
  /\ self_transcript (snd stopped) = JStr text
  /\ clipboard (snd stopped) = clipboard w.
Proof.
  intros Habs Hkey Hne Hnet Hs Hj Ht name started stopped.
  assert (Hok : http_error_msg r = None) by (apply http_ok; lia).
  subst stopped started. rewrite (start_recording_run e s w Hkey). cbn [fst snd].
  rewrite stop_after_blocks.
  rewrite (stop_recording_saved_run e (recording_controls s) w blocks Habs Hne).
  cbn [recording_controls VoxWindow.self].
  rewrite (gui_transcribe_success e (VoxWindow.self s) (VoxWindow.audio_file_name e)
             (gui_saved e w blocks) _ (audio_file_name_not_empty e Habs)
             (gui_saved_lookup e w blocks) r Hnet Hok body Hj text Ht).
  cbn [fst snd].
  pose proof (window_session_state e (VoxWindow.self s) w blocks
                (FWav {| wav_rate := 16000; wav_channels := 1;
                         wav_samples := concat (map fst blocks) |}) body text) as HW.
  cbn zeta in HW. destruct HW as (H1 & H2 & H3 & H4 & H5 & H6 & H7 & _).
  split.
  { split; [reflexivity|]. split.
    - apply lookup_insert_eq.
    - apply session_tracker. }
  split.
  { eexists. split; [reflexivity|]. rewrite H6. repeat split. }
  subst name. auto 10.
Qed.

Lemma window_session_witness :
  let e := Demo.env_ok in
  let s := SampleWindow.ready in
  let w := Demo.fresh in
  let name := VoxWindow.audio_file_name e in
  let started := run_atomic (VoxWindow.start_recording e s) w in
  let stopped := exec (Ret tt) VoxGui.callback
                   (VoxWindow.stop_recording e (recording_controls s))
                   (map block_event Demo.blocks ++ repeat EvYield 1)%list (snd started) in
  (fst started = Returned (recording_controls s)
   /\ fs (snd started) !! VoxWindow.PID_FILE e = Some (FText (PyStr.str_of_Z (pid e)))
   /\ fs (snd started) !! VoxWindow.AUDIO_FILE_TRACKER e = Some (FText name))
  /\ (exists s',
        fst stopped = Returned s'
        /\ VoxWindow.start_button (VoxWindow.ui s') = true
        /\ VoxWindow.stop_button (VoxWindow.ui s') = false
        /\ VoxWindow.copy_button (VoxWindow.ui s') = negb (PyStr.is_empty Demo.transcript))
  /\ fs (snd stopped) !! name
     = Some (FWav {| wav_rate := 16000; wav_channels := 1;
                     wav_samples := concat (map fst Demo.blocks) |})
  /\ fs (snd stopped) !! json_file name = Some (FText (Json.dumps Demo.body))
  /\ fs (snd stopped) !! txt_file name = Some (FText (PyStr.rstrip Demo.transcript))
  /\ fs (snd stopped) !! error_file name = None
  /\ markers_absent e (snd stopped)
  /\ self_transcript (snd stopped) = JStr Demo.transcript
  /\ clipboard (snd stopped) = clipboard w.
Proof.
  apply (window_session (Ret tt) Demo.env_ok SampleWindow.ready Demo.fresh Demo.blocks 0
           Demo.reply_ok Demo.body Demo.transcript).
  - exists "home/u". reflexivity.
  - reflexivity.
  - discriminate.
  - reflexivity.
  - simpl. lia.
  - reflexivity.
  - reflexivity.
Defined.

(** X15. An empty session of the window: when Stop is pressed before any
    block arrived, the window shows "No audio data recorded.", removes the
    markers and re-enables Start with Copy disabled; no file is written and
    no request is sent, and unlike the terminal front end the process goes
    on. *)
Theorem window_empty_session (h : prog unit) (e : env) (s : VoxWindow.window) (w : world)
    (m : nat) :
  PyStr.is_empty (VoxGui.deepgram_api_key (VoxWindow.self s)) = false ->
  let started := run_atomic (VoxWindow.start_recording e s) w in
  let stopped := exec h VoxGui.callback
                   (VoxWindow.stop_recording e (recording_controls s))
                   (repeat EvYield (S m)) (snd started) in
  fst stopped = Returned (idle_controls false s)
  /\ status_label (snd stopped) = "No audio data recorded."
  /\ fs (snd stopped)
     = delete (VoxWindow.AUDIO_FILE_TRACKER e) (delete (VoxWindow.PID_FILE e) (fs w))
  /\ net_log (snd stopped) = net_log w
  /\ recording_process (snd stopped) = None
  /\ stop_event (snd stopped) = true.
Proof.
  intros Hkey started stopped. subst stopped started.
  rewrite (start_recording_run e s w Hkey). cbn [fst snd].
  change (repeat EvYield (S m)) with (map block_event [] ++ repeat EvYield (S m))%list.
  rewrite (stop_after_blocks h e (recording_controls s) w [] m).
  rewrite stop_recording_empty_run. cbn [fst snd].
  unfold gui_stopped, gui_recording. wproj. rewrite session_fs_end.
  split; [|repeat split].
  unfold idle_controls, recording_controls. destruct s as [sf u]. destruct u. reflexivity.
Qed.

Lemma window_empty_session_witness :
  let e := Demo.env_ok in
  let s := SampleWindow.ready in
  let w := Demo.fresh in
  let started := run_atomic (VoxWindow.start_recording e s) w in
  let stopped := exec (Ret tt) VoxGui.callback
                   (VoxWindow.stop_recording e (recording_controls s))
                   (repeat EvYield 3) (snd started) in
  fst stopped = Returned (idle_controls false s)
  /\ status_label (snd stopped) = "No audio data recorded."
  /\ fs (snd stopped)
     = delete (VoxWindow.AUDIO_FILE_TRACKER e) (delete (VoxWindow.PID_FILE e) (fs w))
  /\ net_log (snd stopped) = net_log w
  /\ recording_process (snd stopped) = None
  /\ stop_event (snd stopped) = true.
Proof.
  apply (window_empty_session (Ret tt) Demo.env_ok SampleWindow.ready Demo.fresh 2).
  reflexivity.
Defined.

(** X16. Start without a key: the window shows the error dialog and does
    nothing else; no marker is written, no stream is opened, and the
    controls stay as they are. *)
Theorem window_start_without_key (e : env) (s : VoxWindow.window) (w : world) :
  PyStr.is_empty (VoxGui.deepgram_api_key (VoxWindow.self s)) = true ->
  exists s',
    run_atomic (VoxWindow.start_recording e s) w = (Returned s', w)
    /\ VoxWindow.self s' = VoxWindow.self s
    /\ VoxWindow.message_boxes (VoxWindow.ui s')
       = (VoxWindow.message_boxes (VoxWindow.ui s)
          ++ [("Deepgram API key is required." ++ Json.nl
               ++ "Enter it in the input field or get one from "
               ++ "https://console.deepgram.com")%string])%list
    /\ VoxWindow.start_button (VoxWindow.ui s') = VoxWindow.start_button (VoxWindow.ui s)
    /\ VoxWindow.stop_button (VoxWindow.ui s') = VoxWindow.stop_button (VoxWindow.ui s)
    /\ VoxWindow.timer_active (VoxWindow.ui s') = VoxWindow.timer_active (VoxWindow.ui s).
Proof.
  intros Hkey. eexists. split; [apply (start_without_key_run e s w Hkey)|].
  repeat split.
Qed.

Lemma window_start_without_key_witness :
  exists s',
    run_atomic (VoxWindow.start_recording Demo.env_ok SampleWindow.no_key) Demo.fresh
    = (Returned s', Demo.fresh)
    /\ VoxWindow.self s' = VoxWindow.self SampleWindow.no_key
    /\ VoxWindow.message_boxes (VoxWindow.ui s')
       = (VoxWindow.message_boxes (VoxWindow.ui SampleWindow.no_key)
          ++ [("Deepgram API key is required." ++ Json.nl
               ++ "Enter it in the input field or get one from "
               ++ "https://console.deepgram.com")%string])%list
    /\ VoxWindow.start_button (VoxWindow.ui s')
       = VoxWindow.start_button (VoxWindow.ui SampleWindow.no_key)
    /\ VoxWindow.stop_button (VoxWindow.ui s')
       = VoxWindow.stop_button (VoxWindow.ui SampleWindow.no_key)
    /\ VoxWindow.timer_active (VoxWindow.ui s')
       = VoxWindow.timer_active (VoxWindow.ui SampleWindow.no_key).
Proof.
  apply (window_start_without_key Demo.env_ok SampleWindow.no_key Demo.fresh).
  reflexivity.
Defined.

(** X17. Stop without a session: when the PID marker is missing or there is
    no stream, the window shows "No recording to stop.", removes the
    markers, sets the stop event and returns with Start enabled and Stop and
    Copy disabled; nothing is saved. *)
Theorem window_stop_without_session (e : env) (s : VoxWindow.window) (w : world) :
  fs w !! VoxWindow.PID_FILE e = None \/ recording_process w = None ->
  let rw := run_atomic (VoxWindow.stop_recording e s) w in
  fst rw = Returned (idle_controls false s)
  /\ status_label (snd rw) = "No recording to stop."
  /\ fs (snd rw)
     = delete (VoxWindow.AUDIO_FILE_TRACKER e) (delete (VoxWindow.PID_FILE e) (fs w))
  /\ recording_process (snd rw) = None
  /\ stop_event (snd rw) = true
  /\ audio_data (snd rw) = audio_data w
  /\ net_log (snd rw) = net_log w.
Proof.
  intros H rw. subst rw. rewrite stop_recording_idle_run.
  - repeat split.
  - unfold file_exists. destruct H as [H|H]; rewrite H.
    + rewrite bool_decide_false by (intros [x Hx]; discriminate). reflexivity.
    + rewrite (bool_decide_false (is_Some None)) by (intros [x Hx]; discriminate).
      apply andb_false_r.
Qed.

Lemma window_stop_without_session_witness :
  let rw := run_atomic (VoxWindow.stop_recording Demo.env_ok SampleWindow.ready)
              Demo.world0 in
  fst rw = Returned (idle_controls false SampleWindow.ready)
  /\ status_label (snd rw) = "No recording to stop."
  /\ fs (snd rw)
     = delete (VoxWindow.AUDIO_FILE_TRACKER Demo.env_ok)
         (delete (VoxWindow.PID_FILE Demo.env_ok) (fs Demo.world0))
  /\ recording_process (snd rw) = None
  /\ stop_event (snd rw) = true
  /\ audio_data (snd rw) = audio_data Demo.world0
  /\ net_log (snd rw) = net_log Demo.world0.
Proof.
  apply (window_stop_without_session Demo.env_ok SampleWindow.ready Demo.world0).
  right. reflexivity.
Defined.

(** ** [cleanup], shutdown and the clipboard of the window *)

(** X18. [cleanup] of the window, unlike that of the terminal front end, also
    sets the stop event: afterwards the markers and the stream are gone, no
    other file is touched, and a block that the callback still receives is
    dropped, whatever its status. *)
Theorem window_cleanup_freezes_buffer (e : env) (w : world) (indata : ndarray)
    (status : string) :
  let w1 := snd (run_atomic (VoxWindow.cleanup e) w) in
  fst (run_atomic (VoxWindow.cleanup e) w) = Returned tt
  /\ stop_event w1 = true
  /\ recording_process w1 = None
  /\ markers_absent e w1
  /\ (forall p, p <> VoxWindow.PID_FILE e -> p <> VoxWindow.AUDIO_FILE_TRACKER e ->
                fs w1 !! p = fs w !! p)
  /\ audio_data w1 = audio_data w
  /\ audio_data (snd (run_atomic (VoxGui.callback indata status) w1)) = audio_data w.
Proof.
  intros w1. subst w1. rewrite gui_cleanup_run, gui_callback_run. cbn [fst snd].
  rewrite (world_eta w). wrew. wproj.
  split; [reflexivity|]. split; [reflexivity|]. split; [reflexivity|]. split.
  { unfold markers_absent. wproj. apply markers_absent_deleted. }
  split.
  { intros p HP HT. rewrite !lookup_delete_ne by (apply not_eq_sym; assumption).
    reflexivity. }
  split; [reflexivity|].
  destruct (PyStr.is_empty status); wrew; wproj; reflexivity.
Qed.

Lemma signal_handler_run e s w :
  run_atomic (VoxWindow.signal_handler e s) w
  = (Returned
       (VoxWindow.mkWindow (VoxWindow.self s)
          (VoxWindow.set_app_quit true
             (VoxWindow.set_tray_icon_visible false (VoxWindow.ui s)))),
     gui_stopped e "Shutting down..." w).
Proof.
  start_run (Ret tt : prog unit) VoxGui.callback w.
  - unfold VoxWindow.signal_handler, VoxWindow.quit_application. unfold_window.
    repeat xrun.
    destruct (recording_process w); unfold_window; repeat xrun; reflexivity.
  - unfold gui_stopped. wproj. rewrite delete_markers_twice. reflexivity.
Qed.

(** X19. Shutting the window down by a signal, even in the middle of a
    recording: the stream is dropped, the stop event is set, the markers are
    removed and no other file changes, so blocks in the buffer are not
    saved; the tray icon is hidden and the application is told to quit. The
    two calls of [cleanup] on the way amount to one. *)
Theorem window_shutdown (e : env) (s : VoxWindow.window) (w : world) :
  let rw := run_atomic (VoxWindow.signal_handler e s) w in
  (exists s',
     fst rw = Returned s'
     /\ VoxWindow.app_quit (VoxWindow.ui s') = true
     /\ VoxWindow.tray_icon_visible (VoxWindow.ui s') = false)
  /\ status_label (snd rw) = "Shutting down..."
  /\ fs (snd rw)
     = delete (VoxWindow.AUDIO_FILE_TRACKER e) (delete (VoxWindow.PID_FILE e) (fs w))
  /\ recording_process (snd rw) = None
  /\ stop_event (snd rw) = true
  /\ audio_data (snd rw) = audio_data w.
Proof.
  intros rw. subst rw. rewrite signal_handler_run. cbn [fst snd].
  split; [|repeat split].
  eexists. split; [reflexivity|]. destruct s as [sf u]. destruct u. split; reflexivity.
Qed.

Lemma copy_transcript_run (copy_value : json -> prog unit) w t :
  self_transcript w = JStr t ->
  run_atomic (VoxWindow.copy_transcript copy_value) w
  = (Returned tt,
     if PyStr.is_empty t then set_status_label "No transcript available to copy" w
     else set_status_label "Transcript copied to clipboard" (set_clipboard t w)).
Proof.
  intros Ht. unfold VoxWindow.copy_transcript. cbn [observe run_atomic].
  rewrite Ht. cbn [truthy]. destruct t as [|c t]; reflexivity.
Qed.

(** After a [transcribe] of the window that returned, [self.transcript] is
    a string. *)
Lemma returned_transcript_is_str e sf af w :
  fst (run_atomic (VoxGui.transcribe e sf af) w) = Returned tt ->
  exists t,
    self_transcript (snd (run_atomic (VoxGui.transcribe e sf af) w)) = JStr t
    /\ clipboard (snd (run_atomic (VoxGui.transcribe e sf af) w)) = clipboard w.
Proof.
  rewrite gui_transcribe_closed. unfold gui_transcribe_outcome.
  outcome_cases; cbn [fst snd]; intros Hr; try discriminate Hr;
    eexists; (split; [effects; reflexivity|effects; reflexivity]).
Qed.

(** X20. Copy after a transcription: whenever the window's [transcribe]
    returned, [copy_transcript] returns too, without ever handing
    [pyperclip] anything but a string: it puts the transcript kept in
    [self.transcript] on the clipboard when that is not empty, and otherwise
    (a failed transcription, or an empty transcript) says that there is
    nothing to copy and leaves the clipboard as it was before the
    transcription. *)
Theorem copy_after_transcribe (copy_value : json -> prog unit) (e : env)
    (sf : VoxGui.vox_window) (af : string) (w : world) :
  fst (run_atomic (VoxGui.transcribe e sf af) w) = Returned tt ->
  let w1 := snd (run_atomic (VoxGui.transcribe e sf af) w) in
  let rw := run_atomic (VoxWindow.copy_transcript copy_value) w1 in
  exists t,
    self_transcript w1 = JStr t
    /\ fst rw = Returned tt
    /\ clipboard (snd rw) = (if PyStr.is_empty t then clipboard w else Some t)
    /\ status_label (snd rw)
       = (if PyStr.is_empty t then "No transcript available to copy"
          else "Transcript copied to clipboard")
    /\ fs (snd rw) = fs w1.
Proof.
  intros Hr w1 rw. subst rw w1.
  destruct (returned_transcript_is_str e sf af w Hr) as (t & Ht & Hc).
  exists t. split; [exact Ht|].
  rewrite (copy_transcript_run copy_value _ t Ht). cbn [fst snd].
  split; [reflexivity|].
  destruct (PyStr.is_empty t).
  - rewrite (world_eta (snd (run_atomic (VoxGui.transcribe e sf af) w))) at 1 2 3.
    wrew. wproj. repeat split. exact Hc.
  - rewrite (world_eta (snd (run_atomic (VoxGui.transcribe e sf af) w))) at 1 2 3.
    wrew. wproj. repeat split.
Qed.

(** ** The timeout of a recording *)

Lemma await_blocks_gui (h : prog unit) e w bs blocks rest :
  await h VoxGui.callback (map block_event blocks ++ rest)%list (gui_recording e w bs)
  = await h VoxGui.callback rest (gui_recording e w (bs ++ blocks)).
Proof.
  revert bs. induction blocks as [|[fr st] blocks IH]; intros bs.
  - rewrite app_nil_r. reflexivity.
  - cbn [map app]. unfold block_event at 1. cbn [fst snd].
    unfold gui_recording at 1. cbn [await stop_event].
    unfold async. cbn [recording_process session_stream s_active].
    rewrite gui_callback_run. cbn [snd].
    replace (bs ++ (fr, st) :: blocks)%list with ((bs ++ [(fr, st)]) ++ blocks)%list
      by (rewrite <- app_assoc; reflexivity).
    rewrite <- IH. f_equal.
    unfold gui_recording, gui_label_after.
    rewrite map_app, fold_left_app. cbn [map fold_left snd fst indata_of].
    destruct (PyStr.is_empty st); wrew; wproj; wrew; reflexivity.
Qed.

Lemma thread_timeout_run (h : prog unit) e s w blocks m :
  exec h VoxGui.callback (VoxWindow.recording_thread e s)
    (EvYield :: map block_event blocks ++ EvTimeout :: repeat EvYield (S m))%list
    (gui_recording e w [])
  = run_atomic (VoxWindow.stop_recording e s)
      (set_stop_event true (gui_recording e w blocks)).
Proof.
  unfold VoxWindow.recording_thread. unfold_tree.
  rewrite exec_yield, exec_wait, await_blocks_gui. cbn [app].
  unfold gui_recording at 1. cbn [await stop_event repeat].
  rewrite exec_yield, exec_get. cbn [stop_event negb bind].
  rewrite exec_put. rewrite exec_yields. reflexivity.
Qed.

Lemma thread_idle_run e s w :
  stop_event w = true -> run_atomic (VoxWindow.recording_thread e s) w = (Returned s, w).
Proof.
  intros Hs. unfold VoxWindow.recording_thread.
  cbn [mbind prog_bind bind observe run_atomic]. rewrite Hs. reflexivity.
Qed.

(** X21. The timeout of a recording does what the Stop button does: when the
    wait of [recording_thread] ends by its timeout, after the same blocks,
    the thread leaves the window and the process exactly as
    [stop_recording] called at that moment would; and when the stop event is
    already set (Stop was pressed, or [cleanup] ran), the thread returns
    without doing anything. *)
Theorem timeout_stops_like_button (h : prog unit) (e : env) (s0 s : VoxWindow.window)
    (w : world) (blocks : list (list sample * string)) (m : nat) :
  absolute (home e) ->
  PyStr.is_empty (VoxGui.deepgram_api_key (VoxWindow.self s0)) = false ->
  let started := snd (run_atomic (VoxWindow.start_recording e s0) w) in
  exec h VoxGui.callback (VoxWindow.recording_thread e s)
    (EvYield :: map block_event blocks ++ EvTimeout :: repeat EvYield (S m))%list started
  = exec h VoxGui.callback (VoxWindow.stop_recording e s)
      (map block_event blocks ++ repeat EvYield (S m))%list started
  /\ (forall w', stop_event w' = true ->
                 run_atomic (VoxWindow.recording_thread e s) w' = (Returned s, w')).
Proof.
  intros Habs Hkey started. subst started.
  rewrite (start_recording_run e s0 w Hkey). cbn [snd].
  split; [|intros w' Hs; apply thread_idle_run; exact Hs].
  rewrite thread_timeout_run, stop_after_blocks.
  destruct blocks as [|b blocks].
  - rewrite stop_recording_empty_at, stop_recording_empty_run. reflexivity.
  - rewrite stop_recording_saved_at by (try exact Habs; discriminate).
    rewrite stop_recording_saved_run by (try exact Habs; discriminate). reflexivity.
Qed.

Lemma timeout_stops_like_button_witness :
  let started := snd (run_atomic (VoxWindow.start_recording Demo.env_ok SampleWindow.ready)
                        Demo.fresh) in
  exec (Ret tt) VoxGui.callback
    (VoxWindow.recording_thread Demo.env_ok (recording_controls SampleWindow.ready))
    (EvYield :: map block_event Demo.blocks ++ EvTimeout :: repeat EvYield 1)%list started
  = exec (Ret tt) VoxGui.callback
      (VoxWindow.stop_recording Demo.env_ok (recording_controls SampleWindow.ready))
      (map block_event Demo.blocks ++ repeat EvYield 1)%list started
  /\ (forall w', stop_event w' = true ->
                 run_atomic (VoxWindow.recording_thread Demo.env_ok
                               (recording_controls SampleWindow.ready)) w'
                 = (Returned (recording_controls SampleWindow.ready), w')).
Proof.
  apply (timeout_stops_like_button (Ret tt) Demo.env_ok SampleWindow.ready
           (recording_controls SampleWindow.ready) Demo.fresh Demo.blocks 0).
  - exists "home/u". reflexivity.
  - reflexivity.
Defined.

(** ** The duration field *)

Lemma update_duration_run text s w :
  run_atomic (VoxWindow.update_duration text s) w
  = match PyInt.int_of_str text with
    | Some d => if d <=? 0 then duration_rejected s w
                else (Returned (VoxWindow.set_max_duration d s), w)
    | None => duration_rejected s w
    end.
Proof.
  unfold VoxWindow.update_duration, duration_rejected.
  destruct (PyInt.int_of_str text) as [d|].
  - cbn [mbind prog_bind bind try_except run_atomic observe].
    destruct (d <=? 0); destruct w; reflexivity.
  - destruct w; reflexivity.
Qed.

(** X22. The duration field: whatever text arrives, [update_duration]
    returns and leaves a positive maximum duration. A text that [int]
    reads as a positive number sets it, and nothing else changes; any other
    text resets it to 120, shows the error and rewrites the field. The key
    and the model are never touched. *)
Theorem update_duration_positive (text : string) (s : VoxWindow.window) (w : world) :
  exists s',
    fst (run_atomic (VoxWindow.update_duration text s) w) = Returned s'
    /\ 0 < VoxGui.max_duration (VoxWindow.self s')
    /\ VoxGui.deepgram_api_key (VoxWindow.self s')
       = VoxGui.deepgram_api_key (VoxWindow.self s)
    /\ VoxGui.deepgram_model (VoxWindow.self s')
       = VoxGui.deepgram_model (VoxWindow.self s)
    /\ ((exists d, PyInt.int_of_str text = Some d /\ 0 < d
                   /\ VoxGui.max_duration (VoxWindow.self s') = d
                   /\ VoxWindow.ui s' = VoxWindow.ui s
                   /\ snd (run_atomic (VoxWindow.update_duration text s) w) = w)
        \/ ((forall d, PyInt.int_of_str text = Some d -> d <= 0)
            /\ VoxGui.max_duration (VoxWindow.self s') = 120
            /\ VoxWindow.duration_input_text (VoxWindow.ui s') = "120"
            /\ status_label (snd (run_atomic (VoxWindow.update_duration text s) w))
               = "Error: Max duration must be a positive integer")).
Proof.
  rewrite update_duration_run.
  destruct (PyInt.int_of_str text) as [d|] eqn:Hd.
  - destruct (d <=? 0) eqn:Hle.
    + apply Z.leb_le in Hle. eexists. split; [reflexivity|]. cbn [fst snd].
      split; [reflexivity|]. split; [reflexivity|]. split; [reflexivity|].
      right. split; [intros d' [= <-]; exact Hle|]. destruct w. repeat split.
    + apply Z.leb_gt in Hle. eexists. split; [reflexivity|]. cbn [fst snd].
      split; [exact Hle|]. split; [reflexivity|]. split; [reflexivity|].
      left. exists d. repeat split. exact Hle.
  - eexists. split; [reflexivity|]. cbn [fst snd].
    split; [reflexivity|]. split; [reflexivity|]. split; [reflexivity|].
    right. split; [intros d' [=]|]. destruct w. repeat split.
Qed.

(** *** Reading back what [str] prints *)

Lemma pretty_char_digit (x : N) :
  (x < 10)%N ->
  PyInt.is_digit (pretty_N_char x) = true
  /\ PyInt.digit_val (pretty_N_char x) = Z.of_N x.
Proof.
  intros Hx.
  assert (H : (x = 0 \/ x = 1 \/ x = 2 \/ x = 3 \/ x = 4 \/ x = 5 \/ x = 6 \/ x = 7
               \/ x = 8 \/ x = 9)%N) by lia.
  repeat (destruct H as [->|H]; [split; reflexivity|]). subst x. split; reflexivity.
Qed.

Lemma pretty_go_digits (x : N) (s : string) :
  all_digits s = true -> all_digits (pretty_N_go x s) = true.
Proof.
  revert s. induction (N.lt_wf_0 x) as [x _ IH]. intros s Hs.
  destruct (N.eq_dec x 0%N) as [->|Hx]; [rewrite pretty_N_go_0; exact Hs|].
  rewrite pretty_N_go_step by lia. apply IH.
  - apply N.div_lt; lia.
  - cbn [all_digits]. rewrite Hs.
    destruct (pretty_char_digit (x mod 10)) as [-> _]; [|reflexivity].
    apply N.mod_lt. lia.
Qed.

Lemma pretty_go_value (x : N) (s : string) :
  decimal_from 0 (pretty_N_go x s) = decimal_from (Z.of_N x) s.
Proof.
  revert s. induction (N.lt_wf_0 x) as [x _ IH]. intros s.
  destruct (N.eq_dec x 0%N) as [->|Hx]; [rewrite pretty_N_go_0; reflexivity|].
  rewrite pretty_N_go_step by lia. rewrite IH by (apply N.div_lt; lia).
  cbn [decimal_from].
  destruct (pretty_char_digit (x mod 10)) as [_ ->]; [apply N.mod_lt; lia|].
  f_equal. rewrite N2Z.inj_div, N2Z.inj_mod.
  change (Z.of_N 10) with 10. pose proof (Z.div_mod (Z.of_N x) 10). lia.
Qed.

Lemma pretty_go_length (k : nat) (x : N) (s : string) :
  (x < 10 ^ N.of_nat k)%N ->
  (String.length (pretty_N_go x s) <= k + String.length s)%nat.
Proof.
  revert x s. induction k as [|k IH]; intros x s Hx.
  - assert (x = 0%N) by (cbn in Hx; lia). subst x. rewrite pretty_N_go_0. lia.
  - destruct (N.eq_dec x 0%N) as [->|Hx0]; [rewrite pretty_N_go_0; lia|].
    rewrite pretty_N_go_step by lia.
    etransitivity; [apply IH|cbn [String.length]; lia].
    rewrite Nat2N.inj_succ, N.pow_succ_r' in Hx.
    apply N.Div0.div_lt_upper_bound. exact Hx.
Qed.

Lemma pretty_go_not_empty (x : N) (s : string) :
  (0 < x)%N -> pretty_N_go x s <> EmptyString.
Proof.
  revert s. induction (N.lt_wf_0 x) as [x _ IH]. intros s Hx.
  rewrite pretty_N_go_step by exact Hx.
  destruct (N.eq_dec (x / 10)%N 0%N) as [Hd|Hd].
  - rewrite Hd, pretty_N_go_0. discriminate.
  - apply IH.
    + apply N.div_lt; lia.
    + apply N.neq_0_lt_0. exact Hd.
Qed.

Lemma digit_not_space c : PyInt.is_digit c = true -> PyInt.is_space c = false.
Proof.
  unfold PyInt.is_digit, PyInt.is_space. cbv zeta. intros H.
  apply andb_true_iff in H as [H1 H2]. apply Z.leb_le in H1. apply Z.leb_le in H2.
  repeat match goal with
         | |- context [?a <=? ?b] => destruct (Z.leb_spec a b); try lia
         | |- context [?a =? ?b] => destruct (Z.eqb_spec a b); try lia
         end; reflexivity.
Qed.

Lemma digits_rstrip (s : string) : all_digits s = true -> PyInt.rstrip s = s.
Proof.
  induction s as [|c r IH]; [reflexivity|]. cbn [all_digits PyInt.rstrip].
  intros H. apply andb_true_iff in H as [Hc Hr]. rewrite (IH Hr).
  rewrite (digit_not_space c Hc). rewrite andb_false_r. reflexivity.
Qed.

Lemma digits_lstrip (s : string) : all_digits s = true -> PyInt.lstrip s = s.
Proof.
  destruct s as [|c r]; [reflexivity|]. cbn [all_digits PyInt.lstrip].
  intros H. apply andb_true_iff in H as [Hc _]. rewrite (digit_not_space c Hc). reflexivity.
Qed.

Lemma digits_read (s : string) (acc : Z) (n : nat) (b : bool) :
  all_digits s = true -> s <> EmptyString ->
  PyInt.digits acc n b s = Some (decimal_from acc s, (n + String.length s)%nat).
Proof.
  revert acc n b. induction s as [|c r IH]; intros acc n b Hs Hne; [congruence|].
  cbn [all_digits] in Hs. apply andb_true_iff in Hs as [Hc Hr].
  cbn [PyInt.digits decimal_from String.length]. rewrite Hc.
  destruct r as [|c' r'].
  - cbn. f_equal. f_equal. lia.
  - rewrite IH by (try exact Hr; discriminate). f_equal. f_equal. lia.
Qed.

Lemma digit_not_sign c (r : string) {A : Type} (x y z : A) :
  PyInt.is_digit c = true ->
  match String c r with
  | String "+" _ => x
  | String "-" _ => y
  | _ => z
  end = z.
Proof.
  destruct c as [[] [] [] [] [] [] [] []]; intros H; try discriminate H; reflexivity.
Qed.

Lemma int_of_digits (s : string) :
  all_digits s = true -> s <> EmptyString ->
  (String.length s <= PyInt.max_str_digits)%nat ->
  PyInt.int_of_str s = Some (decimal_from 0 s).
Proof.
  intros Hs Hne Hlen. unfold PyInt.int_of_str.
  rewrite (digits_rstrip s Hs), (digits_lstrip s Hs).
  destruct s as [|c r]; [congruence|].
  assert (Hc : PyInt.is_digit c = true)
    by (cbn [all_digits] in Hs; apply andb_true_iff in Hs as [Hc _]; exact Hc).
  rewrite (digit_not_sign c r _ _ _ Hc).
  rewrite (digits_read (String c r) 0 0 false Hs Hne). cbn [Nat.add].
  apply Nat.leb_le in Hlen. rewrite Hlen. reflexivity.
Qed.

Lemma int_of_str_of_Z (n : Z) :
  0 < n < 10 ^ 4300 -> PyInt.int_of_str (PyStr.str_of_Z n) = Some n.
Proof.
  intros [Hpos Hlt]. destruct n as [|p|p]; try lia.
  unfold PyStr.str_of_Z, pretty, pretty_Z, pretty, pretty_positive, pretty, pretty_N.
  rewrite decide_False by discriminate.
  rewrite int_of_digits.
  - rewrite pretty_go_value. reflexivity.
  - apply pretty_go_digits. reflexivity.
  - apply pretty_go_not_empty. lia.
  - pose proof (pretty_go_length 4300 (N.pos p) EmptyString) as H.
    cbn [String.length] in H. rewrite Nat.add_0_r in H. apply H.
    apply N2Z.inj_lt. rewrite N2Z.inj_pow. exact Hlt.
Qed.

(** X23. The duration field reads back what [str] prints: for every positive
    number [n] (of at most 4300 digits, the limit of [int]), the text
    [str(n)] sets the maximum duration to [n] and changes nothing else. *)
Theorem update_duration_accepts (n : Z) (s : VoxWindow.window) (w : world) :
  0 < n < 10 ^ 4300 ->
  run_atomic (VoxWindow.update_duration (PyStr.str_of_Z n) s) w
  = (Returned (VoxWindow.set_max_duration n s), w).
Proof.
  intros Hn. rewrite update_duration_run, (int_of_str_of_Z n Hn).
  destruct (Z.leb_spec n 0); [lia|reflexivity].
Qed.

Lemma update_duration_accepts_witness :
  run_atomic (VoxWindow.update_duration (PyStr.str_of_Z 300) SampleWindow.ready) Demo.fresh
  = (Returned (VoxWindow.set_max_duration 300 SampleWindow.ready), Demo.fresh).
Proof.
  apply (update_duration_accepts 300 SampleWindow.ready Demo.fresh).
  split; [lia|vm_compute; reflexivity].
Defined.

(** The field on sample texts: spaces around and underscores between
    digits are accepted, as [int] accepts them; a zero, a negative number, a
    fraction, an empty text and FS before the number are not. *)
Example update_duration_samples :
  map (fun t => VoxGui.max_duration
                  (VoxWindow.self
                     match fst (run_atomic (VoxWindow.update_duration t SampleWindow.ready)
                                  Demo.fresh) with
                     | Returned s' => s'
                     | _ => SampleWindow.ready
                     end))
    [" 45 "; "1_000"; "007"; "0"; "-5"; "1.5"; EmptyString; "abc";
     String (ascii_of_N 28) "45"]
  = [45; 1000; 7; 120; 120; 120; 120; 120; 120].
Proof. vm_compute. reflexivity. Qed.

(** ** Settings and debug mode of the window *)




Lemma toggle_debug_run s w :
  run_atomic (VoxWindow.toggle_debug s) w
  = (Returned
       (VoxWindow.mkWindow (VoxWindow.self s)
          (VoxWindow.set_debug_button_text
             (if DEBUG w then "Enable Debug Mode" else "Disable Debug Mode")
             (VoxWindow.ui s))),
     set_status_label ("Debug mode " ++ (if DEBUG w then "disabled" else "enabled"))
       (set_DEBUG (negb (DEBUG w)) w)).
Proof.
  destruct w as [f rp ad se ms si dbg out err clip net sl tr].
  destruct dbg; reflexivity.
Qed.

Section SameButStderrGui.

Variables (w1 w2 : world).
Hypothesis H : same_but_stderr w1 w2.

Ltac sbs := destruct H as (? & ? & ? & ?); destruct w1, w2; cbn in *; subst;
            repeat split; reflexivity.

Lemma sbs_set_status_label s s' :
  same_but_stderr (set_status_label s w1) (set_status_label s' w2).
Proof. sbs. Qed.

Lemma sbs_set_status_label_l s : same_but_stderr (set_status_label s w1) w2.
Proof. sbs. Qed.

Lemma sbs_set_status_label_r s : same_but_stderr w1 (set_status_label s w2).
Proof. sbs. Qed.

Lemma sbs_set_self_transcript t :
  same_but_stderr (set_self_transcript t w1) (set_self_transcript t w2).
Proof. sbs. Qed.

End SameButStderrGui.

Lemma sbs_gui_debug_echo af body w1 w2 :
  same_but_stderr w1 w2 ->
  same_but_stderr (gui_debug_echo af body w1) (gui_debug_echo af body w2).
Proof.
  intros H. unfold gui_debug_echo. destruct (DEBUG w1), (DEBUG w2).
  - apply sbs_print_err, sbs_print_err, sbs_set_status_label, H.
  - apply sbs_print_err_l, sbs_print_err_l, sbs_set_status_label_l, H.
  - apply sbs_print_err_r, sbs_print_err_r, sbs_set_status_label_r, H.
  - exact H.
Qed.

Ltac sbs_gui_steps :=
  repeat lazymatch goal with
         | |- same_but_stderr (write_file _ _ _) (write_file _ _ _) => apply sbs_write_file
         | |- same_but_stderr (unlink _ _) (unlink _ _) => apply sbs_unlink
         | |- same_but_stderr (log_request _ _) (log_request _ _) => apply sbs_log_request
         | |- same_but_stderr (set_status_label _ _) (set_status_label _ _) =>
             apply sbs_set_status_label
         | |- same_but_stderr (set_self_transcript _ _) (set_self_transcript _ _) =>
             apply sbs_set_self_transcript
         | |- same_but_stderr (gui_debug_echo _ _ _) (gui_debug_echo _ _ _) =>
             apply sbs_gui_debug_echo
         end.

(** The window's [transcribe] from two states that agree but for the error
    stream, the status label and the debug flag. *)
Lemma gui_transcribe_same_but_stderr e sf af w1 w2 :
  same_but_stderr w1 w2 ->
  fst (run_atomic (VoxGui.transcribe e sf af) w1)
  = fst (run_atomic (VoxGui.transcribe e sf af) w2)
  /\ same_but_stderr (snd (run_atomic (VoxGui.transcribe e sf af) w1))
                     (snd (run_atomic (VoxGui.transcribe e sf af) w2))
  /\ (fst (run_atomic (VoxGui.transcribe e sf af) w1) = Returned tt ->
      self_transcript (snd (run_atomic (VoxGui.transcribe e sf af) w1))
      = self_transcript (snd (run_atomic (VoxGui.transcribe e sf af) w2))
      /\ status_label (snd (run_atomic (VoxGui.transcribe e sf af) w1))
         = status_label (snd (run_atomic (VoxGui.transcribe e sf af) w2))).
Proof.
  intros H. rewrite !gui_transcribe_closed. unfold gui_transcribe_outcome.
  unfold file_exists. destruct H as (Hf & Hrest). rewrite Hf.
  assert (H : same_but_stderr w1 w2) by (split; assumption).
  outcome_cases; cbn [fst snd]; (split; [reflexivity|]);
    (split;
     [unfold gui_transcribed, gui_stored, gui_transport_failed, gui_failed, gui_requested;
      sbs_gui_steps; exact H
     |intros Hr; try discriminate Hr;
      unfold gui_transcribed, gui_stored, gui_transport_failed, gui_failed, gui_requested;
      split;
      rewrite (world_eta w1), (world_eta w2); unfold gui_debug_echo; wproj;
      destruct (DEBUG w1), (DEBUG w2); wrew; wproj; reflexivity]).
Qed.

(** X25. The debug button changes what is shown, not what is stored:
    [toggle_debug] flips the mode, names the opposite action on its button
    and reports the new mode; a transcription after it ends the same way as
    one without it, with the same files, requests, clipboard and standard
    output, and, when it returns, the same transcript and status text. *)
Theorem debug_toggle_changes_output_only (e : env) (sf : VoxGui.vox_window)
    (af : string) (s : VoxWindow.window) (w : world) :
  let t := run_atomic (VoxWindow.toggle_debug s) w in
  let after := run_atomic (VoxGui.transcribe e sf af) (snd t) in
  let plain := run_atomic (VoxGui.transcribe e sf af) w in
  DEBUG (snd t) = negb (DEBUG w)
  /\ (exists s1,
        fst t = Returned s1
        /\ VoxWindow.debug_button_text (VoxWindow.ui s1)
           = (if DEBUG (snd t) then "Disable Debug Mode" else "Enable Debug Mode"))
  /\ status_label (snd t)
     = "Debug mode " ++ (if DEBUG (snd t) then "enabled" else "disabled")
  /\ fst after = fst plain
  /\ same_but_stderr (snd after) (snd plain)
  /\ (fst after = Returned tt ->
      self_transcript (snd after) = self_transcript (snd plain)
      /\ status_label (snd after) = status_label (snd plain)).
Proof.
  intros t after plain. subst after plain t. rewrite toggle_debug_run. cbn [fst snd].
  assert (Hs : same_but_stderr
                 (set_status_label
                    ("Debug mode " ++ (if DEBUG w then "disabled" else "enabled"))
                    (set_DEBUG (negb (DEBUG w)) w)) w)
    by (apply sbs_set_status_label_l, sbs_set_DEBUG).
  destruct (gui_transcribe_same_but_stderr e sf af _ w Hs) as (H1 & H2 & H3).
  split; [destruct w as [f rp ad se ms si dbg out err clip net sl tr]; reflexivity|].
  split.
  { eexists. split; [reflexivity|].
    destruct w as [f rp ad se ms si dbg out err clip net sl tr]. destruct dbg; reflexivity. }
  split.
  { destruct w as [f rp ad se ms si dbg out err clip net sl tr]. destruct dbg; reflexivity. }
  auto.
Qed.

(** ** The clipboards of the two front ends *)

(** X26. After Copy the two front ends agree, but for an empty transcript:
    on the same successful response the terminal front end has the
    transcript on the clipboard, and so has the window once Copy is used, if
    the transcript is not empty; an empty transcript the terminal front end
    still copies, emptying the clipboard, while the window refuses and
    leaves the clipboard as it was. The files are the same in both. *)
Theorem copy_matches_terminal (copy_value : json -> prog unit) (e : env)
    (sf : VoxGui.vox_window) (af : string) (w : world) (content : fcontent)
    (r : response) (body : json) (text : string) :
  PyStr.is_empty af = false ->
  fs w !! af = Some content ->
  endpoint e (Vox.request_for e content) = NetReply r ->
  endpoint e (VoxGui.request_for sf content) = NetReply r ->
  http_error_msg r = None ->
  resp_json r = inr body ->
  Json.transcript_of body = inr (JStr text) ->
  let t := snd (run_atomic (Vox.transcribe e af) w) in
  let g := snd (run_atomic (VoxWindow.copy_transcript copy_value)
                  (snd (run_atomic (VoxGui.transcribe e sf af) w))) in
  clipboard t = Some text
  /\ clipboard g = (if PyStr.is_empty text then clipboard w else Some text)
  /\ fs g = fs t.
Proof.
  intros Hname Hfile Hnet Hgnet Hok Hj Ht t g. subst t g.
  rewrite (transcribe_success e af w content Hname Hfile r Hnet Hok body Hj text Ht).
  rewrite (gui_transcribe_success e sf af w content Hname Hfile r Hgnet Hok body Hj text Ht).
  cbn [snd].
  assert (Hself : self_transcript (gui_transcribed sf af content body text w) = JStr text)
    by (effects; reflexivity).
  rewrite (copy_transcript_run copy_value _ text Hself). cbn [snd].
  split; [effects; reflexivity|].
  destruct (PyStr.is_empty text); effects; split; reflexivity.
Qed.

Lemma copy_matches_terminal_witness :
  let t := snd (run_atomic (Vox.transcribe Demo.env_ok Demo.audio) Demo.world0) in
  let g := snd (run_atomic (VoxWindow.copy_transcript (fun _ => Raise TypeError))
                  (snd (run_atomic (VoxGui.transcribe Demo.env_ok Demo.window Demo.audio)
                          Demo.world0))) in
  clipboard t = Some Demo.transcript
  /\ clipboard g = (if PyStr.is_empty Demo.transcript then clipboard Demo.world0
                    else Some Demo.transcript)
  /\ fs g = fs t.
Proof.
  apply (copy_matches_terminal (fun _ => Raise TypeError) Demo.env_ok Demo.window
           Demo.audio Demo.world0 Demo.clip Demo.reply_ok Demo.body Demo.transcript);
    reflexivity.
Defined.

Lemma copy_after_transcribe_witness :
  let w1 := snd (run_atomic (VoxGui.transcribe Demo.env_500 Demo.window Demo.audio)
                   Demo.world0) in
  let rw := run_atomic (VoxWindow.copy_transcript (fun _ => Raise TypeError)) w1 in
  exists t,
    self_transcript w1 = JStr t
    /\ fst rw = Returned tt
    /\ clipboard (snd rw) = (if PyStr.is_empty t then clipboard Demo.world0 else Some t)
    /\ status_label (snd rw)
       = (if PyStr.is_empty t then "No transcript available to copy"
          else "Transcript copied to clipboard")
    /\ fs (snd rw) = fs w1.
Proof.
  apply (copy_after_transcribe (fun _ => Raise TypeError) Demo.env_500 Demo.window
           Demo.audio Demo.world0).
  vm_compute. reflexivity.
Defined.


